(** * HORP menu filtering engine: a shallow embedding of [src/engine.js]

    The engine classifies the items of a menu catalog against a diner's
    profile.  Every function of [engine.js] is transcribed below as a Rocq
    function of the same name; the properties of the specification are
    stated and proved further down.

    Conventions of the embedding.
    - JS strings are [string]; [===] on strings is [String.eqb].
    - A JS array is a [list]; [arr.includes x] is [includes arr x],
      [arr.join(', ')] is [join ", " arr], [push] appends at the end.
    - Optional array fields of catalog records are always read through
      [x || []] (or [x && ...]) in the source, so an absent field is
      represented by the empty list; likewise an absent [when] is the
      trigger with two empty lists.
    - A JS object used as a dictionary is a [gmap string _].  The keys met
      here are allergen identifiers of the catalog; names inherited from
      [Object.prototype] are not allergen identifiers and are outside the
      model of the engine's functions.  The HTTP handler answers whatever
      it is sent, so its model does account for them: see
      [objectPrototypeNames].
    - [itemStatus] is mutated in place by the checks; here every check
      takes the status and returns the updated one next to its verdict.
    - The catalog [menuData.items] is read once from [menu.json], which is
      data and not code: it is a variable of the development. *)

From Stdlib Require Import String Ascii List Bool Arith Lia Permutation.
From stdpp Require Import gmap strings list fin_maps.

Import ListNotations.
Open Scope string_scope.

(** ** Data model *)

Record Component := mkComponent {
  name : string;
  contains_allergens : list string;
  contains_ingredient_flags : list string;
  notes : option string
}.

(** [mod.when] *)
Record Trigger := mkTrigger {
  avoid_allergens : list string;
  avoid_ingredient_flags : list string
}.

Record Modification := mkModification {
  action : string;
  target_component : string;
  substitute_with : string;
  when : Trigger
}.

Record MenuItem := mkMenuItem {
  item_id : string;
  item_name : string;
  item_category : string;
  components : list Component;
  modifications : list Modification;
  tags : list string;
  cross_contact_risk : list string
}.

(** The per-item verdict built by [filterByDietaryAndAllergies]; the last
    three fields are the ones added later by the categorisation
    ([modifications]) and by [filterByTolerance]. *)
Record ItemStatus := mkItemStatus {
  id : string;
  status_name : string;
  category : string;
  reasons : list string;
  status_modifications : option (list Modification);
  tolerance_notes : option (list string);
  toleranceAllowed : bool
}.

Record Results := mkResults {
  safe : list ItemStatus;
  filtered : list ItemStatus;
  canBeModified : list ItemStatus
}.

(** ** Array helpers *)

Definition includes (arr : list string) (x : string) : bool :=
  existsb (String.eqb x) arr.

Definition join (sep : string) (arr : list string) : string :=
  String.concat sep arr.

Definition nonEmpty {A} (arr : list A) : bool := Nat.ltb 0 (length arr).

(** [itemStatus.reasons.push(r)] *)
Definition push_reason (itemStatus : ItemStatus) (r : string) : ItemStatus :=
  {| id := id itemStatus;
     status_name := status_name itemStatus;
     category := category itemStatus;
     reasons := reasons itemStatus ++ [r];
     status_modifications := status_modifications itemStatus;
     tolerance_notes := tolerance_notes itemStatus;
     toleranceAllowed := toleranceAllowed itemStatus |}.

(** ** [isRelatedToAllergen] and [isAllergenTolerable] *)

Definition relations : gmap string (list string) :=
  {[ "sesame" := ["sesame_seed"; "sesame_oil"];
     "peanut" := ["peanut_oil"];
     "gluten" := ["soy_sauce"];
     "shellfish" := ["oyster_sauce"] ]}.

Definition isRelatedToAllergen (flag allergen : string) : bool :=
  let relatedFlags := default [] (relations !! allergen) in
  includes relatedFlags flag.

Definition isAllergenTolerable (component : Component) (allergen : string)
    (tolerateFlags : list string) : bool :=
  if Nat.eqb (length tolerateFlags) 0 then false
  else
    let componentFlags := contains_ingredient_flags component in
    let toleratedFormsOfAllergen :=
      List.filter (fun flag => isRelatedToAllergen flag allergen) tolerateFlags in
    existsb (fun toleratedFlag => includes componentFlags toleratedFlag)
            toleratedFormsOfAllergen.

(** ** [checkDietaryCompliance] *)

Definition not_vegetarian_reason : string :=
  "Contains meat or animal products - not vegetarian".
Definition not_vegan_reason : string :=
  "Contains dairy, eggs or animal products - not vegan".

(** The [for (const pref of dietaryPreferences)] loop, with its two early
    returns. *)
Fixpoint checkDietaryCompliance_loop (vegetarianItems veganItems : bool)
    (prefs : list string) (itemStatus : ItemStatus) : bool * ItemStatus :=
  match prefs with
  | [] => (true, itemStatus)
  | pref :: rest =>
      if (pref =? "vegetarian") && negb vegetarianItems then
        (false, push_reason itemStatus not_vegetarian_reason)
      else if (pref =? "vegan") && negb veganItems then
        (false, push_reason itemStatus not_vegan_reason)
      else checkDietaryCompliance_loop vegetarianItems veganItems rest itemStatus
  end.

Definition checkDietaryCompliance (item : MenuItem)
    (dietaryPreferences : list string) (itemStatus : ItemStatus)
    : bool * ItemStatus :=
  if Nat.eqb (length dietaryPreferences) 0 then (true, itemStatus)
  else
    let vegetarianItems := includes (tags item) "vegetarian" in
    let veganItems := includes (tags item) "vegan" in
    checkDietaryCompliance_loop vegetarianItems veganItems
      dietaryPreferences itemStatus.

(** ** [checkCompliance] *)

(** The double-quote character that the reason templates put around a
    component name. *)
Definition dquote : string := String (Ascii.ascii_of_nat 34) EmptyString.

Definition intolerable_reason (component : Component)
    (intolerablea : list string) : string :=
  dquote ++ name component ++ dquote ++ " contains intolerable allergen(s): "
       ++ join ", " intolerablea.

Definition tolerated_reason (component : Component)
    (tolerableAllergens : list string) : string :=
  dquote ++ name component ++ dquote ++ " contains tolerated form: "
       ++ join ", " tolerableAllergens.

Definition flag_reason (component : Component)
    (forbiddenFlags : list string) : string :=
  dquote ++ name component ++ dquote ++ " contains ingredient flag(s): "
       ++ join ", " forbiddenFlags.

Definition cross_contact_reason (forbiddenRisks : list string) : string :=
  "Cross-contact risk: " ++ join ", " forbiddenRisks.

(** The three arrays computed for one component by both compliance
    checks. *)
Definition forbiddenAllergens_of (allergies : list string)
    (component : Component) : list string :=
  List.filter (fun allergen => includes allergies allergen)
              (contains_allergens component).

Definition tolerableAllergens_of (allergies tolerateFlags : list string)
    (component : Component) : list string :=
  List.filter (fun allergen => isAllergenTolerable component allergen tolerateFlags)
              (forbiddenAllergens_of allergies component).

Definition intolerablea_of (allergies tolerateFlags : list string)
    (component : Component) : list string :=
  List.filter
    (fun a => negb (includes (tolerableAllergens_of allergies tolerateFlags component) a))
    (forbiddenAllergens_of allergies component).

Definition forbiddenFlags_of (avoidIngredientFlags : list string)
    (component : Component) : list string :=
  List.filter (fun flag => includes avoidIngredientFlags flag)
              (contains_ingredient_flags component).

(** Body of the [forEach] over [item.components] in [checkCompliance]; the
    accumulator is the pair of the local [hasIssue] and the status. *)
Definition checkCompliance_component
    (allergies avoidIngredientFlags tolerateFlags : list string)
    (acc : bool * ItemStatus) (component : Component) : bool * ItemStatus :=
  let '(hasIssue, itemStatus) := acc in
  let forbiddenAllergens := forbiddenAllergens_of allergies component in
  let '(hasIssue, itemStatus) :=
    if nonEmpty forbiddenAllergens then
      let tolerableAllergens :=
        tolerableAllergens_of allergies tolerateFlags component in
      let intolerablea := intolerablea_of allergies tolerateFlags component in
      if nonEmpty intolerablea then
        (true, push_reason itemStatus (intolerable_reason component intolerablea))
      else if nonEmpty tolerableAllergens then
        (hasIssue,
         push_reason itemStatus (tolerated_reason component tolerableAllergens))
      else (hasIssue, itemStatus)
    else (hasIssue, itemStatus) in
  let forbiddenFlags := forbiddenFlags_of avoidIngredientFlags component in
  if nonEmpty forbiddenFlags then
    (true, push_reason itemStatus (flag_reason component forbiddenFlags))
  else (hasIssue, itemStatus).

(** The cross-contact block that ends both compliance checks. *)
Definition checkCrossContact (crossContactRisk allergies : list string)
    (crossContactOk : bool) (acc : bool * ItemStatus) : bool * ItemStatus :=
  let '(hasIssue, itemStatus) := acc in
  if negb crossContactOk && nonEmpty crossContactRisk then
    let forbiddenRisks :=
      List.filter (fun risk => includes allergies risk) crossContactRisk in
    if nonEmpty forbiddenRisks then
      (true, push_reason itemStatus (cross_contact_reason forbiddenRisks))
    else (hasIssue, itemStatus)
  else (hasIssue, itemStatus).

Definition checkCompliance (item : MenuItem)
    (allergies avoidIngredientFlags : list string) (crossContactOk : bool)
    (tolerateFlags : list string) (itemStatus : ItemStatus)
    : bool * ItemStatus :=
  if Nat.eqb (length allergies) 0 && Nat.eqb (length avoidIngredientFlags) 0
  then (true, itemStatus)
  else
    let acc :=
      fold_left
        (checkCompliance_component allergies avoidIngredientFlags tolerateFlags)
        (components item) (false, itemStatus) in
    let '(hasIssue, itemStatus) :=
      checkCrossContact (cross_contact_risk item) allergies crossContactOk acc in
    (negb hasIssue, itemStatus).

(** ** [checkComplianceOnComponents] *)

(** Body of its [forEach]: as above, without the tolerated-form note. *)
Definition checkComplianceOnComponents_component
    (allergies avoidIngredientFlags tolerateFlags : list string)
    (acc : bool * ItemStatus) (component : Component) : bool * ItemStatus :=
  let '(hasIssue, itemStatus) := acc in
  let forbiddenAllergens := forbiddenAllergens_of allergies component in
  let '(hasIssue, itemStatus) :=
    if nonEmpty forbiddenAllergens then
      let intolerablea := intolerablea_of allergies tolerateFlags component in
      if nonEmpty intolerablea then
        (true, push_reason itemStatus (intolerable_reason component intolerablea))
      else (hasIssue, itemStatus)
    else (hasIssue, itemStatus) in
  let forbiddenFlags := forbiddenFlags_of avoidIngredientFlags component in
  if nonEmpty forbiddenFlags then
    (true, push_reason itemStatus (flag_reason component forbiddenFlags))
  else (hasIssue, itemStatus).

Definition checkComplianceOnComponents (comps : list Component)
    (crossContactRisk allergies avoidIngredientFlags : list string)
    (crossContactOk : bool) (tolerateFlags : list string)
    (itemStatus : ItemStatus) : bool * ItemStatus :=
  if Nat.eqb (length allergies) 0 && Nat.eqb (length avoidIngredientFlags) 0
  then (true, itemStatus)
  else
    let acc :=
      fold_left
        (checkComplianceOnComponents_component
           allergies avoidIngredientFlags tolerateFlags)
        comps (false, itemStatus) in
    let '(hasIssue, itemStatus) :=
      checkCrossContact crossContactRisk allergies crossContactOk acc in
    (negb hasIssue, itemStatus).

(** ** Modifications *)

(** The arrow function given to [filter] in [getApplicableModifications];
    [canModificationsMakeItemSafe] repeats it verbatim. *)
Definition isApplicable (allergies avoidIngredientFlags : list string)
    (modif : Modification) : bool :=
  if nonEmpty (avoid_allergens (when modif))
     && existsb (fun allergen => includes allergies allergen)
                (avoid_allergens (when modif))
  then true
  else if nonEmpty (avoid_ingredient_flags (when modif))
          && existsb (fun flag => includes avoidIngredientFlags flag)
                     (avoid_ingredient_flags (when modif))
  then true
  else false.

Definition getApplicableModifications (item : MenuItem)
    (allergies avoidIngredientFlags : list string) : list Modification :=
  List.filter (isApplicable allergies avoidIngredientFlags) (modifications item).

(** [JSON.parse(JSON.stringify(x))] on component data is a structural copy:
    the identity on values. *)
Definition deepCopy (comps : list Component) : list Component := comps.

Definition applyModification (comps : list Component)
    (modification : Modification) : list Component :=
  let effectiveComponents := deepCopy comps in
  if action modification =? "remove" then
    List.filter
      (fun comp => negb (name comp =? target_component modification))
      effectiveComponents
  else if action modification =? "substitute" then
    List.map
      (fun comp =>
         if name comp =? target_component modification then
           {| name := target_component modification;
              contains_allergens := [];
              contains_ingredient_flags := [];
              notes := Some ("substituted with " ++ substitute_with modification) |}
         else comp)
      effectiveComponents
  else effectiveComponents.

(** [testStatus = { reasons: [] }] *)
Definition testStatus : ItemStatus :=
  {| id := EmptyString; status_name := EmptyString; category := EmptyString;
     reasons := [];
     status_modifications := None; tolerance_notes := None;
     toleranceAllowed := false |}.

Definition canModificationsMakeItemSafe (item : MenuItem)
    (allergies avoidIngredientFlags : list string) (crossContactOk : bool)
    (tolerateFlags : list string) : bool :=
  if Nat.eqb (length (modifications item)) 0 then false
  else
    let applicableMods :=
      List.filter (isApplicable allergies avoidIngredientFlags)
                  (modifications item) in
    if Nat.eqb (length applicableMods) 0 then false
    else
      let effectiveComponents :=
        fold_left applyModification applicableMods
                  (deepCopy (components item)) in
      let '(isNowSafe, _) :=
        checkComplianceOnComponents effectiveComponents
          (cross_contact_risk item) allergies avoidIngredientFlags
          crossContactOk tolerateFlags testStatus in
      isNowSafe.

(** ** Layer 1: [filterByDietaryAndAllergies] *)

Definition push_safe (results : Results) (s : ItemStatus) : Results :=
  {| safe := safe results ++ [s];
     filtered := filtered results;
     canBeModified := canBeModified results |}.

Definition push_filtered (results : Results) (s : ItemStatus) : Results :=
  {| safe := safe results;
     filtered := filtered results ++ [s];
     canBeModified := canBeModified results |}.

Definition push_canBeModified (results : Results) (s : ItemStatus) : Results :=
  {| safe := safe results;
     filtered := filtered results;
     canBeModified := canBeModified results ++ [s] |}.

(** [itemStatus.modifications = applicableMods] *)
Definition set_modifications (itemStatus : ItemStatus)
    (mods : list Modification) : ItemStatus :=
  {| id := id itemStatus;
     status_name := status_name itemStatus;
     category := category itemStatus;
     reasons := reasons itemStatus;
     status_modifications := Some mods;
     tolerance_notes := tolerance_notes itemStatus;
     toleranceAllowed := toleranceAllowed itemStatus |}.

(** The fresh [itemStatus] literal opening the loop body. *)
Definition newItemStatus (item : MenuItem) : ItemStatus :=
  {| id := item_id item;
     status_name := item_name item;
     category := item_category item;
     reasons := [];
     status_modifications := None;
     tolerance_notes := None;
     toleranceAllowed := false |}.

(** Body of the [forEach] over the catalog. *)
Definition filterItem
    (dietaryPreferences allergies avoidIngredientFlags : list string)
    (crossContactOk : bool) (tolerateFlags : list string)
    (results : Results) (item : MenuItem) : Results :=
  let itemStatus := newItemStatus item in
  let '(isDietaryCompliant, itemStatus) :=
    checkDietaryCompliance item dietaryPreferences itemStatus in
  let '(isCompliant, itemStatus) :=
    checkCompliance item allergies avoidIngredientFlags crossContactOk
                    tolerateFlags itemStatus in
  let '(canBeModifiedToSafe, applicableMods) :=
    if negb isCompliant && nonEmpty (modifications item) then
      let canBeModifiedToSafe :=
        canModificationsMakeItemSafe item allergies avoidIngredientFlags
                                     crossContactOk tolerateFlags in
      if canBeModifiedToSafe then
        (canBeModifiedToSafe,
         getApplicableModifications item allergies avoidIngredientFlags)
      else (canBeModifiedToSafe, [])
    else (false, []) in
  if isDietaryCompliant && isCompliant then push_safe results itemStatus
  else if canBeModifiedToSafe then
    push_canBeModified results (set_modifications itemStatus applicableMods)
  else push_filtered results itemStatus.

Definition emptyResults : Results :=
  {| safe := []; filtered := []; canBeModified := [] |}.

Section Engine.

(** [menuData.items || []] *)
Variable menuData_items : list MenuItem.

Definition filterByDietaryAndAllergies
    (dietaryPreferences allergies avoidIngredientFlags : list string)
    (crossContactOk : bool) (tolerateFlags : list string) : Results :=
  fold_left
    (filterItem dietaryPreferences allergies avoidIngredientFlags
                crossContactOk tolerateFlags)
    menuData_items emptyResults.

(** ** Layer 2: [filterByTolerance] *)

Record ToleranceForm := mkToleranceForm { flag : string; key : string }.

Definition toleranceMapping : gmap string ToleranceForm :=
  {[ "gluten" := {| flag := "soy_sauce"; key := "canUseSoySauce" |};
     "shellfish" := {| flag := "oyster_sauce"; key := "canUseOysterSauce" |};
     "peanut" := {| flag := "peanut_oil"; key := "canUsePeanutOil" |};
     "sesame" := {| flag := "sesame_oil"; key := "canUseSesameOil" |} ]}.

(** One iteration of the [for (const component of components)] loop:
    [false] is the early [return false], [true] lets the loop go on. *)
Definition componentOnlyTolerable (allergen tolerableFlag : string)
    (component : Component) : bool :=
  let hasAllergen := includes (contains_allergens component) allergen in
  if hasAllergen then
    let flags := contains_ingredient_flags component in
    let hasTolerablyForm := includes flags tolerableFlag in
    let hasOtherForms :=
      nonEmpty
        (List.filter
           (fun f => negb (f =? tolerableFlag) && isRelatedToAllergen f allergen)
           flags) in
    if hasOtherForms then false
    else if negb hasTolerablyForm then false
    else true
  else true.

Fixpoint checkIfOnlyTolerablyPresent_loop (allergen tolerableFlag : string)
    (comps : list Component) : bool :=
  match comps with
  | [] => true
  | component :: rest =>
      if componentOnlyTolerable allergen tolerableFlag component
      then checkIfOnlyTolerablyPresent_loop allergen tolerableFlag rest
      else false
  end.

Definition checkIfOnlyTolerablyPresent (item : MenuItem)
    (allergen tolerableFlag : string) : bool :=
  checkIfOnlyTolerablyPresent_loop allergen tolerableFlag (components item).

Definition tolerance_note (allergen : string) (mapping : ToleranceForm)
    : string :=
  "Can tolerate " ++ allergen ++ " in form: " ++ flag mapping.

(** The [for (const allergen of allergies)] loop of [filterByTolerance]
    with its [continue]s and its [break]; it returns the final
    [isSafeWithTolerance] and [toleranceReasoning]. *)
Fixpoint toleranceLoop (originalItem : MenuItem)
    (tolerances : gmap string (gmap string bool))
    (allergies : list string) (toleranceReasoning : list string)
    : bool * list string :=
  match allergies with
  | [] => (true, toleranceReasoning)
  | allergen :: rest =>
      match toleranceMapping !! allergen with
      | None => toleranceLoop originalItem tolerances rest toleranceReasoning
      | Some mapping =>
          match tolerances !! allergen with
          | None =>
              toleranceLoop originalItem tolerances rest toleranceReasoning
          | Some tolerance =>
              if negb (default false (tolerance !! key mapping)) then
                toleranceLoop originalItem tolerances rest toleranceReasoning
              else if negb (checkIfOnlyTolerablyPresent
                              originalItem allergen (flag mapping))
              then (false, toleranceReasoning)
              else
                toleranceLoop originalItem tolerances rest
                  (toleranceReasoning ++ [tolerance_note allergen mapping])
          end
      end
  end.

(** [{ ...filteredItem, tolerance_notes, toleranceAllowed: true }] *)
Definition tolerantItem (filteredItem : ItemStatus)
    (toleranceReasoning : list string) : ItemStatus :=
  {| id := id filteredItem;
     status_name := status_name filteredItem;
     category := category filteredItem;
     reasons := reasons filteredItem;
     status_modifications := status_modifications filteredItem;
     tolerance_notes := Some toleranceReasoning;
     toleranceAllowed := true |}.

(** Body of the [forEach] over [layer1Results.filtered]. *)
Definition refineItem (allergies : list string)
    (tolerances : gmap string (gmap string bool))
    (refinedResults : Results) (filteredItem : ItemStatus) : Results :=
  match List.find (fun item => item_id item =? id filteredItem)
                  menuData_items with
  | None => push_filtered refinedResults filteredItem
  | Some originalItem =>
      let '(isSafeWithTolerance, toleranceReasoning) :=
        toleranceLoop originalItem tolerances allergies [] in
      if isSafeWithTolerance && nonEmpty toleranceReasoning then
        push_safe refinedResults (tolerantItem filteredItem toleranceReasoning)
      else push_filtered refinedResults filteredItem
  end.

(** [tolerances] absent, [null] or [{}] all take the early return. *)
Definition filterByTolerance (layer1Results : Results)
    (allergies : list string)
    (tolerances : gmap string (gmap string bool)) : Results :=
  if Nat.eqb (size tolerances) 0 then layer1Results
  else
    let refinedResults :=
      {| safe := safe layer1Results;
         filtered := [];
         canBeModified := canBeModified layer1Results |} in
    fold_left (refineItem allergies tolerances)
              (filtered layer1Results) refinedResults.

(** ** Report builder: [runMultiAllergyReport] *)

(** A field the caller left out is [None]; the destructuring defaults
    fill it in.  A profile may carry [tolerances] next to the five fields
    that are read; nothing in [runMultiAllergyReport] looks at it. *)
Record TableProfile := mkTableProfile {
  dietaryPreferences : option (list string);
  avoidAllergens : option (list string);
  avoidIngredientFlags : option (list string);
  tolerateFlags : option (list string);
  crossContactOk : option bool;
  tolerances : option (gmap string (gmap string bool))
}.

Record Report := mkReport {
  safeForAll : list ItemStatus;
  safeByAllergy : gmap string (list ItemStatus)
}.

Definition runMultiAllergyReport (tableProfile : TableProfile) : Report :=
  let dietaryPreferences := default [] (dietaryPreferences tableProfile) in
  let avoidAllergens := default [] (avoidAllergens tableProfile) in
  let avoidIngredientFlags := default [] (avoidIngredientFlags tableProfile) in
  let tolerateFlags := default [] (tolerateFlags tableProfile) in
  let crossContactOk := default false (crossContactOk tableProfile) in
  let combinedResults :=
    filterByDietaryAndAllergies dietaryPreferences avoidAllergens
      avoidIngredientFlags crossContactOk tolerateFlags in
  let report :=
    {| safeForAll := safe combinedResults; safeByAllergy := ∅ |} in
  fold_left
    (fun report allergen =>
       let singleAllergyResults :=
         filterByDietaryAndAllergies dietaryPreferences [allergen]
           avoidIngredientFlags crossContactOk tolerateFlags in
       {| safeForAll := safeForAll report;
          safeByAllergy :=
            <[allergen := safe singleAllergyResults]> (safeByAllergy report) |})
    avoidAllergens report.

End Engine.

(** * Exceptions

    The functions above are total.  The engine itself can raise a
    [TypeError] in one place: in [isRelatedToAllergen],
    [relations[allergen] || []] finds, for an allergen named like a member
    of [Object.prototype], the inherited member; it is truthy and has no
    [includes], so [relatedFlags.includes(flag)] is a call of [undefined].
    The predicates below follow that exception up the call chain: [f_throws]
    tells whether the call of [f] ends in it.  When it does not, the call
    returns what [f] above computes. *)

Definition objectPrototypeNames : list string :=
  [ "constructor"; "hasOwnProperty"; "isPrototypeOf"; "propertyIsEnumerable";
    "toLocaleString"; "toString"; "valueOf"; "__proto__";
    "__defineGetter__"; "__defineSetter__";
    "__lookupGetter__"; "__lookupSetter__" ].

Definition isRelatedToAllergen_throws (allergen : string) : bool :=
  includes objectPrototypeNames allergen.

(** [tolerateFlags.filter(flag => isRelatedToAllergen(flag, allergen))],
    reached after the early return on an empty [tolerateFlags]. *)
Definition isAllergenTolerable_throws (allergen : string)
    (tolerateFlags : list string) : bool :=
  if Nat.eqb (length tolerateFlags) 0 then false
  else existsb (fun flag => isRelatedToAllergen_throws allergen) tolerateFlags.

(** [forbiddenAllergens.filter(allergen => isAllergenTolerable(...))] in the
    loop body of both compliance checks; nothing else in the body calls
    out. *)
Definition component_throws (allergies tolerateFlags : list string)
    (component : Component) : bool :=
  existsb (fun allergen => isAllergenTolerable_throws allergen tolerateFlags)
          (forbiddenAllergens_of allergies component).

Definition checkCompliance_throws (item : MenuItem)
    (allergies avoidIngredientFlags tolerateFlags : list string) : bool :=
  if Nat.eqb (length allergies) 0 && Nat.eqb (length avoidIngredientFlags) 0
  then false
  else existsb (component_throws allergies tolerateFlags) (components item).

Definition checkComplianceOnComponents_throws (comps : list Component)
    (allergies avoidIngredientFlags tolerateFlags : list string) : bool :=
  if Nat.eqb (length allergies) 0 && Nat.eqb (length avoidIngredientFlags) 0
  then false
  else existsb (component_throws allergies tolerateFlags) comps.

Definition canModificationsMakeItemSafe_throws (item : MenuItem)
    (allergies avoidIngredientFlags tolerateFlags : list string) : bool :=
  if Nat.eqb (length (modifications item)) 0 then false
  else
    let applicableMods :=
      List.filter (isApplicable allergies avoidIngredientFlags)
                  (modifications item) in
    if Nat.eqb (length applicableMods) 0 then false
    else
      let effectiveComponents :=
        fold_left applyModification applicableMods
                  (deepCopy (components item)) in
      checkComplianceOnComponents_throws effectiveComponents allergies
        avoidIngredientFlags tolerateFlags.

(** The loop body of [filterByDietaryAndAllergies]: the dietary check
    cannot throw, [checkCompliance] is called whatever it said, and the
    resolver only for a non-compliant item with modifications. *)
Definition filterItem_throws
    (dietaryPreferences allergies avoidIngredientFlags : list string)
    (crossContactOk : bool) (tolerateFlags : list string)
    (item : MenuItem) : bool :=
  if checkCompliance_throws item allergies avoidIngredientFlags tolerateFlags
  then true
  else
    let '(_, itemStatus) :=
      checkDietaryCompliance item dietaryPreferences (newItemStatus item) in
    let '(isCompliant, _) :=
      checkCompliance item allergies avoidIngredientFlags crossContactOk
                      tolerateFlags itemStatus in
    if negb isCompliant && nonEmpty (modifications item) then
      canModificationsMakeItemSafe_throws item allergies avoidIngredientFlags
                                          tolerateFlags
    else false.

(** An exception in the loop body leaves the [forEach] and the function. *)
Definition filterByDietaryAndAllergies_throws (menuData_items : list MenuItem)
    (dietaryPreferences allergies avoidIngredientFlags : list string)
    (crossContactOk : bool) (tolerateFlags : list string) : bool :=
  existsb
    (filterItem_throws dietaryPreferences allergies avoidIngredientFlags
                       crossContactOk tolerateFlags)
    menuData_items.

(** * The HTTP handler of [src/server.js]

    [POST /api/run] answers a missing body with status 400.  Otherwise it
    runs the combined pass and the per-allergen passes inside a [try]: if
    one of them throws, the [catch] answers with status 500; if none does,
    the answer is a report of the handler's own making, with the three
    buckets of the combined pass and the per-allergen safe lists.

    The body is [None] when [req.body] is missing, and [Some tableProfile]
    for a JSON object in which each of the five fields is absent or of its
    documented type (arrays of strings, a boolean); bodies with [null] or
    otherwise ill-typed fields are not represented.

    [error status message] is [res.status(status).json({ error: message })].
    The 500 answer also carries [error.message], the JS engine's wording of
    the exception; that text is not represented.

    In the per-allergen loop, [report.safeByAllergy[allergen] = ...] with
    the allergen ["__proto__"] runs the inherited setter, which replaces the
    prototype of the object and adds no key to it. *)

Module Server.

Record Report := mkReport {
  safeForAll : list ItemStatus;
  canBeModifiedForAll : list ItemStatus;
  filteredForAll : list ItemStatus;
  safeByAllergy : gmap string (list ItemStatus)
}.

Inductive Response :=
| json (report : Report)
| error (status : nat) (message : string).

Definition run (menuData_items : list MenuItem)
    (body : option TableProfile) : Response :=
  match body with
  | None => error 400 "Missing tableProfile in request body"
  | Some tableProfile =>
      let dietaryPreferences := default [] (dietaryPreferences tableProfile) in
      let avoidAllergens := default [] (avoidAllergens tableProfile) in
      let avoidIngredientFlags :=
        default [] (avoidIngredientFlags tableProfile) in
      let tolerateFlags := default [] (tolerateFlags tableProfile) in
      let crossContactOk := default false (crossContactOk tableProfile) in
      if filterByDietaryAndAllergies_throws menuData_items dietaryPreferences
           avoidAllergens avoidIngredientFlags crossContactOk tolerateFlags
         || existsb
              (fun allergen =>
                 filterByDietaryAndAllergies_throws menuData_items
                   dietaryPreferences [allergen] avoidIngredientFlags
                   crossContactOk tolerateFlags)
              avoidAllergens
      then error 500 "Internal server error"
      else
        let combinedResults :=
          filterByDietaryAndAllergies menuData_items dietaryPreferences
            avoidAllergens avoidIngredientFlags crossContactOk tolerateFlags in
        let report :=
          {| safeForAll := safe combinedResults;
             canBeModifiedForAll := canBeModified combinedResults;
             filteredForAll := filtered combinedResults;
             safeByAllergy := ∅ |} in
        json
          (fold_left
             (fun report allergen =>
                let singleAllergyResults :=
                  filterByDietaryAndAllergies menuData_items
                    dietaryPreferences [allergen] avoidIngredientFlags
                    crossContactOk tolerateFlags in
                if allergen =? "__proto__" then report
                else
                  {| safeForAll := safeForAll report;
                     canBeModifiedForAll := canBeModifiedForAll report;
                     filteredForAll := filteredForAll report;
                     safeByAllergy :=
                       <[allergen := safe singleAllergyResults]>
                         (safeByAllergy report) |})
             avoidAllergens report)
  end.

End Server.

(** * The profile wizard of the browser client

    The client keeps the diner's answers in one [state] object and changes
    it on every click.  The functions below are its state logic, with the
    state passed in and returned; what they do to the page (messages,
    buttons) is left out.

    - A step is one of the three entries of [baseSteps], told apart by
      their [id], or a tolerance step built by [getCurrentStep], whose [id]
      is "tolerance_" followed by the allergen and which carries that
      allergen and the flag asked about.
    - [String.prototype.toLowerCase] is a variable of the section: nothing
      is assumed about it.
    - [indexOf] returns [None] for the -1 of the source; [splice(idx, 1)]
      is the list [delete].
    - The selections are the lower-cased option labels; as for the engine,
      names inherited from [Object.prototype] are not among them.
    - [goNext], [goBack] and the rendering functions only move the step
      counter and write to the page; they are not modelled. *)

Module Wizard.

Record State := mkState {
  step : nat;
  dietaryPreferences : list string;
  avoidAllergens : list string;
  avoidIngredientFlags : list string;
  tolerateFlags : list string;
  crossContactOk : option bool;
  tolerance_answers : gmap string bool
}.

Definition state : State :=
  {| step := 0; dietaryPreferences := []; avoidAllergens := [];
     avoidIngredientFlags := []; tolerateFlags := [];
     crossContactOk := None; tolerance_answers := ∅ |}.

Record ToleranceQuestion := mkToleranceQuestion {
  question : string;
  flag : string
}.

Definition allergyToleranceMap : gmap string ToleranceQuestion :=
  {[ "gluten" :=
       {| question := "Gluten allergy: can they have soy sauce?";
          flag := "soy_sauce" |};
     "shellfish" :=
       {| question := "Shellfish allergy: can they have oyster sauce?";
          flag := "oyster_sauce" |};
     "peanut" :=
       {| question := "Peanut allergy: can they have peanut oil?";
          flag := "peanut_oil" |};
     "sesame" :=
       {| question := "Sesame allergy: can they have sesame oil?";
          flag := "sesame_oil" |} ]}.

Inductive Step :=
| dietary
| allergies
| crossContact
| tolerance (allergen : string) (config : ToleranceQuestion).

Definition baseSteps : list Step := [dietary; allergies; crossContact].

Definition step_id (s : Step) : string :=
  match s with
  | dietary => "dietary"
  | allergies => "allergies"
  | crossContact => "crossContact"
  | tolerance allergen _ => "tolerance_" ++ allergen
  end.

Definition step_question (s : Step) : string :=
  match s with
  | dietary => "Any dietary restrictions?"
  | allergies => "Any allergies?"
  | crossContact => "Cross-contact OK?"
  | tolerance _ config => question config
  end.

Definition step_options (s : Step) : list string :=
  match s with
  | dietary => ["Vegetarian"; "Vegan"; "None"]
  | allergies => ["Gluten"; "Sesame"; "Shellfish"; "Peanut"; "None"]
  | crossContact => ["Yes"; "No"]
  | tolerance _ _ => ["Yes"; "No"]
  end.

Definition step_mode (s : Step) : string :=
  match s with
  | dietary => "multi"
  | allergies => "multi"
  | crossContact => "single"
  | tolerance _ _ => "single"
  end.

Fixpoint indexOf (arr : list string) (x : string) : option nat :=
  match arr with
  | [] => None
  | y :: rest => if y =? x then Some 0 else option_map S (indexOf rest x)
  end.

(** [idx = arr.indexOf(x); if (idx > -1) arr.splice(idx, 1)] *)
Definition spliceOut (arr : list string) (x : string) : list string :=
  match indexOf arr x with
  | Some idx => delete idx arr
  | None => arr
  end.

Definition hasConfig (allergen : string) : bool :=
  match allergyToleranceMap !! allergen with
  | Some _ => true
  | None => false
  end.

Definition set_dietaryPreferences (st : State) (l : list string) : State :=
  {| step := step st; dietaryPreferences := l;
     avoidAllergens := avoidAllergens st;
     avoidIngredientFlags := avoidIngredientFlags st;
     tolerateFlags := tolerateFlags st;
     crossContactOk := crossContactOk st;
     tolerance_answers := tolerance_answers st |}.

Definition set_avoidAllergens (st : State) (l : list string) : State :=
  {| step := step st; dietaryPreferences := dietaryPreferences st;
     avoidAllergens := l;
     avoidIngredientFlags := avoidIngredientFlags st;
     tolerateFlags := tolerateFlags st;
     crossContactOk := crossContactOk st;
     tolerance_answers := tolerance_answers st |}.

Definition set_crossContactOk (st : State) (b : bool) : State :=
  {| step := step st; dietaryPreferences := dietaryPreferences st;
     avoidAllergens := avoidAllergens st;
     avoidIngredientFlags := avoidIngredientFlags st;
     tolerateFlags := tolerateFlags st;
     crossContactOk := Some b;
     tolerance_answers := tolerance_answers st |}.

(** The three fields a tolerance answer or a clean-up touches. *)
Definition set_tolerance (st : State) (answers : gmap string bool)
    (tolerate avoid : list string) : State :=
  {| step := step st; dietaryPreferences := dietaryPreferences st;
     avoidAllergens := avoidAllergens st;
     avoidIngredientFlags := avoid;
     tolerateFlags := tolerate;
     crossContactOk := crossContactOk st;
     tolerance_answers := answers |}.

Section Client.

(** [option.toLowerCase()] *)
Variable toLowerCase : string -> string.

Definition getCurrentStep (st : State) : option Step :=
  if Nat.ltb (step st) (length baseSteps) then baseSteps !! step st
  else
    let toleranceStepIndex := step st - length baseSteps in
    let selectedAllergies :=
      List.map toLowerCase
        (List.filter (fun a => negb (a =? "none")) (avoidAllergens st)) in
    let relevantAllergies := List.filter hasConfig selectedAllergies in
    if Nat.ltb toleranceStepIndex (length relevantAllergies) then
      match relevantAllergies !! toleranceStepIndex with
      | Some allergen =>
          match allergyToleranceMap !! allergen with
          | Some config => Some (tolerance allergen config)
          | None => None
          end
      | None => None
      end
    else None.

Definition getTotalSteps (st : State) : nat :=
  let baseCount := length baseSteps in
  let relevantAllergies :=
    List.filter (fun a => hasConfig (toLowerCase a))
      (List.filter (fun a => negb (a =? "none")) (avoidAllergens st)) in
  baseCount + length relevantAllergies.

Definition isStepValid (s : option Step) (st : State) : bool :=
  match s with
  | None => false
  | Some s =>
      if step_id s =? "dietary" then nonEmpty (dietaryPreferences st)
      else if step_id s =? "allergies" then nonEmpty (avoidAllergens st)
      else if step_id s =? "crossContact" then
        match crossContactOk st with Some _ => true | None => false end
      else if String.prefix "tolerance_" (step_id s) then
        match s with
        | tolerance allergen _ =>
            match tolerance_answers st !! allergen with
            | Some _ => true
            | None => false
            end
        | _ => false
        end
      else false
  end.

(** The update both multi-select lists go through: "none" replaces
    everything, anything else replaces "none", and otherwise the option is
    toggled. *)
Definition selectOption (current : list string) (lowerOption : string)
    : list string :=
  if lowerOption =? "none" then ["none"]
  else if includes current "none" then [lowerOption]
  else
    match indexOf current lowerOption with
    | Some idx => delete idx current
    | None => current ++ [lowerOption]
    end.

(** Body of [deselectedAllergies.forEach]. *)
Definition forgetTolerance (st : State) (allergen : string) : State :=
  match allergyToleranceMap !! allergen with
  | Some config =>
      set_tolerance st
        (delete allergen (tolerance_answers st))
        (spliceOut (tolerateFlags st) (flag config))
        (spliceOut (avoidIngredientFlags st) (flag config))
  | None => st
  end.

Definition handleMultiSelect (option : string) (s : Step) (st : State)
    : State :=
  let lowerOption := toLowerCase option in
  let st :=
    if step_id s =? "dietary" then
      set_dietaryPreferences st
        (selectOption (dietaryPreferences st) lowerOption)
    else st in
  if step_id s =? "allergies" then
    let previousAllergies := avoidAllergens st in
    let st :=
      set_avoidAllergens st (selectOption (avoidAllergens st) lowerOption) in
    let deselectedAllergies :=
      List.filter
        (fun a => negb (a =? "none") && negb (includes (avoidAllergens st) a))
        previousAllergies in
    fold_left forgetTolerance deselectedAllergies st
  else st.

Definition handleSingleSelect (option : string) (s : Step) (st : State)
    : State :=
  let st :=
    if step_id s =? "crossContact" then set_crossContactOk st (option =? "Yes")
    else st in
  if String.prefix "tolerance_" (step_id s) then
    match s with
    | tolerance allergen config =>
        let answers := <[allergen := (option =? "Yes")]> (tolerance_answers st) in
        if option =? "Yes" then
          set_tolerance st answers
            (if negb (includes (tolerateFlags st) (flag config))
             then tolerateFlags st ++ [flag config]
             else tolerateFlags st)
            (spliceOut (avoidIngredientFlags st) (flag config))
        else
          set_tolerance st answers
            (spliceOut (tolerateFlags st) (flag config))
            (if negb (includes (avoidIngredientFlags st) (flag config))
             then avoidIngredientFlags st ++ [flag config]
             else avoidIngredientFlags st)
    | _ => st
    end
  else st.

Definition handleOptionClick (option : string) (st : State) : State :=
  match getCurrentStep st with
  | None => st
  | Some s =>
      if step_mode s =? "multi" then handleMultiSelect option s st
      else handleSingleSelect option s st
  end.

End Client.

End Wizard.

(** The [profile] object [submitProfile] builds from the state and posts to
    [/api/run].  [crossContactOk] is [null] until the diner answers; the
    server's default does not replace [null], and the engine only tests the
    value with [!], so [null] behaves as the absent field does. *)
Definition submitProfile_profile (st : Wizard.State) : TableProfile :=
  {| dietaryPreferences :=
       Some (List.filter (fun d => negb (d =? "none"))
                         (Wizard.dietaryPreferences st));
     avoidAllergens :=
       Some (List.filter (fun a => negb (a =? "none"))
                         (Wizard.avoidAllergens st));
     avoidIngredientFlags := Some (Wizard.avoidIngredientFlags st);
     tolerateFlags := Some (Wizard.tolerateFlags st);
     crossContactOk := Wizard.crossContactOk st;
     tolerances := None |}.

(** * Specification vocabulary

    Closed forms of the checks and the predicates in which the properties
    below are stated. *)

(** A status with further reasons appended; every check of the engine only
    ever appends reasons. *)
Definition add_reasons (st : ItemStatus) (rs : list string) : ItemStatus :=
  {| id := id st;
     status_name := status_name st;
     category := category st;
     reasons := reasons st ++ rs;
     status_modifications := status_modifications st;
     tolerance_notes := tolerance_notes st;
     toleranceAllowed := toleranceAllowed st |}.

(** The relation table of [isRelatedToAllergen], spelled out. *)
Definition related_form (f a : string) : Prop :=
  (a = "sesame" /\ (f = "sesame_seed" \/ f = "sesame_oil"))
  \/ (a = "gluten" /\ f = "soy_sauce")
  \/ (a = "shellfish" /\ f = "oyster_sauce")
  \/ (a = "peanut" /\ f = "peanut_oil").

(** Does this component block the item? *)
Definition component_issue (allergies avoidIngredientFlags tolerateFlags : list string)
    (c : Component) : bool :=
  nonEmpty (intolerablea_of allergies tolerateFlags c)
  || nonEmpty (forbiddenFlags_of avoidIngredientFlags c).

(** The reasons one component contributes in [checkCompliance]. *)
Definition component_reasons (allergies avoidIngredientFlags tolerateFlags : list string)
    (c : Component) : list string :=
  (if nonEmpty (intolerablea_of allergies tolerateFlags c) then
     [intolerable_reason c (intolerablea_of allergies tolerateFlags c)]
   else if nonEmpty (tolerableAllergens_of allergies tolerateFlags c) then
     [tolerated_reason c (tolerableAllergens_of allergies tolerateFlags c)]
   else [])
  ++ (if nonEmpty (forbiddenFlags_of avoidIngredientFlags c) then
        [flag_reason c (forbiddenFlags_of avoidIngredientFlags c)]
      else []).

(** ... and in [checkComplianceOnComponents]. *)
Definition recheck_reasons (allergies avoidIngredientFlags tolerateFlags : list string)
    (c : Component) : list string :=
  (if nonEmpty (intolerablea_of allergies tolerateFlags c) then
     [intolerable_reason c (intolerablea_of allergies tolerateFlags c)]
   else [])
  ++ (if nonEmpty (forbiddenFlags_of avoidIngredientFlags c) then
        [flag_reason c (forbiddenFlags_of avoidIngredientFlags c)]
      else []).

Definition forbiddenRisks_of (allergies crossContactRisk : list string)
    : list string :=
  List.filter (fun risk => includes allergies risk) crossContactRisk.

Definition cross_issue (crossContactRisk allergies : list string)
    (crossContactOk : bool) : bool :=
  negb crossContactOk && nonEmpty (forbiddenRisks_of allergies crossContactRisk).

Definition cross_reasons (crossContactRisk allergies : list string)
    (crossContactOk : bool) : list string :=
  if cross_issue crossContactRisk allergies crossContactOk then
    [cross_contact_reason (forbiddenRisks_of allergies crossContactRisk)]
  else [].

(** The components the re-check of [canModificationsMakeItemSafe] looks at:
    every applicable modification applied in turn to one working list. *)
Definition effectiveComponents_of (item : MenuItem)
    (allergies avoidIngredientFlags : list string) : list Component :=
  fold_left applyModification
    (getApplicableModifications item allergies avoidIngredientFlags)
    (components item).

(** Verdict of the re-check on the jointly modified item. *)
Definition recheck (item : MenuItem)
    (allergies avoidIngredientFlags : list string) (crossContactOk : bool)
    (tolerateFlags : list string) : bool :=
  fst (checkComplianceOnComponents
         (effectiveComponents_of item allergies avoidIngredientFlags)
         (cross_contact_risk item) allergies avoidIngredientFlags
         crossContactOk tolerateFlags testStatus).

(** [r'] extends [r]: each bucket of [r'] is the bucket of [r] followed by
    further entries. *)
Definition extends (r r' : Results) : Prop :=
  (exists l, safe r' = (safe r ++ l)%list)
  /\ (exists l, filtered r' = (filtered r ++ l)%list)
  /\ (exists l, canBeModified r' = (canBeModified r ++ l)%list).

(** The profile in which the caller left every field out. *)
Definition emptyProfile : TableProfile :=
  {| dietaryPreferences := None; avoidAllergens := None;
     avoidIngredientFlags := None; tolerateFlags := None;
     crossContactOk := None; tolerances := None |}.

(** A component free of avoided allergens and avoided flags. *)
Definition clean_component (allergies avoidIngredientFlags : list string)
    (c : Component) : Prop :=
  (forall a, In a (contains_allergens c) -> ~ In a allergies)
  /\ (forall f, In f (contains_ingredient_flags c) -> ~ In f avoidIngredientFlags).

(** The trigger of a modification meets the avoid-sets. *)
Definition triggered (allergies avoidIngredientFlags : list string)
    (m : Modification) : Prop :=
  (exists a, In a (avoid_allergens (when m)) /\ In a allergies)
  \/ (exists f, In f (avoid_ingredient_flags (when m))
                /\ In f avoidIngredientFlags).

(** What a bucket entry shows of the item it stands for. *)
Definition ident_of_item (item : MenuItem) : string * string * string :=
  (item_id item, item_name item, item_category item).

Definition ident_of_status (st : ItemStatus) : string * string * string :=
  (id st, status_name st, category st).

(** The three buckets laid end to end. *)
Definition all_buckets (r : Results) : list ItemStatus :=
  safe r ++ canBeModified r ++ filtered r.

(** The tolerated form the loop of [filterByTolerance] works with for an
    avoided allergen: the allergen has a mapping and the declaration holds
    a truthy value under the mapping's key; [None] is a [continue]. *)
Definition affirmedForm (tolerances : gmap string (gmap string bool))
    (allergen : string) : option ToleranceForm :=
  match toleranceMapping !! allergen with
  | None => None
  | Some mapping =>
      match tolerances !! allergen with
      | None => None
      | Some tolerance =>
          if default false (tolerance !! key mapping) then Some mapping
          else None
      end
  end.

Definition passes (originalItem : MenuItem)
    (tolerances : gmap string (gmap string bool)) (allergen : string) : bool :=
  match affirmedForm tolerances allergen with
  | Some mapping => checkIfOnlyTolerablyPresent originalItem allergen (flag mapping)
  | None => true
  end.

Definition notes_of (tolerances : gmap string (gmap string bool))
    (allergies : list string) : list string :=
  flat_map
    (fun allergen =>
       match affirmedForm tolerances allergen with
       | Some mapping => [tolerance_note allergen mapping]
       | None => []
       end)
    allergies.

(** The entry that replaces a filtered one when the refiner promotes it;
    [None] when it stays filtered. *)
Definition promotion (catalog : list MenuItem) (allergies : list string)
    (tolerances : gmap string (gmap string bool)) (filteredItem : ItemStatus)
    : option ItemStatus :=
  match List.find (fun item => item_id item =? id filteredItem) catalog with
  | None => None
  | Some originalItem =>
      if forallb (passes originalItem tolerances) allergies
         && nonEmpty (notes_of tolerances allergies)
      then Some (tolerantItem filteredItem (notes_of tolerances allergies))
      else None
  end.

Definition promoted_of (catalog : list MenuItem) (allergies : list string)
    (tolerances : gmap string (gmap string bool)) (l : list ItemStatus)
    : list ItemStatus :=
  flat_map
    (fun s => match promotion catalog allergies tolerances s with
              | Some s' => [s']
              | None => []
              end) l.

Definition kept_of (catalog : list MenuItem) (allergies : list string)
    (tolerances : gmap string (gmap string bool)) (l : list ItemStatus)
    : list ItemStatus :=
  List.filter
    (fun s => match promotion catalog allergies tolerances s with
              | Some _ => false
              | None => true
              end) l.

(** The declaration affirms the tolerated form [m] of allergen [a]. *)
Definition affirmed (tolerances : gmap string (gmap string bool))
    (a : string) (m : ToleranceForm) : Prop :=
  toleranceMapping !! a = Some m
  /\ exists t, tolerances !! a = Some t /\ t !! key m = Some true.

(** Every component declaring [a] carries [tolerableFlag] and no other
    related form of [a]. *)
Definition solely_tolerated_form (item : MenuItem) (a tolerableFlag : string)
    : Prop :=
  forall c, In c (components item) -> In a (contains_allergens c) ->
    In tolerableFlag (contains_ingredient_flags c)
    /\ forall f, In f (contains_ingredient_flags c) ->
                 related_form f a -> f = tolerableFlag.

(** Allergen [a] is declared somewhere in the item. *)
Definition present (item : MenuItem) (a : string) : Prop :=
  exists c, In c (components item) /\ In a (contains_allergens c).

(** [a] appears in the item solely via its designated tolerated form. *)
Definition designated_form_only (item : MenuItem) (a : string) : Prop :=
  exists m, toleranceMapping !! a = Some m
            /\ solely_tolerated_form item a (flag m).

(** Nothing but allergens stands against the item: it passes the dietary
    check, no component carries an avoided flag, and there is no
    cross-contact match. *)
Definition no_other_blocking_issue
    (prefs allergies flags : list string) (cc : bool) (item : MenuItem)
    : Prop :=
  fst (checkDietaryCompliance item prefs (newItemStatus item)) = true
  /\ (forall c, In c (components item) -> forbiddenFlags_of flags c = [])
  /\ cross_issue (cross_contact_risk item) allergies cc = false.

(** Promotion soundness as stated: an entry that is safe after the
    refinement without having been safe before stands for an item in which
    every present avoided allergen appears solely via its designated
    tolerated form, and which had no other blocking issue. *)
Definition promotion_sound_as_stated (catalog : list MenuItem)
    (prefs allergies flags : list string) (cc : bool) (tol : list string)
    (tolerances : gmap string (gmap string bool)) : Prop :=
  let l1 := filterByDietaryAndAllergies catalog prefs allergies flags cc tol in
  let r := filterByTolerance catalog l1 allergies tolerances in
  forall s' orig,
    In s' (safe r) -> ~ In s' (safe l1) ->
    List.find (fun item => item_id item =? id s') catalog = Some orig ->
    (forall a, In a allergies -> present orig a -> designated_form_only orig a)
    /\ no_other_blocking_issue prefs allergies flags cc orig.

(** The combined first pass that [runMultiAllergyReport] starts with. *)
Definition combinedResults (catalog : list MenuItem)
    (tableProfile : TableProfile) : Results :=
  filterByDietaryAndAllergies catalog
    (default [] (dietaryPreferences tableProfile))
    (default [] (avoidAllergens tableProfile))
    (default [] (avoidIngredientFlags tableProfile))
    (default false (crossContactOk tableProfile))
    (default [] (tolerateFlags tableProfile)).

(** The first pass for one allergen alone, the rest of the profile
    unchanged. *)
Definition singleAllergyResults (catalog : list MenuItem)
    (tableProfile : TableProfile) (allergen : string) : Results :=
  filterByDietaryAndAllergies catalog
    (default [] (dietaryPreferences tableProfile))
    [allergen]
    (default [] (avoidIngredientFlags tableProfile))
    (default false (crossContactOk tableProfile))
    (default [] (tolerateFlags tableProfile)).

(** The report holds the canBeModified and filtered buckets of the combined
    pass: they can be read off it. *)
Definition report_holds_three_lists : Prop :=
  exists modifiable rejected : Report -> list ItemStatus,
    forall catalog tableProfile,
      modifiable (runMultiAllergyReport catalog tableProfile)
        = canBeModified (combinedResults catalog tableProfile)
      /\ rejected (runMultiAllergyReport catalog tableProfile)
         = filtered (combinedResults catalog tableProfile).

(** With tolerance data supplied, the combined result in the report is the
    refined one. *)
Definition report_is_refined (catalog : list MenuItem)
    (tableProfile : TableProfile) : Prop :=
  forall t, tolerances tableProfile = Some t ->
    safeForAll (runMultiAllergyReport catalog tableProfile)
    = safe (filterByTolerance catalog (combinedResults catalog tableProfile)
              (default [] (avoidAllergens tableProfile)) t).

(** The one way a run of the engine throws: some tolerated flag is on file,
    and some component of the catalog declares an avoided allergen whose
    name is inherited from [Object.prototype]. *)
Definition hits_prototype_name (catalog : list MenuItem)
    (tableProfile : TableProfile) : Prop :=
  default [] (tolerateFlags tableProfile) <> []
  /\ exists item c a,
       In item catalog /\ In c (components item)
       /\ In a (contains_allergens c)
       /\ In a (default [] (avoidAllergens tableProfile))
       /\ In a objectPrototypeNames.

(** The item is rejected and [r] is among the reasons, in the first check,
    in the re-check of the same components, and in the categorisation. *)
Definition rejected_with (item : MenuItem)
    (allergies avoidIngredientFlags : list string) (crossContactOk : bool)
    (tolerateFlags : list string) (r : string) : Prop :=
  (forall st,
     fst (checkCompliance item allergies avoidIngredientFlags crossContactOk
            tolerateFlags st) = false
     /\ In r (reasons (snd (checkCompliance item allergies avoidIngredientFlags
                              crossContactOk tolerateFlags st))))
  /\ (forall risk st,
        fst (checkComplianceOnComponents (components item) risk allergies
               avoidIngredientFlags crossContactOk tolerateFlags st) = false
        /\ In r (reasons (snd (checkComplianceOnComponents (components item)
                                 risk allergies avoidIngredientFlags
                                 crossContactOk tolerateFlags st))))
  /\ (forall prefs results,
        safe (filterItem prefs allergies avoidIngredientFlags crossContactOk
                tolerateFlags results item) = safe results).

(** ** Per-item verdicts

    The loop body of [filterByDietaryAndAllergies] decides each item on its
    own; these are its three outcomes as predicates on the item. *)

(** Verdict of the allergen/flag check; it does not depend on the status
    the check is handed. *)
Definition compliant (allergies avoidIngredientFlags : list string)
    (crossContactOk : bool) (tolerateFlags : list string) (item : MenuItem)
    : bool :=
  fst (checkCompliance item allergies avoidIngredientFlags crossContactOk
         tolerateFlags (newItemStatus item)).

Definition dietary_ok (prefs : list string) (item : MenuItem) : bool :=
  fst (checkDietaryCompliance item prefs (newItemStatus item)).

(** The entry built for an item, as it stands after both checks. *)
Definition item_status (prefs allergies avoidIngredientFlags : list string)
    (crossContactOk : bool) (tolerateFlags : list string) (item : MenuItem)
    : ItemStatus :=
  snd (checkCompliance item allergies avoidIngredientFlags crossContactOk
         tolerateFlags
         (snd (checkDietaryCompliance item prefs (newItemStatus item)))).

Definition is_safe (prefs allergies avoidIngredientFlags : list string)
    (crossContactOk : bool) (tolerateFlags : list string) (item : MenuItem)
    : bool :=
  dietary_ok prefs item
  && compliant allergies avoidIngredientFlags crossContactOk tolerateFlags item.

Definition is_modifiable (prefs allergies avoidIngredientFlags : list string)
    (crossContactOk : bool) (tolerateFlags : list string) (item : MenuItem)
    : bool :=
  negb (compliant allergies avoidIngredientFlags crossContactOk tolerateFlags item)
  && canModificationsMakeItemSafe item allergies avoidIngredientFlags
       crossContactOk tolerateFlags.

Definition is_filtered (prefs allergies avoidIngredientFlags : list string)
    (crossContactOk : bool) (tolerateFlags : list string) (item : MenuItem)
    : bool :=
  negb (is_safe prefs allergies avoidIngredientFlags crossContactOk
          tolerateFlags item)
  && negb (is_modifiable prefs allergies avoidIngredientFlags crossContactOk
             tolerateFlags item).

(** The entry pushed to canBeModified. *)
Definition modifiable_status (prefs allergies avoidIngredientFlags : list string)
    (crossContactOk : bool) (tolerateFlags : list string) (item : MenuItem)
    : ItemStatus :=
  set_modifications
    (item_status prefs allergies avoidIngredientFlags crossContactOk
       tolerateFlags item)
    (getApplicableModifications item allergies avoidIngredientFlags).

(** Bucket by bucket concatenation of two results. *)
Definition append_results (r1 r2 : Results) : Results :=
  {| safe := safe r1 ++ safe r2;
     filtered := filtered r1 ++ filtered r2;
     canBeModified := canBeModified r1 ++ canBeModified r2 |}.

(** A component has an avoided allergen that is not tolerable in it. *)
Definition has_intolerable_allergen (allergies tolerateFlags : list string)
    (c : Component) : Prop :=
  exists a, In a (contains_allergens c) /\ In a allergies
            /\ isAllergenTolerable c a tolerateFlags = false.

(** A component carries an avoided flag. *)
Definition has_avoided_flag (avoidIngredientFlags : list string)
    (c : Component) : Prop :=
  exists f, In f (contains_ingredient_flags c) /\ In f avoidIngredientFlags.

(** A declared cross-contact risk is an avoided allergen. *)
Definition cross_contact_match (crossContactRisk allergies : list string)
    : Prop :=
  exists a, In a crossContactRisk /\ In a allergies.

(** What the verdict of either check amounts to. *)
Definition no_issue (comps : list Component)
    (crossContactRisk allergies avoidIngredientFlags : list string)
    (crossContactOk : bool) (tolerateFlags : list string) : Prop :=
  (forall c, In c comps ->
     ~ has_intolerable_allergen allergies tolerateFlags c
     /\ ~ has_avoided_flag avoidIngredientFlags c)
  /\ (crossContactOk = false -> ~ cross_contact_match crossContactRisk allergies).

(** The tags a dietary preference list asks for are on the item. *)
Definition meets_preferences (prefs : list string) (item : MenuItem) : Prop :=
  (In "vegetarian" prefs -> In "vegetarian" (tags item))
  /\ (In "vegan" prefs -> In "vegan" (tags item)).

(** Profile [2] asks for no more than profile [1]: fewer preferences,
    avoided allergens and avoided flags, more tolerated flags, and
    cross-contact accepted whenever profile [1] accepts it. *)
Definition laxer (prefs1 allergies1 flags1 : list string) (cc1 : bool)
    (tol1 : list string) (prefs2 allergies2 flags2 : list string) (cc2 : bool)
    (tol2 : list string) : Prop :=
  incl prefs2 prefs1 /\ incl allergies2 allergies1 /\ incl flags2 flags1
  /\ incl tol1 tol2 /\ (cc1 = true -> cc2 = true).

(** Modification [m] removes or replaces component [c]. *)
Definition targets (m : Modification) (c : Component) : bool :=
  ((action m =? "remove") || (action m =? "substitute"))
  && (name c =? target_component m).

(** No modification of the list removes or replaces [c]. *)
Definition untargeted (mods : list Modification) (c : Component) : bool :=
  negb (existsb (fun m => targets m c) mods).

(** The synthetic component a substitution puts in place. *)
Definition substitute_component (m : Modification) : Component :=
  {| name := target_component m;
     contains_allergens := [];
     contains_ingredient_flags := [];
     notes := Some ("substituted with " ++ substitute_with m) |}.

(** ** Invariants of the wizard state *)

(** No flag is listed twice, and none is both tolerated and avoided. *)
Definition flags_consistent (st : Wizard.State) : Prop :=
  List.NoDup (Wizard.tolerateFlags st)
  /\ List.NoDup (Wizard.avoidIngredientFlags st)
  /\ forall f, In f (Wizard.tolerateFlags st) ->
               ~ In f (Wizard.avoidIngredientFlags st).

(** "none" stands alone in a selection. *)
Definition none_exclusive (l : list string) : Prop :=
  In "none" l -> l = ["none"].

(** The answers to allergen [a] have been forgotten. *)
Definition forgotten (a : string) (config : Wizard.ToleranceQuestion)
    (st : Wizard.State) : Prop :=
  Wizard.tolerance_answers st !! a = None
  /\ ~ In (Wizard.flag config) (Wizard.tolerateFlags st)
  /\ ~ In (Wizard.flag config) (Wizard.avoidIngredientFlags st).

(** * Sample catalog entries and profiles *)

Definition halal_item : MenuItem :=
  {| item_id := "m1"; item_name := "Chicken rice"; item_category := "mains";
     components := []; modifications := []; tags := [];
     cross_contact_risk := [] |}.

Definition fried_rice : MenuItem :=
  {| item_id := "m2"; item_name := "Fried rice"; item_category := "mains";
     components :=
       [ {| name := "rice"; contains_allergens := [];
            contains_ingredient_flags := []; notes := None |} ];
     modifications := []; tags := [];
     cross_contact_risk := ["peanut"] |}.

(** A glaze and a crumb, each carrying gluten, each with its own
    modification. *)
Definition glazed_duck : MenuItem :=
  {| item_id := "m3"; item_name := "Glazed duck"; item_category := "mains";
     components :=
       [ {| name := "duck"; contains_allergens := [];
            contains_ingredient_flags := []; notes := None |};
         {| name := "soy glaze"; contains_allergens := ["gluten"];
            contains_ingredient_flags := ["soy_sauce"]; notes := None |};
         {| name := "crumb"; contains_allergens := ["gluten"];
            contains_ingredient_flags := []; notes := None |} ];
     modifications :=
       [ {| action := "remove"; target_component := "soy glaze";
            substitute_with := EmptyString;
            when := {| avoid_allergens := ["gluten"];
                       avoid_ingredient_flags := [] |} |};
         {| action := "substitute"; target_component := "crumb";
            substitute_with := "rice crumb";
            when := {| avoid_allergens := ["gluten"];
                       avoid_ingredient_flags := [] |} |} ];
     tags := []; cross_contact_risk := [] |}.

(** A dish without the vegan tag whose only gluten source can be
    removed. *)
Definition glazed_pork : MenuItem :=
  {| item_id := "m4"; item_name := "Glazed pork"; item_category := "mains";
     components :=
       [ {| name := "pork"; contains_allergens := [];
            contains_ingredient_flags := []; notes := None |};
         {| name := "soy glaze"; contains_allergens := ["gluten"];
            contains_ingredient_flags := []; notes := None |} ];
     modifications :=
       [ {| action := "remove"; target_component := "soy glaze";
            substitute_with := EmptyString;
            when := {| avoid_allergens := ["gluten"];
                       avoid_ingredient_flags := [] |} |} ];
     tags := []; cross_contact_risk := [] |}.

Definition sesame_noodles : MenuItem :=
  {| item_id := "m5"; item_name := "Sesame noodles"; item_category := "mains";
     components :=
       [ {| name := "noodles"; contains_allergens := ["gluten"];
            contains_ingredient_flags := []; notes := None |};
         {| name := "dressing"; contains_allergens := ["sesame"];
            contains_ingredient_flags := ["sesame_oil"]; notes := None |} ];
     modifications := []; tags := []; cross_contact_risk := [] |}.

Definition egg_rice : MenuItem :=
  {| item_id := "m6"; item_name := "Egg rice"; item_category := "mains";
     components :=
       [ {| name := "rice"; contains_allergens := [];
            contains_ingredient_flags := []; notes := None |};
         {| name := "egg"; contains_allergens := ["egg"];
            contains_ingredient_flags := []; notes := None |} ];
     modifications := []; tags := ["vegetarian"]; cross_contact_risk := [] |}.

(** [{ sesame: { canUseSesameOil: true } }] *)
Definition sesame_oil_ok : gmap string (gmap string bool) :=
  {[ "sesame" := {[ "canUseSesameOil" := true ]} ]}.

Definition vegan_profile : TableProfile :=
  {| dietaryPreferences := Some ["vegan"]; avoidAllergens := None;
     avoidIngredientFlags := None; tolerateFlags := None;
     crossContactOk := None; tolerances := None |}.

Definition sesame_profile : TableProfile :=
  {| dietaryPreferences := None; avoidAllergens := Some ["sesame"];
     avoidIngredientFlags := None; tolerateFlags := None;
     crossContactOk := None; tolerances := Some sesame_oil_ok |}.

Definition pork_bun : MenuItem :=
  {| item_id := "m7"; item_name := "Pork bun"; item_category := "starters";
     components :=
       [ {| name := "filling"; contains_allergens := ["sesame"];
            contains_ingredient_flags := ["pork"; "sesame_oil"];
            notes := None |} ];
     modifications := []; tags := []; cross_contact_risk := [] |}.

Definition sesame_salad : MenuItem :=
  {| item_id := "m8"; item_name := "Sesame salad"; item_category := "starters";
     components :=
       [ {| name := "dressing"; contains_allergens := ["sesame"];
            contains_ingredient_flags := ["sesame_oil"]; notes := None |} ];
     modifications := []; tags := ["vegan"]; cross_contact_risk := [] |}.

(** A loaf whose only allergen is gluten: no sesame anywhere. *)
Definition bread : MenuItem :=
  {| item_id := "m10"; item_name := "Bread"; item_category := "sides";
     components :=
       [ {| name := "loaf"; contains_allergens := ["gluten"];
            contains_ingredient_flags := []; notes := None |} ];
     modifications := []; tags := ["vegan"]; cross_contact_risk := [] |}.

(** A catalog entry whose allergen label is a name every JS object
    inherits. *)
Definition mislabelled_soup : MenuItem :=
  {| item_id := "m11"; item_name := "Soup of the day";
     item_category := "starters";
     components :=
       [ {| name := "broth"; contains_allergens := ["constructor"];
            contains_ingredient_flags := []; notes := None |} ];
     modifications := []; tags := []; cross_contact_risk := [] |}.

(** [glazed_pork] with a peanut cross-contact risk. *)
Definition peanut_side_pork : MenuItem :=
  {| item_id := "m9"; item_name := "Glazed pork, wok side";
     item_category := "mains";
     components := components glazed_pork;
     modifications := modifications glazed_pork;
     tags := []; cross_contact_risk := ["peanut"] |}.

Definition asking_about_soy_sauce : Wizard.State :=
  {| Wizard.step := 3;
     Wizard.dietaryPreferences := ["none"];
     Wizard.avoidAllergens := ["gluten"; "sesame"];
     Wizard.avoidIngredientFlags := ["soy_sauce"];
     Wizard.tolerateFlags := ["sesame_oil"];
     Wizard.crossContactOk := Some false;
     Wizard.tolerance_answers := {[ "gluten" := false; "sesame" := true ]} |}.

(** * Properties *)

(** ** Arrays *)

Lemma includes_In (arr : list string) (x : string) :
  includes arr x = true <-> In x arr.
Proof.
  unfold includes. rewrite existsb_exists. split.
  - intros (y & Hy & He). apply String.eqb_eq in He. now subst.
  - intros H. exists x. split; [assumption | apply String.eqb_refl].
Qed.

Lemma includes_not_In (arr : list string) (x : string) :
  includes arr x = false <-> ~ In x arr.
Proof.
  rewrite <- includes_In. destruct (includes arr x); split; congruence.
Qed.

Lemma nonEmpty_false {A} (l : list A) : nonEmpty l = false <-> l = [].
Proof.
  unfold nonEmpty; destruct l; simpl; split; intros H;
    try reflexivity; discriminate.
Qed.

Lemma nonEmpty_true {A} (l : list A) : nonEmpty l = true <-> l <> [].
Proof.
  unfold nonEmpty; destruct l; simpl; split; intros H;
    try reflexivity; try discriminate; congruence.
Qed.

Lemma nonEmpty_filter {A} (f : A -> bool) (l : list A) :
  nonEmpty (List.filter f l) = existsb f l.
Proof.
  induction l as [|x l IH]; simpl; [reflexivity|].
  destruct (f x); simpl; [reflexivity | exact IH].
Qed.

Lemma length_eqb_0 {A} (l : list A) :
  Nat.eqb (length l) 0 = negb (nonEmpty l).
Proof. now destruct l. Qed.

(** ** The status record under [push] *)

Lemma add_reasons_nil st : add_reasons st [] = st.
Proof. destruct st; unfold add_reasons; simpl. now rewrite app_nil_r. Qed.

Lemma push_reason_add st r : push_reason st r = add_reasons st [r].
Proof. reflexivity. Qed.

Lemma add_reasons_add st rs1 rs2 :
  add_reasons (add_reasons st rs1) rs2 = add_reasons st (rs1 ++ rs2).
Proof. unfold add_reasons; simpl. now rewrite app_assoc. Qed.

(** ** Relation table and tolerability *)

(** Case analysis on the first string test of the goal. *)
Ltac case_key :=
  match goal with
  | |- context [String.eqb ?a ?k] =>
      destruct (String.eqb_spec a k) as [->|?]
  end.

Lemma relations_lookup (a : string) :
  relations !! a =
    if String.eqb a "sesame" then Some ["sesame_seed"; "sesame_oil"]
    else if String.eqb a "peanut" then Some ["peanut_oil"]
    else if String.eqb a "gluten" then Some ["soy_sauce"]
    else if String.eqb a "shellfish" then Some ["oyster_sauce"]
    else None.
Proof.
  unfold relations.
  repeat (case_key;
          [vm_compute; reflexivity
          | first [rewrite lookup_insert_ne by congruence
                  | rewrite lookup_singleton_ne by congruence]]).
  reflexivity.
Qed.

Lemma isRelatedToAllergen_spec (f a : string) :
  isRelatedToAllergen f a = true <-> related_form f a.
Proof.
  unfold isRelatedToAllergen, related_form. rewrite relations_lookup.
  repeat case_key; simpl;
    rewrite ?orb_false_r, ?orb_true_iff, ?String.eqb_eq;
    try (split; [intros; discriminate | intros H; intuition congruence]);
    intuition (try congruence; try discriminate).
Qed.

Lemma isAllergenTolerable_spec (c : Component) (a : string)
    (tol : list string) :
  isAllergenTolerable c a tol = true <->
  exists f, In f tol /\ In f (contains_ingredient_flags c)
            /\ isRelatedToAllergen f a = true.
Proof.
  unfold isAllergenTolerable. destruct tol as [|t tol'] eqn:E.
  - simpl. split; [discriminate | intros (f & [] & _)].
  - rewrite <- E. replace (Nat.eqb (length tol) 0) with false
      by (subst; reflexivity).
    rewrite existsb_exists. split.
    + intros (f & Hf & Hi). apply filter_In in Hf as [Hin Hrel].
      apply includes_In in Hi. now exists f.
    + intros (f & Hin & Hc & Hrel). exists f. split.
      * apply filter_In. now split.
      * now apply includes_In.
Qed.

(** ** The compliance checks in closed form *)

Lemma intolerablea_of_spec allergies tol c :
  intolerablea_of allergies tol c =
  List.filter (fun a => negb (isAllergenTolerable c a tol))
              (forbiddenAllergens_of allergies c).
Proof.
  unfold intolerablea_of, tolerableAllergens_of.
  apply filter_ext_in. intros a Ha. f_equal.
  destruct (isAllergenTolerable c a tol) eqn:E.
  - apply includes_In, filter_In. now split.
  - apply includes_not_In. intros H. apply filter_In in H as [_ H]. congruence.
Qed.

Lemma In_forbiddenAllergens allergies c a :
  In a (forbiddenAllergens_of allergies c) <->
  In a (contains_allergens c) /\ In a allergies.
Proof.
  unfold forbiddenAllergens_of. rewrite filter_In, includes_In. tauto.
Qed.

Lemma In_intolerablea allergies tol c a :
  In a (intolerablea_of allergies tol c) <->
  In a (contains_allergens c) /\ In a allergies
  /\ isAllergenTolerable c a tol = false.
Proof.
  rewrite intolerablea_of_spec, filter_In, In_forbiddenAllergens, negb_true_iff.
  tauto.
Qed.

Lemma In_tolerableAllergens allergies tol c a :
  In a (tolerableAllergens_of allergies tol c) <->
  In a (contains_allergens c) /\ In a allergies
  /\ isAllergenTolerable c a tol = true.
Proof.
  unfold tolerableAllergens_of. rewrite filter_In, In_forbiddenAllergens. tauto.
Qed.

Lemma In_forbiddenFlags flags c f :
  In f (forbiddenFlags_of flags c) <->
  In f (contains_ingredient_flags c) /\ In f flags.
Proof.
  unfold forbiddenFlags_of. rewrite filter_In, includes_In. tauto.
Qed.

Lemma forbiddenAllergens_nil_intolerablea allergies tol c :
  forbiddenAllergens_of allergies c = [] -> intolerablea_of allergies tol c = [].
Proof. intros H. rewrite intolerablea_of_spec, H. reflexivity. Qed.

Lemma checkCompliance_component_eq allergies flags tol h st c :
  checkCompliance_component allergies flags tol (h, st) c =
  (h || component_issue allergies flags tol c,
   add_reasons st (component_reasons allergies flags tol c)).
Proof.
  unfold checkCompliance_component, component_issue, component_reasons.
  destruct (nonEmpty (forbiddenAllergens_of allergies c)) eqn:Hfa.
  - destruct (nonEmpty (intolerablea_of allergies tol c)),
             (nonEmpty (tolerableAllergens_of allergies tol c)),
             (nonEmpty (forbiddenFlags_of flags c)); simpl;
      rewrite ?push_reason_add, ?add_reasons_add, ?add_reasons_nil,
              ?orb_true_r, ?orb_false_r; reflexivity.
  - apply nonEmpty_false in Hfa.
    rewrite (forbiddenAllergens_nil_intolerablea _ tol _ Hfa).
    unfold tolerableAllergens_of. rewrite Hfa. simpl.
    destruct (nonEmpty (forbiddenFlags_of flags c)); simpl;
      rewrite ?push_reason_add, ?add_reasons_nil, ?orb_true_r, ?orb_false_r;
      reflexivity.
Qed.

Lemma checkComplianceOnComponents_component_eq allergies flags tol h st c :
  checkComplianceOnComponents_component allergies flags tol (h, st) c =
  (h || component_issue allergies flags tol c,
   add_reasons st (recheck_reasons allergies flags tol c)).
Proof.
  unfold checkComplianceOnComponents_component, component_issue, recheck_reasons.
  destruct (nonEmpty (forbiddenAllergens_of allergies c)) eqn:Hfa.
  - destruct (nonEmpty (intolerablea_of allergies tol c)),
             (nonEmpty (forbiddenFlags_of flags c)); simpl;
      rewrite ?push_reason_add, ?add_reasons_add, ?add_reasons_nil,
              ?orb_true_r, ?orb_false_r; reflexivity.
  - apply nonEmpty_false in Hfa.
    rewrite (forbiddenAllergens_nil_intolerablea _ tol _ Hfa). simpl.
    destruct (nonEmpty (forbiddenFlags_of flags c)); simpl;
      rewrite ?push_reason_add, ?add_reasons_nil, ?orb_true_r, ?orb_false_r;
      reflexivity.
Qed.

(** A [forEach] whose body ORs an issue bit and appends reasons. *)
Lemma fold_left_issue_reasons
    (step : bool * ItemStatus -> Component -> bool * ItemStatus)
    (issue : Component -> bool) (rs : Component -> list string) :
  (forall h st c, step (h, st) c = (h || issue c, add_reasons st (rs c))) ->
  forall comps h st,
    fold_left step comps (h, st) =
    (h || existsb issue comps, add_reasons st (flat_map rs comps)).
Proof.
  intros Hstep comps. induction comps as [|c comps IH]; intros h st; simpl.
  - now rewrite orb_false_r, add_reasons_nil.
  - rewrite Hstep, IH, add_reasons_add, orb_assoc. reflexivity.
Qed.

Lemma checkCrossContact_eq risk allergies cc h st :
  checkCrossContact risk allergies cc (h, st) =
  (h || cross_issue risk allergies cc,
   add_reasons st (cross_reasons risk allergies cc)).
Proof.
  unfold checkCrossContact, cross_reasons, cross_issue, forbiddenRisks_of.
  destruct cc; simpl.
  - now rewrite orb_false_r, add_reasons_nil.
  - destruct risk as [|r risk]; simpl.
    + now rewrite orb_false_r, add_reasons_nil.
    + change (nonEmpty (r :: risk)) with true. cbv iota.
      destruct (nonEmpty _); simpl;
        rewrite ?orb_true_r, ?orb_false_r, ?add_reasons_nil; reflexivity.
Qed.

Lemma filter_includes_nil (l : list string) :
  List.filter (fun x => includes [] x) l = [].
Proof. induction l; simpl; auto. Qed.

Lemma component_issue_nil tol c : component_issue [] [] tol c = false.
Proof.
  unfold component_issue, forbiddenFlags_of.
  rewrite forbiddenAllergens_nil_intolerablea, filter_includes_nil;
    [reflexivity | apply filter_includes_nil].
Qed.

Lemma component_reasons_nil tol c : component_reasons [] [] tol c = [].
Proof.
  unfold component_reasons, forbiddenFlags_of, tolerableAllergens_of.
  rewrite forbiddenAllergens_nil_intolerablea by apply filter_includes_nil.
  unfold forbiddenAllergens_of. rewrite !filter_includes_nil. reflexivity.
Qed.

Lemma recheck_reasons_nil tol c : recheck_reasons [] [] tol c = [].
Proof.
  unfold recheck_reasons, forbiddenFlags_of.
  rewrite forbiddenAllergens_nil_intolerablea by apply filter_includes_nil.
  rewrite filter_includes_nil. reflexivity.
Qed.

Lemma existsb_all_false {A} (f : A -> bool) (l : list A) :
  (forall x, f x = false) -> existsb f l = false.
Proof. intros H. induction l; simpl; [reflexivity | now rewrite H]. Qed.

Lemma flat_map_all_nil {A B} (f : A -> list B) (l : list A) :
  (forall x, f x = []) -> flat_map f l = [].
Proof. intros H. induction l; simpl; [reflexivity | now rewrite H]. Qed.

Lemma cross_issue_nil risk cc : cross_issue risk [] cc = false.
Proof.
  unfold cross_issue, forbiddenRisks_of. rewrite filter_includes_nil.
  now destruct cc.
Qed.

(** The verdict and the reasons of [checkCompliance]; the early return on
    an empty avoid-set agrees with the general case. *)
Lemma checkCompliance_eq item allergies flags cc tol st :
  checkCompliance item allergies flags cc tol st =
  (negb (existsb (component_issue allergies flags tol) (components item)
         || cross_issue (cross_contact_risk item) allergies cc),
   add_reasons st
     (flat_map (component_reasons allergies flags tol) (components item)
      ++ cross_reasons (cross_contact_risk item) allergies cc)).
Proof.
  unfold checkCompliance.
  destruct (Nat.eqb (length allergies) 0 && Nat.eqb (length flags) 0) eqn:E.
  - apply andb_true_iff in E as [Ea Ef].
    rewrite length_eqb_0, negb_true_iff, nonEmpty_false in Ea, Ef. subst.
    rewrite existsb_all_false by apply component_issue_nil.
    rewrite flat_map_all_nil by apply component_reasons_nil.
    unfold cross_reasons. rewrite cross_issue_nil. simpl.
    now rewrite add_reasons_nil.
  - rewrite (fold_left_issue_reasons _ _ _
               (checkCompliance_component_eq allergies flags tol)).
    rewrite checkCrossContact_eq, add_reasons_add. reflexivity.
Qed.

Lemma checkComplianceOnComponents_eq comps risk allergies flags cc tol st :
  checkComplianceOnComponents comps risk allergies flags cc tol st =
  (negb (existsb (component_issue allergies flags tol) comps
         || cross_issue risk allergies cc),
   add_reasons st
     (flat_map (recheck_reasons allergies flags tol) comps
      ++ cross_reasons risk allergies cc)).
Proof.
  unfold checkComplianceOnComponents.
  destruct (Nat.eqb (length allergies) 0 && Nat.eqb (length flags) 0) eqn:E.
  - apply andb_true_iff in E as [Ea Ef].
    rewrite length_eqb_0, negb_true_iff, nonEmpty_false in Ea, Ef. subst.
    rewrite existsb_all_false by apply component_issue_nil.
    rewrite flat_map_all_nil by apply recheck_reasons_nil.
    unfold cross_reasons. rewrite cross_issue_nil. simpl.
    now rewrite add_reasons_nil.
  - rewrite (fold_left_issue_reasons _ _ _
               (checkComplianceOnComponents_component_eq allergies flags tol)).
    rewrite checkCrossContact_eq, add_reasons_add. reflexivity.
Qed.

(** Both checks reach the same verdict on the same components. *)
Lemma checkCompliance_recheck_verdict item allergies flags cc tol st st' :
  fst (checkCompliance item allergies flags cc tol st) =
  fst (checkComplianceOnComponents (components item) (cross_contact_risk item)
         allergies flags cc tol st').
Proof. now rewrite checkCompliance_eq, checkComplianceOnComponents_eq. Qed.

(** ** The dietary check *)

Lemma checkDietaryCompliance_loop_add veg vgn prefs st :
  exists rs,
    snd (checkDietaryCompliance_loop veg vgn prefs st) = add_reasons st rs.
Proof.
  induction prefs as [|p prefs IH]; simpl.
  - exists []. now rewrite add_reasons_nil.
  - destruct ((p =? "vegetarian") && negb veg);
      [eexists; apply push_reason_add|].
    destruct ((p =? "vegan") && negb vgn);
      [eexists; apply push_reason_add | exact IH].
Qed.

Lemma checkDietaryCompliance_add item prefs st :
  exists rs, snd (checkDietaryCompliance item prefs st) = add_reasons st rs.
Proof.
  unfold checkDietaryCompliance. destruct (Nat.eqb (length prefs) 0).
  - exists []. now rewrite add_reasons_nil.
  - apply checkDietaryCompliance_loop_add.
Qed.

Lemma checkDietaryCompliance_loop_pass veg vgn prefs st :
  fst (checkDietaryCompliance_loop veg vgn prefs st) = true ->
  snd (checkDietaryCompliance_loop veg vgn prefs st) = st.
Proof.
  induction prefs as [|p prefs IH]; simpl; [reflexivity|].
  destruct ((p =? "vegetarian") && negb veg); [discriminate|].
  destruct ((p =? "vegan") && negb vgn); [discriminate | exact IH].
Qed.

(** A passing dietary check records nothing. *)
Lemma checkDietaryCompliance_pass item prefs st :
  fst (checkDietaryCompliance item prefs st) = true ->
  snd (checkDietaryCompliance item prefs st) = st.
Proof.
  unfold checkDietaryCompliance. destruct (Nat.eqb (length prefs) 0);
    [reflexivity | apply checkDietaryCompliance_loop_pass].
Qed.

(** ** Modification resolver *)

Lemma canModificationsMakeItemSafe_eq item allergies flags cc tol :
  canModificationsMakeItemSafe item allergies flags cc tol =
  nonEmpty (getApplicableModifications item allergies flags)
  && recheck item allergies flags cc tol.
Proof.
  unfold canModificationsMakeItemSafe, recheck, effectiveComponents_of,
    getApplicableModifications, deepCopy.
  destruct (modifications item) as [|m ms] eqn:Em; [reflexivity|].
  change (Nat.eqb (length (m :: ms)) 0) with false. cbv iota.
  rewrite length_eqb_0.
  destruct (nonEmpty (List.filter (isApplicable allergies flags) (m :: ms)));
    simpl; [|reflexivity].
  now destruct (checkComplianceOnComponents _ _ _ _ _ _ _).
Qed.

(** The loop body of [filterByDietaryAndAllergies], one branch per
    bucket. *)
Lemma filterItem_eq prefs allergies flags cc tol results item :
  let d := checkDietaryCompliance item prefs (newItemStatus item) in
  let k := checkCompliance item allergies flags cc tol (snd d) in
  filterItem prefs allergies flags cc tol results item =
  if fst d && fst k then push_safe results (snd k)
  else if negb (fst k) && canModificationsMakeItemSafe item allergies flags cc tol
  then push_canBeModified results
         (set_modifications (snd k)
            (getApplicableModifications item allergies flags))
  else push_filtered results (snd k).
Proof.
  intros d k. unfold filterItem. fold d.
  destruct d as [isDietaryCompliant st0] eqn:Ed. simpl in k. fold k.
  destruct k as [isCompliant st1] eqn:Ek. simpl.
  destruct isCompliant; simpl.
  - now destruct isDietaryCompliant.
  - rewrite andb_false_r.
    destruct (nonEmpty (modifications item)) eqn:Em.
    + now destruct (canModificationsMakeItemSafe item allergies flags cc tol).
    + apply nonEmpty_false in Em. unfold canModificationsMakeItemSafe.
      rewrite Em. reflexivity.
Qed.

(** ** Buckets only grow *)

Lemma extends_refl r : extends r r.
Proof. repeat split; exists []; now rewrite app_nil_r. Qed.

Lemma extends_trans r1 r2 r3 : extends r1 r2 -> extends r2 r3 -> extends r1 r3.
Proof.
  intros ([a1 A1] & [b1 B1] & [c1 C1]) ([a2 A2] & [b2 B2] & [c2 C2]).
  repeat split; eexists.
  - rewrite A2, A1, <- app_assoc. reflexivity.
  - rewrite B2, B1, <- app_assoc. reflexivity.
  - rewrite C2, C1, <- app_assoc. reflexivity.
Qed.

Lemma extends_push_safe r s : extends r (push_safe r s).
Proof.
  repeat split; simpl; [exists [s] | exists [] | exists []];
    now rewrite ?app_nil_r.
Qed.

Lemma extends_push_filtered r s : extends r (push_filtered r s).
Proof.
  repeat split; simpl; [exists [] | exists [s] | exists []];
    now rewrite ?app_nil_r.
Qed.

Lemma extends_push_canBeModified r s : extends r (push_canBeModified r s).
Proof.
  repeat split; simpl; [exists [] | exists [] | exists [s]];
    now rewrite ?app_nil_r.
Qed.

Lemma extends_fold_left {A} (f : Results -> A -> Results) :
  (forall r x, extends r (f r x)) ->
  forall l r, extends r (fold_left f l r).
Proof.
  intros Hf l. induction l as [|x l IH]; intros r; simpl.
  - apply extends_refl.
  - eapply extends_trans; [apply Hf | apply IH].
Qed.

Lemma filterItem_extends prefs allergies flags cc tol r item :
  extends r (filterItem prefs allergies flags cc tol r item).
Proof.
  rewrite filterItem_eq.
  destruct (_ && _); [apply extends_push_safe|].
  destruct (_ && _);
    [apply extends_push_canBeModified | apply extends_push_filtered].
Qed.

(** Whatever the loop body pushes for an item of the catalog is in that
    bucket at the end of the run. *)
Lemma fold_left_pushed {A} (f : Results -> A -> Results)
    (bucket : Results -> list ItemStatus) (x : A) (s : ItemStatus) :
  (forall r y, extends r (f r y)) ->
  (forall r r', extends r r' -> forall t, In t (bucket r) -> In t (bucket r')) ->
  (forall r, In s (bucket (f r x))) ->
  forall l r, In x l -> In s (bucket (fold_left f l r)).
Proof.
  intros Hext Hmono Hpush l r Hin.
  apply in_split in Hin as (l1 & l2 & ->).
  rewrite fold_left_app. simpl.
  eapply Hmono; [apply extends_fold_left, Hext | apply Hpush].
Qed.

Lemma extends_safe r r' :
  extends r r' -> forall t, In t (safe r) -> In t (safe r').
Proof. intros ([l E] & _) t H. rewrite E. apply in_or_app. now left. Qed.

Lemma extends_filtered r r' :
  extends r r' -> forall t, In t (filtered r) -> In t (filtered r').
Proof. intros (_ & [l E] & _) t H. rewrite E. apply in_or_app. now left. Qed.

Lemma extends_canBeModified r r' :
  extends r r' -> forall t, In t (canBeModified r) -> In t (canBeModified r').
Proof. intros (_ & _ & [l E]) t H. rewrite E. apply in_or_app. now left. Qed.

(** ** C10 *)

Lemma checkDietaryCompliance_loop_unknown veg vgn prefs st :
  ~ In "vegetarian" prefs -> ~ In "vegan" prefs ->
  checkDietaryCompliance_loop veg vgn prefs st = (true, st).
Proof.
  induction prefs as [|p prefs IH]; simpl; intros Hv Hg; [reflexivity|].
  destruct (String.eqb_spec p "vegetarian") as [->|_]; [tauto|].
  destruct (String.eqb_spec p "vegan") as [->|_]; [tauto|].
  simpl. apply IH; tauto.
Qed.

(** C10 (unknown dietary preferences are ignored).  For every item and
    every non-empty preference list that contains neither "vegetarian" nor
    "vegan", [checkDietaryCompliance] passes the item and leaves the status
    untouched (no reason recorded); a whole run with such preferences gives
    the buckets of the run without dietary preferences, so no item is
    filtered on their account. *)
Theorem C10_unknown_preferences_ignored :
  forall (item : MenuItem) (prefs : list string) (st : ItemStatus),
    prefs <> [] ->
    ~ In "vegetarian" prefs ->
    ~ In "vegan" prefs ->
    checkDietaryCompliance item prefs st = (true, st)
    /\ forall catalog allergies flags cc tol,
         filterByDietaryAndAllergies catalog prefs allergies flags cc tol =
         filterByDietaryAndAllergies catalog [] allergies flags cc tol.
Proof.
  intros item prefs st Hne Hv Hg.
  assert (Hd : forall it s, checkDietaryCompliance it prefs s = (true, s)).
  { intros it s. unfold checkDietaryCompliance.
    destruct prefs; [congruence|]. simpl Nat.eqb. cbv iota.
    now apply checkDietaryCompliance_loop_unknown. }
  split; [apply Hd|].
  intros catalog allergies flags cc tol. unfold filterByDietaryAndAllergies.
  generalize emptyResults.
  induction catalog as [|it catalog IH]; intros r; simpl; [reflexivity|].
  rewrite IH. f_equal. unfold filterItem. now rewrite Hd.
Qed.

(** A diner asking for halal food only: the dietary check passes. *)
Lemma C10_witness :
  checkDietaryCompliance halal_item ["halal"] (newItemStatus halal_item)
  = (true, newItemStatus halal_item).
Proof.
  apply (C10_unknown_preferences_ignored halal_item ["halal"]).
  - discriminate.
  - simpl. intros [H|[]]. discriminate H.
  - simpl. intros [H|[]]. discriminate H.
Defined.

(** ** C9 *)

Lemma filterItem_no_restrictions r item :
  filterItem [] [] [] false [] r item = push_safe r (newItemStatus item).
Proof. reflexivity. Qed.

Lemma fold_left_push_safe
    (f : Results -> MenuItem -> Results) (g : MenuItem -> ItemStatus) :
  (forall r item, f r item = push_safe r (g item)) ->
  forall catalog r,
    fold_left f catalog r =
    {| safe := safe r ++ List.map g catalog;
       filtered := filtered r;
       canBeModified := canBeModified r |}.
Proof.
  intros Hf catalog. induction catalog as [|it catalog IH]; intros r; simpl.
  - rewrite app_nil_r. now destruct r.
  - rewrite IH, Hf. simpl. now rewrite <- app_assoc.
Qed.

(** C9 (permissive empty-profile default).  With empty dietary, allergy,
    avoided-flag and tolerated-flag sets and cross-contact acceptance
    false, the combined evaluation returns a result (the function is
    total): every catalog item is in the safe bucket, in catalog order,
    each with an empty reason list, and the filtered and canBeModified
    buckets are empty.  The report built from a profile without any field
    lists the same items as safe for all. *)
Theorem C9_empty_profile_is_permissive :
  forall catalog : list MenuItem,
    filterByDietaryAndAllergies catalog [] [] [] false [] =
      {| safe := List.map newItemStatus catalog;
         filtered := [];
         canBeModified := [] |}
    /\ Forall (fun s => reasons s = [])
              (safe (filterByDietaryAndAllergies catalog [] [] [] false []))
    /\ runMultiAllergyReport catalog emptyProfile =
       {| safeForAll := List.map newItemStatus catalog; safeByAllergy := ∅ |}.
Proof.
  intros catalog.
  assert (E : filterByDietaryAndAllergies catalog [] [] [] false [] =
              {| safe := List.map newItemStatus catalog;
                 filtered := []; canBeModified := [] |}).
  { unfold filterByDietaryAndAllergies.
    now rewrite (fold_left_push_safe _ newItemStatus filterItem_no_restrictions). }
  split; [exact E|]. split.
  - rewrite E. simpl. apply List.Forall_forall. intros s Hs.
    apply in_map_iff in Hs as (it & <- & _). reflexivity.
  - unfold runMultiAllergyReport, emptyProfile. simpl. now rewrite E.
Qed.

(** ** C8 *)

Lemma filter_none {A} (f : A -> bool) (l : list A) :
  (forall x, In x l -> f x = false) -> List.filter f l = [].
Proof.
  induction l as [|x l IH]; simpl; intros H; [reflexivity|].
  rewrite (H x) by now left. apply IH. intros y Hy. apply H. now right.
Qed.

Lemma clean_component_quiet allergies flags tol c :
  clean_component allergies flags c ->
  component_issue allergies flags tol c = false
  /\ component_reasons allergies flags tol c = []
  /\ recheck_reasons allergies flags tol c = [].
Proof.
  intros [Ha Hf].
  assert (Efa : forbiddenAllergens_of allergies c = []).
  { apply filter_none. intros a Hin. apply includes_not_In. now apply Ha. }
  assert (Eff : forbiddenFlags_of flags c = []).
  { apply filter_none. intros f Hin. apply includes_not_In. now apply Hf. }
  unfold component_issue, component_reasons, recheck_reasons,
    tolerableAllergens_of.
  rewrite (forbiddenAllergens_nil_intolerablea _ tol _ Efa), Efa, Eff.
  now repeat split.
Qed.

Lemma clean_components_quiet allergies flags tol comps :
  (forall c, In c comps -> clean_component allergies flags c) ->
  existsb (component_issue allergies flags tol) comps = false
  /\ flat_map (component_reasons allergies flags tol) comps = [].
Proof.
  induction comps as [|c comps IH]; simpl; intros H; [now split|].
  destruct (clean_component_quiet allergies flags tol c) as (-> & -> & _);
    [apply H; now left|].
  apply IH. intros c' Hc'. apply H. now right.
Qed.

Lemma cross_issue_true risk allergies :
  (exists a, In a risk /\ In a allergies) ->
  cross_issue risk allergies false = true.
Proof.
  intros (a & Hr & Ha). unfold cross_issue, forbiddenRisks_of. simpl.
  rewrite nonEmpty_filter. apply existsb_exists. exists a.
  split; [assumption | now apply includes_In].
Qed.

(** C8 (cross-contact gating).  Take a dietary-compliant item whose
    components contain no avoided allergen and no avoided flag, but whose
    cross-contact-risk list meets the avoided allergens.  With cross-contact
    acceptance false the loop body pushes it to filtered, its only reason
    being the cross-contact one (no modification can rescue it); with
    acceptance true, all else equal, it pushes it to safe with no reason.
    Hence for an item of the catalog the first status is in the filtered
    bucket of the first run and the second in the safe bucket of the
    second. *)
Theorem C8_cross_contact_gating :
  forall (prefs allergies flags tol : list string) (item : MenuItem),
    fst (checkDietaryCompliance item prefs (newItemStatus item)) = true ->
    (forall c, In c (components item) -> clean_component allergies flags c) ->
    (exists a, In a (cross_contact_risk item) /\ In a allergies) ->
    let rejected :=
      add_reasons (newItemStatus item)
        [cross_contact_reason
           (forbiddenRisks_of allergies (cross_contact_risk item))] in
    (forall r, filterItem prefs allergies flags false tol r item
               = push_filtered r rejected)
    /\ (forall r, filterItem prefs allergies flags true tol r item
                  = push_safe r (newItemStatus item))
    /\ (forall catalog, In item catalog ->
          In rejected
             (filtered (filterByDietaryAndAllergies
                          catalog prefs allergies flags false tol))
          /\ In (newItemStatus item)
                (safe (filterByDietaryAndAllergies
                         catalog prefs allergies flags true tol))).
Proof.
  intros prefs allergies flags tol item Hd Hclean Hrisk rejected.
  pose proof (checkDietaryCompliance_pass _ _ _ Hd) as Hst.
  destruct (clean_components_quiet allergies flags tol _ Hclean) as [Hi Hr].
  assert (Hno : forall r, filterItem prefs allergies flags false tol r item
                          = push_filtered r rejected).
  { intros r. pose proof (filterItem_eq prefs allergies flags false tol r item) as E.
    cbv zeta in E. rewrite E, Hd, Hst, checkCompliance_eq, Hi, Hr.
    rewrite canModificationsMakeItemSafe_eq. unfold recheck.
    rewrite checkComplianceOnComponents_eq. unfold cross_reasons.
    rewrite (cross_issue_true _ _ Hrisk). simpl.
    now rewrite orb_true_r, andb_false_r. }
  assert (Hyes : forall r, filterItem prefs allergies flags true tol r item
                           = push_safe r (newItemStatus item)).
  { intros r. pose proof (filterItem_eq prefs allergies flags true tol r item) as E.
    cbv zeta in E. rewrite E, Hd, Hst, checkCompliance_eq, Hi, Hr.
    unfold cross_reasons, cross_issue. simpl. now rewrite add_reasons_nil. }
  split; [exact Hno|]. split; [exact Hyes|].
  intros catalog Hin. split.
  - apply (fold_left_pushed _ filtered item);
      [intros; apply filterItem_extends | apply extends_filtered | | exact Hin].
    intros r. rewrite Hno. simpl. apply in_or_app. right. now left.
  - apply (fold_left_pushed _ safe item);
      [intros; apply filterItem_extends | apply extends_safe | | exact Hin].
    intros r. rewrite Hyes. simpl. apply in_or_app. right. now left.
Qed.

(** Fried rice with a peanut cross-contact risk, for a diner avoiding
    peanut. *)
Lemma C8_witness :
  filterItem [] ["peanut"] [] false [] emptyResults fried_rice
  = push_filtered emptyResults
      (add_reasons (newItemStatus fried_rice) ["Cross-contact risk: peanut"])
  /\ filterItem [] ["peanut"] [] true [] emptyResults fried_rice
     = push_safe emptyResults (newItemStatus fried_rice).
Proof.
  destruct (C8_cross_contact_gating [] ["peanut"] [] [] fried_rice)
    as (Hno & Hyes & _).
  - reflexivity.
  - simpl. intros c [<-|[]]. split; simpl; intros x [].
  - exists "peanut". simpl. split; now left.
  - split; [apply Hno | apply Hyes].
Defined.

(** ** C7 *)

Lemma existsb_includes (arr l : list string) :
  existsb (fun x => includes arr x) l = true <->
  exists x, In x l /\ In x arr.
Proof.
  rewrite existsb_exists. split; intros (x & H1 & H2); exists x;
    (split; [assumption | now apply includes_In]).
Qed.

Lemma isApplicable_spec allergies flags m :
  isApplicable allergies flags m = true <-> triggered allergies flags m.
Proof.
  assert (H : forall (g : string -> bool) l,
             nonEmpty l && existsb g l = existsb g l)
    by (intros g [|x l]; reflexivity).
  unfold isApplicable, triggered.
  rewrite !H, <- !existsb_includes.
  repeat match goal with
         | |- context [existsb ?g ?l] => destruct (existsb g l)
         end; intuition congruence.
Qed.

Lemma In_getApplicableModifications item allergies flags m :
  In m (getApplicableModifications item allergies flags) <->
  In m (modifications item) /\ triggered allergies flags m.
Proof.
  unfold getApplicableModifications.
  now rewrite filter_In, isApplicable_spec.
Qed.

(** For an item that fails the allergen/flag check, the resolver succeeds
    exactly when the re-check does: without any applicable modification the
    re-check sees the unmodified components and fails as well. *)
Lemma canModificationsMakeItemSafe_recheck item allergies flags cc tol st :
  fst (checkCompliance item allergies flags cc tol st) = false ->
  canModificationsMakeItemSafe item allergies flags cc tol =
  recheck item allergies flags cc tol.
Proof.
  intros Hk. rewrite canModificationsMakeItemSafe_eq.
  destruct (nonEmpty (getApplicableModifications item allergies flags)) eqn:E;
    [reflexivity|].
  apply nonEmpty_false in E. unfold recheck, effectiveComponents_of.
  rewrite E. simpl.
  now rewrite <- (checkCompliance_recheck_verdict item allergies flags cc tol st).
Qed.

(** C7 (joint modification application).  For a dietary-compliant item
    that fails the allergen/flag check: the applicable modifications are
    the declared ones whose trigger allergens meet the avoided allergens or
    whose trigger flags meet the avoided flags; the resolver applies all of
    them in turn to one working copy of the component list and re-checks
    that list with the item's own cross-contact set.  When the re-check
    finds no issue, the loop body appends to canBeModified, and to no other
    bucket, the item's entry with the reasons of the first check and with
    exactly the applicable modifications listed, and that entry is in the
    canBeModified bucket of every run over a catalog holding the item.
    Otherwise the entry, without modifications, goes to filtered in the same
    way. *)
Theorem C7_joint_modification :
  forall (prefs allergies flags : list string) (cc : bool) (tol : list string)
         (item : MenuItem),
    fst (checkDietaryCompliance item prefs (newItemStatus item)) = true ->
    fst (checkCompliance item allergies flags cc tol (newItemStatus item))
      = false ->
    let applicable := getApplicableModifications item allergies flags in
    let effective :=
      fold_left applyModification applicable (components item) in
    let isNowSafe :=
      fst (checkComplianceOnComponents effective (cross_contact_risk item)
             allergies flags cc tol testStatus) in
    let st :=
      snd (checkCompliance item allergies flags cc tol (newItemStatus item)) in
    let entry mods :=
      {| id := item_id item; status_name := item_name item;
         category := item_category item;
         reasons := reasons st;
         status_modifications := mods;
         tolerance_notes := None; toleranceAllowed := false |} in
    (forall m, In m applicable <->
               In m (modifications item) /\ triggered allergies flags m)
    /\ canModificationsMakeItemSafe item allergies flags cc tol = isNowSafe
    /\ (isNowSafe = true ->
        (forall r, filterItem prefs allergies flags cc tol r item
                   = {| safe := safe r;
                        filtered := filtered r;
                        canBeModified :=
                          canBeModified r ++ [entry (Some applicable)] |})
        /\ (forall catalog, In item catalog ->
              In (entry (Some applicable))
                 (canBeModified (filterByDietaryAndAllergies
                                   catalog prefs allergies flags cc tol))))
    /\ (isNowSafe = false ->
        (forall r, filterItem prefs allergies flags cc tol r item
                   = {| safe := safe r;
                        filtered := filtered r ++ [entry None];
                        canBeModified := canBeModified r |})
        /\ (forall catalog, In item catalog ->
              In (entry None)
                 (filtered (filterByDietaryAndAllergies
                              catalog prefs allergies flags cc tol)))).
Proof.
  intros prefs allergies flags cc tol item Hd Hk applicable effective
    isNowSafe st entry.
  pose proof (checkDietaryCompliance_pass _ _ _ Hd) as Hst.
  pose proof (canModificationsMakeItemSafe_recheck _ _ _ _ _ _ Hk) as Hm.
  change (recheck item allergies flags cc tol) with isNowSafe in Hm.
  assert (Eyes : set_modifications st applicable = entry (Some applicable)).
  { unfold entry, st. rewrite checkCompliance_eq. reflexivity. }
  assert (Eno : st = entry None).
  { unfold entry, st. rewrite checkCompliance_eq. reflexivity. }
  split; [intros m; apply In_getApplicableModifications|].
  split; [exact Hm|].
  split; intros Hsafe.
  - assert (Hpush : forall r, filterItem prefs allergies flags cc tol r item
                              = push_canBeModified r (entry (Some applicable))).
    { intros r. rewrite <- Eyes.
      pose proof (filterItem_eq prefs allergies flags cc tol r item) as E.
      cbv zeta in E. rewrite E, Hd, Hst, Hk, Hm, Hsafe. reflexivity. }
    split; [exact Hpush|]. intros catalog Hin.
    apply (fold_left_pushed _ canBeModified item);
      [intros; apply filterItem_extends | apply extends_canBeModified
      | | exact Hin].
    intros r. rewrite Hpush. simpl. apply in_or_app. right. now left.
  - assert (Hpush : forall r, filterItem prefs allergies flags cc tol r item
                              = push_filtered r (entry None)).
    { intros r. rewrite <- Eno.
      pose proof (filterItem_eq prefs allergies flags cc tol r item) as E.
      cbv zeta in E. rewrite E, Hd, Hst, Hk, Hm, Hsafe. reflexivity. }
    split; [exact Hpush|]. intros catalog Hin.
    apply (fold_left_pushed _ filtered item);
      [intros; apply filterItem_extends | apply extends_filtered
      | | exact Hin].
    intros r. rewrite Hpush. simpl. apply in_or_app. right. now left.
Qed.

(** Each modification alone leaves gluten in the dish; together they clear
    it, and the run lists the dish as modifiable with both. *)
Lemma C7_witness :
  List.map
    (fun m => fst (checkComplianceOnComponents
                     (applyModification (components glazed_duck) m) []
                     ["gluten"] [] false [] testStatus))
    (modifications glazed_duck) = [false; false]
  /\ filterByDietaryAndAllergies [glazed_duck] [] ["gluten"] [] false [] =
     {| safe := [];
        filtered := [];
        canBeModified :=
          [ {| id := "m3"; status_name := "Glazed duck"; category := "mains";
               reasons :=
                 [ String "034"%char
                     ("soy glaze"
                      ++ String "034"%char
                           " contains intolerable allergen(s): gluten");
                   String "034"%char
                     ("crumb"
                      ++ String "034"%char
                           " contains intolerable allergen(s): gluten") ];
               status_modifications :=
                 Some
                   [ {| action := "remove"; target_component := "soy glaze";
                        substitute_with := EmptyString;
                        when := {| avoid_allergens := ["gluten"];
                                   avoid_ingredient_flags := [] |} |};
                     {| action := "substitute"; target_component := "crumb";
                        substitute_with := "rice crumb";
                        when := {| avoid_allergens := ["gluten"];
                                   avoid_ingredient_flags := [] |} |} ];
               tolerance_notes := None;
               toleranceAllowed := false |} ] |}.
Proof.
  split; [reflexivity|].
  destruct (C7_joint_modification [] ["gluten"] [] false [] glazed_duck)
    as (_ & _ & Hyes & _); [reflexivity | reflexivity |].
  destruct (Hyes eq_refl) as [Hpush _].
  exact (Hpush emptyResults).
Defined.

(** ** C3 *)

(** Where the loop body sends an item that fails the dietary check. *)
Lemma dietary_failure_bucket prefs allergies flags cc tol r item :
  let d := checkDietaryCompliance item prefs (newItemStatus item) in
  let k := checkCompliance item allergies flags cc tol (snd d) in
  fst d = false ->
  filterItem prefs allergies flags cc tol r item =
  if negb (fst k) && canModificationsMakeItemSafe item allergies flags cc tol
  then push_canBeModified r
         (set_modifications (snd k)
            (getApplicableModifications item allergies flags))
  else push_filtered r (snd k).
Proof.
  intros d k Hd. pose proof (filterItem_eq prefs allergies flags cc tol r item) as E.
  cbv zeta in E. fold d in E. fold k in E. now rewrite E, Hd.
Qed.

(** The neighbouring path: a dietary failure with no allergen or flag issue
    is filtered. *)
Lemma dietary_failure_compliant_filtered prefs allergies flags cc tol r item :
  let d := checkDietaryCompliance item prefs (newItemStatus item) in
  let k := checkCompliance item allergies flags cc tol (snd d) in
  fst d = false -> fst k = true ->
  filterItem prefs allergies flags cc tol r item = push_filtered r (snd k).
Proof.
  intros d k Hd Hk.
  pose proof (dietary_failure_bucket prefs allergies flags cc tol r item) as E.
  cbv zeta in E. fold d in E. fold k in E. now rewrite E, Hk.
Qed.

(** C3 (dietary non-rescue) does not hold of the code.  For a vegan diner
    avoiding gluten, [glazed_pork] fails the dietary check (the vegan reason
    is recorded), and yet the run lists it in canBeModified with its gluten
    removal: the categorisation consults [canBeModifiedToSafe] without
    looking at [isDietaryCompliant] again. *)
Theorem C3_dietary_failure_lands_in_canBeModified :
  fst (checkDietaryCompliance glazed_pork ["vegan"] (newItemStatus glazed_pork))
    = false
  /\ filterByDietaryAndAllergies [glazed_pork] ["vegan"] ["gluten"] [] false [] =
     {| safe := [];
        filtered := [];
        canBeModified :=
          [ {| id := "m4"; status_name := "Glazed pork"; category := "mains";
               reasons :=
                 [ not_vegan_reason;
                   intolerable_reason
                     {| name := "soy glaze"; contains_allergens := ["gluten"];
                        contains_ingredient_flags := []; notes := None |}
                     ["gluten"] ];
               status_modifications := Some (modifications glazed_pork);
               tolerance_notes := None;
               toleranceAllowed := false |} ] |}.
Proof. split; reflexivity. Qed.

(** ** C2 *)

Lemma all_buckets_push_safe r s :
  Permutation (all_buckets (push_safe r s)) (s :: all_buckets r).
Proof.
  unfold all_buckets. simpl. rewrite <- app_assoc. simpl.
  symmetry. apply Permutation_middle.
Qed.

Lemma all_buckets_push_canBeModified r s :
  Permutation (all_buckets (push_canBeModified r s)) (s :: all_buckets r).
Proof.
  unfold all_buckets. simpl. rewrite <- app_assoc. simpl.
  rewrite app_assoc. symmetry.
  rewrite (app_assoc (safe r) (canBeModified r) (filtered r)).
  apply Permutation_middle.
Qed.

Lemma all_buckets_push_filtered r s :
  Permutation (all_buckets (push_filtered r s)) (s :: all_buckets r).
Proof.
  unfold all_buckets. simpl. rewrite !app_assoc.
  symmetry. apply Permutation_cons_append.
Qed.

Lemma ident_add_reasons st rs :
  ident_of_status (add_reasons st rs) = ident_of_status st.
Proof. reflexivity. Qed.

Lemma ident_checked prefs allergies flags cc tol item :
  ident_of_status
    (snd (checkCompliance item allergies flags cc tol
            (snd (checkDietaryCompliance item prefs (newItemStatus item)))))
  = ident_of_item item.
Proof.
  rewrite checkCompliance_eq. simpl.
  destruct (checkDietaryCompliance_add item prefs (newItemStatus item))
    as [rs ->].
  reflexivity.
Qed.

(** One pass of the loop body adds the item to exactly one bucket. *)
Lemma filterItem_one_bucket prefs allergies flags cc tol r item :
  exists s,
    ident_of_status s = ident_of_item item
    /\ (filterItem prefs allergies flags cc tol r item = push_safe r s
        \/ filterItem prefs allergies flags cc tol r item = push_canBeModified r s
        \/ filterItem prefs allergies flags cc tol r item = push_filtered r s).
Proof.
  rewrite filterItem_eq.
  pose proof (ident_checked prefs allergies flags cc tol item) as Hid.
  destruct (_ && _); [eexists; split; [exact Hid | now left]|].
  destruct (_ && _).
  - eexists. split; [|right; left; reflexivity]. exact Hid.
  - eexists. split; [exact Hid | now right; right].
Qed.

Lemma filterItem_idents prefs allergies flags cc tol r item :
  Permutation
    (List.map ident_of_status
       (all_buckets (filterItem prefs allergies flags cc tol r item)))
    (ident_of_item item :: List.map ident_of_status (all_buckets r)).
Proof.
  destruct (filterItem_one_bucket prefs allergies flags cc tol r item)
    as (s & Hs & [-> | [-> | ->]]); rewrite <- Hs;
    change (ident_of_status s :: List.map ident_of_status (all_buckets r))
      with (List.map ident_of_status (s :: all_buckets r));
    apply Permutation_map;
    [apply all_buckets_push_safe | apply all_buckets_push_canBeModified
    | apply all_buckets_push_filtered].
Qed.

Lemma fold_filterItem_idents prefs allergies flags cc tol catalog r :
  Permutation
    (List.map ident_of_status
       (all_buckets
          (fold_left (filterItem prefs allergies flags cc tol) catalog r)))
    (List.map ident_of_status (all_buckets r)
     ++ List.map ident_of_item catalog).
Proof.
  revert r. induction catalog as [|it catalog IH]; intros r; simpl.
  - now rewrite app_nil_r.
  - rewrite IH, filterItem_idents. simpl. apply Permutation_middle.
Qed.

(** ** The tolerance refiner in closed form *)

Lemma toleranceLoop_cons orig tolerances a rest acc :
  toleranceLoop orig tolerances (a :: rest) acc =
  match affirmedForm tolerances a with
  | None => toleranceLoop orig tolerances rest acc
  | Some m =>
      if checkIfOnlyTolerablyPresent orig a (flag m) then
        toleranceLoop orig tolerances rest (acc ++ [tolerance_note a m])
      else (false, acc)
  end.
Proof.
  unfold affirmedForm. simpl.
  destruct (toleranceMapping !! a) as [m|]; [|reflexivity].
  destruct (tolerances !! a) as [t|]; [|reflexivity].
  destruct (default false (t !! key m)); [|reflexivity].
  now destruct (checkIfOnlyTolerablyPresent orig a (flag m)).
Qed.

Lemma toleranceLoop_verdict orig tolerances allergies acc :
  fst (toleranceLoop orig tolerances allergies acc) =
  forallb (passes orig tolerances) allergies.
Proof.
  revert acc. induction allergies as [|a rest IH]; intros acc;
    [reflexivity|].
  rewrite toleranceLoop_cons. cbn [forallb]. unfold passes at 1.
  destruct (affirmedForm tolerances a) as [m|]; [|apply IH].
  destruct (checkIfOnlyTolerablyPresent orig a (flag m));
    [apply IH | reflexivity].
Qed.

Lemma toleranceLoop_notes orig tolerances allergies acc :
  fst (toleranceLoop orig tolerances allergies acc) = true ->
  snd (toleranceLoop orig tolerances allergies acc) =
  (acc ++ notes_of tolerances allergies)%list.
Proof.
  revert acc. induction allergies as [|a rest IH]; intros acc.
  - simpl. now rewrite app_nil_r.
  - rewrite toleranceLoop_cons. unfold notes_of. simpl.
    destruct (affirmedForm tolerances a) as [m|]; [|apply IH].
    destruct (checkIfOnlyTolerablyPresent orig a (flag m)); [|discriminate].
    intros H. rewrite (IH _ H), <- app_assoc. reflexivity.
Qed.

Lemma refineItem_eq catalog allergies tolerances r s :
  refineItem catalog allergies tolerances r s =
  match promotion catalog allergies tolerances s with
  | Some s' => push_safe r s'
  | None => push_filtered r s
  end.
Proof.
  unfold refineItem, promotion.
  destruct (List.find _ catalog) as [orig|]; [|reflexivity].
  pose proof (toleranceLoop_verdict orig tolerances allergies []) as Hv.
  pose proof (toleranceLoop_notes orig tolerances allergies []) as Hn.
  destruct (toleranceLoop orig tolerances allergies []) as [ok notes].
  simpl in Hv, Hn. rewrite <- Hv. destruct ok; [|reflexivity].
  rewrite (Hn eq_refl). simpl. now destruct (nonEmpty _).
Qed.

Lemma fold_refineItem catalog allergies tolerances l r :
  fold_left (refineItem catalog allergies tolerances) l r =
  {| safe := safe r ++ promoted_of catalog allergies tolerances l;
     filtered := filtered r ++ kept_of catalog allergies tolerances l;
     canBeModified := canBeModified r |}.
Proof.
  revert r. induction l as [|s l IH]; intros r; simpl.
  - rewrite !app_nil_r. now destruct r.
  - rewrite IH, refineItem_eq.
    destruct (promotion catalog allergies tolerances s); simpl;
      now rewrite <- ?app_assoc.
Qed.

Lemma filterByTolerance_eq catalog l1 allergies tolerances :
  filterByTolerance catalog l1 allergies tolerances =
  if Nat.eqb (size tolerances) 0 then l1
  else {| safe := safe l1
                  ++ promoted_of catalog allergies tolerances (filtered l1);
          filtered := kept_of catalog allergies tolerances (filtered l1);
          canBeModified := canBeModified l1 |}.
Proof.
  unfold filterByTolerance. destruct (Nat.eqb _ 0); [reflexivity|].
  now rewrite fold_refineItem.
Qed.

Lemma promotion_ident catalog allergies tolerances s s' :
  promotion catalog allergies tolerances s = Some s' ->
  ident_of_status s' = ident_of_status s.
Proof.
  unfold promotion. destruct (List.find _ catalog); [|discriminate].
  destruct (_ && _); [|discriminate]. now intros [= <-].
Qed.

Lemma refine_idents catalog allergies tolerances l :
  Permutation
    (List.map ident_of_status
       (promoted_of catalog allergies tolerances l
        ++ kept_of catalog allergies tolerances l))
    (List.map ident_of_status l).
Proof.
  induction l as [|s l IH]; simpl; [constructor|].
  destruct (promotion catalog allergies tolerances s) as [s'|] eqn:E; simpl.
  - rewrite (promotion_ident _ _ _ _ _ E). now constructor.
  - rewrite List.map_app. simpl. rewrite <- Permutation_middle.
    constructor. now rewrite <- List.map_app.
Qed.

Lemma filterByTolerance_idents catalog l1 allergies tolerances :
  Permutation
    (List.map ident_of_status
       (all_buckets (filterByTolerance catalog l1 allergies tolerances)))
    (List.map ident_of_status (all_buckets l1)).
Proof.
  rewrite filterByTolerance_eq. destruct (Nat.eqb _ 0); [reflexivity|].
  unfold all_buckets. simpl. rewrite !List.map_app.
  rewrite <- (refine_idents catalog allergies tolerances (filtered l1)).
  rewrite List.map_app.
  set (S := List.map ident_of_status (safe l1)).
  set (P := List.map ident_of_status (promoted_of _ _ _ _)).
  set (C := List.map ident_of_status (canBeModified l1)).
  set (K := List.map ident_of_status (kept_of _ _ _ _)).
  rewrite <- !app_assoc. apply Permutation_app_head.
  rewrite (app_assoc P C K), (Permutation_app_comm P C), <- app_assoc.
  reflexivity.
Qed.

(** C2 (category trichotomy).  For every catalog, profile and tolerance
    declaration: the entries of the three buckets safe, canBeModified and
    filtered, taken together, are the catalog items (by id, name and
    category), each counted as often as the catalog lists it, both after the
    first pass and after the tolerance refinement.  So no item is left out
    and none is in two buckets, and the bucket sizes add up to the size of
    the catalog. *)
Theorem C2_category_trichotomy :
  forall (catalog : list MenuItem) (prefs allergies flags : list string)
         (cc : bool) (tol : list string)
         (tolerances : gmap string (gmap string bool)),
    let r1 := filterByDietaryAndAllergies catalog prefs allergies flags cc tol in
    let r2 := filterByTolerance catalog r1 allergies tolerances in
    Permutation (List.map ident_of_status (all_buckets r1))
                (List.map ident_of_item catalog)
    /\ Permutation (List.map ident_of_status (all_buckets r2))
                   (List.map ident_of_item catalog)
    /\ length (safe r1) + length (canBeModified r1) + length (filtered r1)
       = length catalog
    /\ length (safe r2) + length (canBeModified r2) + length (filtered r2)
       = length catalog.
Proof.
  intros catalog prefs allergies flags cc tol tolerances r1 r2.
  assert (H1 : Permutation (List.map ident_of_status (all_buckets r1))
                           (List.map ident_of_item catalog)).
  { unfold r1, filterByDietaryAndAllergies.
    now rewrite fold_filterItem_idents. }
  assert (H2 : Permutation (List.map ident_of_status (all_buckets r2))
                           (List.map ident_of_item catalog)).
  { unfold r2. now rewrite filterByTolerance_idents. }
  split; [exact H1|]. split; [exact H2|].
  apply Permutation_length in H1, H2.
  unfold all_buckets in H1, H2.
  rewrite !length_map, !length_app in H1, H2. split; lia.
Qed.

(** With distinct catalog entries, no entry shows up twice across the
    buckets. *)
Lemma buckets_NoDup catalog prefs allergies flags cc tol tolerances :
  List.NoDup (List.map ident_of_item catalog) ->
  List.NoDup (List.map ident_of_status
           (all_buckets
              (filterByTolerance catalog
                 (filterByDietaryAndAllergies catalog prefs allergies flags cc tol)
                 allergies tolerances))).
Proof.
  intros H. eapply Permutation_NoDup; [|exact H]. symmetry.
  rewrite filterByTolerance_idents.
  unfold filterByDietaryAndAllergies. now rewrite fold_filterItem_idents.
Qed.

(** ** C1 *)

Lemma affirmedForm_spec tolerances a m :
  affirmedForm tolerances a = Some m <-> affirmed tolerances a m.
Proof.
  unfold affirmedForm, affirmed.
  destruct (toleranceMapping !! a) as [m'|]; [|split; [discriminate | now intros [? _]]].
  destruct (tolerances !! a) as [t|].
  - destruct (t !! key m') as [[]|] eqn:Et; simpl; split.
    + intros [= <-]. split; [reflexivity | now exists t].
    + now intros [[= <-] _].
    + discriminate.
    + intros [[= <-] (t' & [= <-] & Ht)]. congruence.
    + discriminate.
    + intros [[= <-] (t' & [= <-] & Ht)]. congruence.
  - split; [discriminate | now intros [_ (t & ? & _)]].
Qed.

Lemma componentOnlyTolerable_spec a fl c :
  componentOnlyTolerable a fl c = true <->
  (In a (contains_allergens c) ->
   In fl (contains_ingredient_flags c)
   /\ forall f, In f (contains_ingredient_flags c) ->
                related_form f a -> f = fl).
Proof.
  unfold componentOnlyTolerable. rewrite nonEmpty_filter.
  destruct (includes (contains_allergens c) a) eqn:Ea.
  - apply includes_In in Ea.
    destruct (existsb _ (contains_ingredient_flags c)) eqn:Eo.
    + split; [discriminate|]. intros H. destruct (H Ea) as [_ Hall].
      apply existsb_exists in Eo as (f & Hf & Hg).
      apply andb_true_iff in Hg as [Hne Hrel].
      apply isRelatedToAllergen_spec in Hrel.
      rewrite (Hall f Hf Hrel), String.eqb_refl in Hne. discriminate.
    + destruct (includes (contains_ingredient_flags c) fl) eqn:Et; simpl.
      * apply includes_In in Et. split; [|reflexivity].
        intros _ _. split; [assumption|]. intros f Hf Hrel.
        destruct (String.eqb_spec f fl) as [|Hne]; [assumption|].
        assert (Hg : negb (f =? fl) && isRelatedToAllergen f a = true).
        { apply andb_true_iff. split.
          - apply negb_true_iff. now apply String.eqb_neq.
          - now apply isRelatedToAllergen_spec. }
        assert (Hex : existsb
                        (fun f => negb (f =? fl) && isRelatedToAllergen f a)
                        (contains_ingredient_flags c) = true)
          by (apply existsb_exists; now exists f).
        congruence.
      * apply includes_not_In in Et. split; [discriminate|].
        intros H. destruct (H Ea) as [Hin _]. contradiction.
  - apply includes_not_In in Ea. split; [intros _ H; contradiction | reflexivity].
Qed.

Lemma checkIfOnlyTolerablyPresent_spec item a fl :
  checkIfOnlyTolerablyPresent item a fl = true <->
  solely_tolerated_form item a fl.
Proof.
  unfold checkIfOnlyTolerablyPresent, solely_tolerated_form.
  induction (components item) as [|c comps IH]; simpl.
  - split; [intros _ c [] | reflexivity].
  - destruct (componentOnlyTolerable a fl c) eqn:E.
    + rewrite IH.
      pose proof (proj1 (componentOnlyTolerable_spec a fl c) E) as E'. split.
      * intros H c' [<-|Hc']; [exact E' | now apply H].
      * intros H c' Hc'. apply H. now right.
    + split; [discriminate|]. intros H.
      assert (componentOnlyTolerable a fl c = true)
        by (apply componentOnlyTolerable_spec, H; now left).
      congruence.
Qed.

Lemma nonEmpty_notes_of tolerances allergies :
  nonEmpty (notes_of tolerances allergies) = true ->
  exists a m, In a allergies /\ affirmed tolerances a m.
Proof.
  unfold notes_of. induction allergies as [|a rest IH]; simpl; [discriminate|].
  destruct (affirmedForm tolerances a) as [m|] eqn:E.
  - intros _. exists a, m. split; [now left | now apply affirmedForm_spec].
  - simpl. intros H. destruct (IH H) as (a' & m & Hin & Ha).
    exists a', m. split; [now right | assumption].
Qed.

(** When the refiner promotes an entry. *)
Lemma promotion_Some catalog allergies tolerances s s' :
  promotion catalog allergies tolerances s = Some s' ->
  exists orig,
    List.find (fun item => item_id item =? id s) catalog = Some orig
    /\ s' = tolerantItem s (notes_of tolerances allergies)
    /\ (exists a m, In a allergies /\ affirmed tolerances a m)
    /\ (forall a m, In a allergies -> affirmed tolerances a m ->
                    solely_tolerated_form orig a (flag m)).
Proof.
  unfold promotion. destruct (List.find _ catalog) as [orig|]; [|discriminate].
  destruct (forallb _ allergies && nonEmpty _) eqn:E; [|discriminate].
  apply andb_true_iff in E as [Hall Hne]. intros [= <-].
  exists orig. split; [reflexivity|]. split; [reflexivity|].
  split; [now apply nonEmpty_notes_of|].
  intros a m Hin Ha. rewrite forallb_forall in Hall.
  specialize (Hall a Hin). unfold passes in Hall.
  apply affirmedForm_spec in Ha. rewrite Ha in Hall.
  now apply checkIfOnlyTolerablyPresent_spec.
Qed.

Lemma In_promoted_of catalog allergies tolerances l s' :
  In s' (promoted_of catalog allergies tolerances l) ->
  exists s, In s l /\ promotion catalog allergies tolerances s = Some s'.
Proof.
  unfold promoted_of. rewrite in_flat_map. intros (s & Hs & Hin).
  exists s. split; [assumption|].
  destruct (promotion catalog allergies tolerances s); simpl in Hin;
    [destruct Hin as [<-|[]]; reflexivity | destruct Hin].
Qed.

(** What the refiner does to the buckets.  It leaves the safe entries in
    place and appends the promoted ones, leaves canBeModified untouched, and
    keeps in filtered only entries that were filtered before.  An entry is
    promoted only if it was filtered, its item is in the catalog, the
    declaration affirms the mapped tolerated form of at least one avoided
    allergen, and every avoided allergen with an affirmed form passes
    [checkIfOnlyTolerablyPresent]; avoided allergens without an affirmed
    form are passed over. *)
Lemma filterByTolerance_buckets :
  forall (catalog : list MenuItem) (layer1Results : Results)
         (allergies : list string)
         (tolerances : gmap string (gmap string bool)),
    let r := filterByTolerance catalog layer1Results allergies tolerances in
    exists promoted,
      safe r = (safe layer1Results ++ promoted)%list
      /\ canBeModified r = canBeModified layer1Results
      /\ (forall s, In s (filtered r) -> In s (filtered layer1Results))
      /\ forall s', In s' promoted ->
           exists s orig,
             In s (filtered layer1Results)
             /\ List.find (fun item => item_id item =? id s) catalog = Some orig
             /\ s' = tolerantItem s (notes_of tolerances allergies)
             /\ (exists a m, In a allergies /\ affirmed tolerances a m)
             /\ (forall a m, In a allergies -> affirmed tolerances a m ->
                             solely_tolerated_form orig a (flag m)).
Proof.
  intros catalog l1 allergies tolerances r. unfold r.
  rewrite filterByTolerance_eq. destruct (Nat.eqb _ 0).
  - exists []. rewrite app_nil_r. repeat split; try tauto. intros s' [].
  - exists (promoted_of catalog allergies tolerances (filtered l1)). simpl.
    split; [reflexivity|]. split; [reflexivity|]. split.
    + intros s Hs. unfold kept_of in Hs. now apply filter_In in Hs.
    + intros s' Hs'. apply In_promoted_of in Hs' as (s & Hs & Hp).
      apply promotion_Some in Hp as (orig & Hf & He & Hex & Hall).
      now exists s, orig.
Qed.

(** A dietary failure is no obstacle either: for a vegan diner avoiding
    sesame, [egg_rice], filtered for lacking the vegan tag, is promoted once
    sesame oil is affirmed.  The refiner looks at allergens only. *)
Lemma dietary_failure_is_promoted :
  filterByTolerance [egg_rice]
    (filterByDietaryAndAllergies [egg_rice] ["vegan"] ["sesame"] [] false [])
    ["sesame"] sesame_oil_ok
  = {| safe :=
         [ {| id := "m6"; status_name := "Egg rice"; category := "mains";
              reasons :=
                ["Contains dairy, eggs or animal products - not vegan"];
              status_modifications := None;
              tolerance_notes :=
                Some ["Can tolerate sesame in form: sesame_oil"];
              toleranceAllowed := true |} ];
       filtered := [];
       canBeModified := [] |}
  /\ ~ promotion_sound_as_stated [egg_rice] ["vegan"] ["sesame"] []
         false [] sesame_oil_ok.
Proof.
  split; [reflexivity|]. intros H; red in H.
  set (s' := tolerantItem
               (add_reasons (newItemStatus egg_rice) [not_vegan_reason])
               ["Can tolerate sesame in form: sesame_oil"]).
  destruct (H s' egg_rice) as [_ (Hd & _)].
  - vm_compute. now left.
  - vm_compute. tauto.
  - reflexivity.
  - vm_compute in Hd. discriminate Hd.
Qed.

(** C1 (tolerance-refiner soundness) does not hold of the code.  A diner
    avoids gluten and sesame and affirms sesame oil only.  [bread] has
    gluten in its loaf and no sesame at all.  The first pass filters it,
    citing the intolerable gluten; the refiner then moves it to safe with
    the note about sesame oil, although nothing was ever affirmed for
    gluten: its loop passes over an avoided allergen without an affirmed
    tolerance and promotes on a single note.  The first pass, given the same
    tolerance as a tolerated flag, keeps the item filtered.  So promotion
    soundness as stated fails for this run. *)
Theorem C1_untolerated_allergen_is_promoted :
  let rejected :=
    {| id := "m10"; status_name := "Bread"; category := "sides";
       reasons :=
         [ String "034"%char
             ("loaf" ++ String "034"%char
                          " contains intolerable allergen(s): gluten") ];
       status_modifications := None;
       tolerance_notes := None;
       toleranceAllowed := false |} in
  let layer1Results :=
    filterByDietaryAndAllergies [bread] [] ["gluten"; "sesame"] [] false [] in
  layer1Results =
    {| safe := []; filtered := [rejected]; canBeModified := [] |}
  /\ filterByTolerance [bread] layer1Results ["gluten"; "sesame"]
       sesame_oil_ok
     = {| safe :=
            [ {| id := "m10"; status_name := "Bread"; category := "sides";
                 reasons := reasons rejected;
                 status_modifications := None;
                 tolerance_notes :=
                   Some ["Can tolerate sesame in form: sesame_oil"];
                 toleranceAllowed := true |} ];
          filtered := [];
          canBeModified := [] |}
  /\ filterByDietaryAndAllergies [bread] [] ["gluten"; "sesame"] [] false
       ["sesame_oil"]
     = {| safe := []; filtered := [rejected]; canBeModified := [] |}
  /\ ~ promotion_sound_as_stated [bread] [] ["gluten"; "sesame"] []
         false [] sesame_oil_ok.
Proof.
  intros rejected layer1Results.
  split; [reflexivity|]. split; [reflexivity|]. split; [reflexivity|].
  intros H; red in H.
  destruct (H (tolerantItem rejected
                 ["Can tolerate sesame in form: sesame_oil"]) bread)
    as [HA _].
  - vm_compute. now left.
  - vm_compute. tauto.
  - reflexivity.
  - destruct (HA "gluten") as (m & Hm & Hsole).
    + now left.
    + eexists. split; [now left | now left].
    + destruct (Hsole {| name := "loaf"; contains_allergens := ["gluten"];
                         contains_ingredient_flags := []; notes := None |})
        as [[] _]; now left.
Qed.

(** ** C4 *)

Lemma fold_left_safeByAllergy (g : string -> list ItemStatus)
    (l : list string) (rep : Report) :
  let rep' :=
    fold_left
      (fun report allergen =>
         {| safeForAll := safeForAll report;
            safeByAllergy := <[allergen := g allergen]> (safeByAllergy report) |})
      l rep in
  safeForAll rep' = safeForAll rep
  /\ forall a, safeByAllergy rep' !! a =
               if includes l a then Some (g a) else safeByAllergy rep !! a.
Proof.
  revert rep. induction l as [|x l IH]; intros rep; simpl; [now split|].
  destruct (IH {| safeForAll := safeForAll rep;
                  safeByAllergy := <[x := g x]> (safeByAllergy rep) |})
    as [Hs Hl].
  split; [exact Hs|]. intros a. rewrite Hl. simpl.
  unfold includes. simpl. fold (includes l a).
  destruct (includes l a); [now rewrite orb_true_r|].
  rewrite orb_false_r. destruct (String.eqb_spec a x) as [->|Hne].
  - apply lookup_insert_eq.
  - apply lookup_insert_ne. congruence.
Qed.

(** C4, as the code has it (report composition).  The report of
    [runMultiAllergyReport] has two parts: [safeForAll], the safe bucket of
    the combined first pass over the whole avoid-set (run with the profile's
    preferences, avoided flags, tolerated flags and cross-contact setting,
    absent fields defaulting to empty and to false), and [safeByAllergy],
    which maps each avoided allergen, and nothing else, to the safe bucket
    of the first pass run for that allergen alone.  The safe list is the
    first-pass one as it stands: it is not refined. *)
Theorem C4_report_composition :
  forall (catalog : list MenuItem) (tableProfile : TableProfile),
    let report := runMultiAllergyReport catalog tableProfile in
    safeForAll report = safe (combinedResults catalog tableProfile)
    /\ (forall a,
          safeByAllergy report !! a =
          if includes (default [] (avoidAllergens tableProfile)) a
          then Some (safe (singleAllergyResults catalog tableProfile a))
          else None).
Proof.
  intros catalog tableProfile report. unfold report, runMultiAllergyReport.
  match goal with
  | |- context [fold_left ?f ?l ?rep] =>
      pose proof (fold_left_safeByAllergy
                    (fun a => safe (singleAllergyResults catalog tableProfile a))
                    l rep) as [Hs Hl]
  end.
  split; [exact Hs|].
  intros a. etransitivity; [exact (Hl a)|].
  simpl. rewrite lookup_empty. reflexivity.
Qed.

(** C4 as stated fails.  For a vegan diner the catalog [egg_rice] and the
    empty catalog give the same report, yet only the first has a filtered
    entry, so the filtered bucket cannot be read off the report.  And for a
    diner who avoids sesame and declares sesame oil acceptable, the
    refinement of the combined result would list [sesame_noodles] as safe
    while the report's [safeForAll] is empty. *)
Lemma C4_counterexample :
  ~ report_holds_three_lists
  /\ ~ report_is_refined [sesame_noodles] sesame_profile.
Proof.
  split.
  - intros (modifiable & rejected & H).
    destruct (H [egg_rice] vegan_profile) as [_ H1].
    destruct (H [] vegan_profile) as [_ H2].
    assert (E : runMultiAllergyReport [egg_rice] vegan_profile
                = runMultiAllergyReport [] vegan_profile) by reflexivity.
    rewrite E, H2 in H1. vm_compute in H1. discriminate H1.
  - intros H. specialize (H sesame_oil_ok eq_refl).
    vm_compute in H. discriminate H.
Qed.

(** A diner avoids gluten and sesame and tolerates sesame oil.  Of noodles,
    salad and rice, the combined list has the salad (its sesame is in
    tolerated form) and the rice; the gluten list has the same two items,
    the salad without any note; the sesame list has all three; no other
    allergen has a list. *)
Lemma C4_witness :
  let tableProfile :=
    {| dietaryPreferences := None;
       avoidAllergens := Some ["gluten"; "sesame"];
       avoidIngredientFlags := None;
       tolerateFlags := Some ["sesame_oil"];
       crossContactOk := None;
       tolerances := None |} in
  let report :=
    runMultiAllergyReport [sesame_noodles; sesame_salad; fried_rice]
      tableProfile in
  let entry i n c rs :=
    {| id := i; status_name := n; category := c; reasons := rs;
       status_modifications := None; tolerance_notes := None;
       toleranceAllowed := false |} in
  let tolerated :=
    String "034"%char
      ("dressing" ++ String "034"%char " contains tolerated form: sesame") in
  safeForAll report =
    [ entry "m8" "Sesame salad" "starters" [tolerated];
      entry "m2" "Fried rice" "mains" [] ]
  /\ safeByAllergy report !! "gluten" =
       Some [ entry "m8" "Sesame salad" "starters" [];
              entry "m2" "Fried rice" "mains" [] ]
  /\ safeByAllergy report !! "sesame" =
       Some [ entry "m5" "Sesame noodles" "mains" [tolerated];
              entry "m8" "Sesame salad" "starters" [tolerated];
              entry "m2" "Fried rice" "mains" [] ]
  /\ safeByAllergy report !! "peanut" = None.
Proof.
  intros tableProfile report entry tolerated.
  destruct (C4_report_composition
              [sesame_noodles; sesame_salad; fried_rice] tableProfile)
    as (Hs & Hl).
  split; [exact Hs|].
  split; [exact (Hl "gluten")|].
  split; [exact (Hl "sesame") | exact (Hl "peanut")].
Defined.

(** ** C5 and C6 *)

(** The three reason templates, character for character. *)
Lemma intolerable_reason_text c l :
  intolerable_reason c l =
  String "034"%char
    (name c ++ String "034"%char
       (" contains intolerable allergen(s): " ++ String.concat ", " l)).
Proof. reflexivity. Qed.

Lemma tolerated_reason_text c l :
  tolerated_reason c l =
  String "034"%char
    (name c ++ String "034"%char
       (" contains tolerated form: " ++ String.concat ", " l)).
Proof. reflexivity. Qed.

Lemma flag_reason_text c l :
  flag_reason c l =
  String "034"%char
    (name c ++ String "034"%char
       (" contains ingredient flag(s): " ++ String.concat ", " l)).
Proof. reflexivity. Qed.

Lemma existsb_In_true {A} (f : A -> bool) (l : list A) (x : A) :
  In x l -> f x = true -> existsb f l = true.
Proof. intros Hin Hf. apply existsb_exists. now exists x. Qed.

Lemma checkCompliance_rejects item allergies flags cc tol st c :
  In c (components item) ->
  component_issue allergies flags tol c = true ->
  fst (checkCompliance item allergies flags cc tol st) = false.
Proof.
  intros Hin Hc. rewrite checkCompliance_eq. simpl.
  now rewrite (existsb_In_true _ _ c Hin Hc).
Qed.

Lemma checkCompliance_reason item allergies flags cc tol st c r :
  In c (components item) ->
  In r (component_reasons allergies flags tol c) ->
  In r (reasons (snd (checkCompliance item allergies flags cc tol st))).
Proof.
  intros Hin Hr. rewrite checkCompliance_eq. simpl.
  apply in_or_app. right. apply in_or_app. left.
  apply in_flat_map. now exists c.
Qed.

Lemma recheck_rejects comps risk allergies flags cc tol st c :
  In c comps ->
  component_issue allergies flags tol c = true ->
  fst (checkComplianceOnComponents comps risk allergies flags cc tol st) = false.
Proof.
  intros Hin Hc. rewrite checkComplianceOnComponents_eq. simpl.
  now rewrite (existsb_In_true _ _ c Hin Hc).
Qed.

Lemma recheck_reason comps risk allergies flags cc tol st c r :
  In c comps ->
  In r (recheck_reasons allergies flags tol c) ->
  In r (reasons (snd (checkComplianceOnComponents
                        comps risk allergies flags cc tol st))).
Proof.
  intros Hin Hr. rewrite checkComplianceOnComponents_eq. simpl.
  apply in_or_app. right. apply in_or_app. left.
  apply in_flat_map. now exists c.
Qed.

(** A failed allergen/flag check keeps the item out of the safe bucket. *)
Lemma filterItem_not_safe prefs allergies flags cc tol r item :
  (forall st, fst (checkCompliance item allergies flags cc tol st) = false) ->
  safe (filterItem prefs allergies flags cc tol r item) = safe r.
Proof.
  intros Hk. rewrite filterItem_eq, Hk, andb_false_r.
  now destruct (_ && _).
Qed.

Lemma flag_rejects item allergies flags cc tol c :
  In c (components item) ->
  (exists f, In f (contains_ingredient_flags c) /\ In f flags) ->
  rejected_with item allergies flags cc tol
    (flag_reason c (forbiddenFlags_of flags c)).
Proof.
  intros Hin (f & Hf & Hav).
  assert (Hne : nonEmpty (forbiddenFlags_of flags c) = true).
  { apply nonEmpty_true. intros E.
    assert (Hx : In f (forbiddenFlags_of flags c))
      by now apply In_forbiddenFlags.
    rewrite E in Hx. destruct Hx. }
  assert (Hi : component_issue allergies flags tol c = true)
    by (unfold component_issue; now rewrite Hne, orb_true_r).
  assert (Hk : forall st,
             fst (checkCompliance item allergies flags cc tol st) = false)
    by (intros st; now apply (checkCompliance_rejects _ _ _ _ _ _ c)).
  repeat split.
  - apply Hk.
  - apply (checkCompliance_reason _ _ _ _ _ _ c); [assumption|].
    unfold component_reasons. rewrite Hne. apply in_or_app. right. now left.
  - now apply (recheck_rejects _ _ _ _ _ _ _ c).
  - apply (recheck_reason _ _ _ _ _ _ _ c); [assumption|].
    unfold recheck_reasons. rewrite Hne. apply in_or_app. right. now left.
  - intros prefs results. now apply filterItem_not_safe.
Qed.

Lemma intolerable_rejects item allergies flags cc tol c :
  In c (components item) ->
  (exists a, In a (contains_allergens c) /\ In a allergies
             /\ isAllergenTolerable c a tol = false) ->
  rejected_with item allergies flags cc tol
    (intolerable_reason c (intolerablea_of allergies tol c)).
Proof.
  intros Hin (a & Ha & Hav & Htol).
  assert (Hne : nonEmpty (intolerablea_of allergies tol c) = true).
  { apply nonEmpty_true. intros E.
    assert (Hx : In a (intolerablea_of allergies tol c))
      by now apply In_intolerablea.
    rewrite E in Hx. destruct Hx. }
  assert (Hi : component_issue allergies flags tol c = true)
    by (unfold component_issue; now rewrite Hne).
  assert (Hk : forall st,
             fst (checkCompliance item allergies flags cc tol st) = false)
    by (intros st; now apply (checkCompliance_rejects _ _ _ _ _ _ c)).
  repeat split.
  - apply Hk.
  - apply (checkCompliance_reason _ _ _ _ _ _ c); [assumption|].
    unfold component_reasons. rewrite Hne. apply in_or_app. left. now left.
  - now apply (recheck_rejects _ _ _ _ _ _ _ c).
  - apply (recheck_reason _ _ _ _ _ _ _ c); [assumption|].
    unfold recheck_reasons. rewrite Hne. apply in_or_app. left. now left.
  - intros prefs results. now apply filterItem_not_safe.
Qed.

(** C6 (unconditional flag rejection, no silent drops).  For every
    component of an item: if one of its declared flags is in the avoided-flag
    set, the item is rejected with the reason
    ["<name>" contains ingredient flag(s): <its avoided flags>], whatever
    the tolerated-flag set; and if one of its declared allergens is avoided
    and not tolerable in that component, the item is rejected with the
    reason ["<name>" contains intolerable allergen(s): <those allergens>].
    Rejected means: [checkCompliance] and [checkComplianceOnComponents]
    return false with that reason recorded, and the item does not enter the
    safe bucket. *)
Theorem C6_flags_and_intolerable_allergens_reject :
  forall (item : MenuItem) (allergies flags : list string) (cc : bool)
         (tol : list string) (c : Component),
    In c (components item) ->
    ((exists f, In f (contains_ingredient_flags c) /\ In f flags) ->
     rejected_with item allergies flags cc tol
       (String "034"%char
          (name c ++ String "034"%char
             (" contains ingredient flag(s): "
              ++ String.concat ", " (forbiddenFlags_of flags c)))))
    /\ ((exists a, In a (contains_allergens c) /\ In a allergies
                   /\ isAllergenTolerable c a tol = false) ->
        rejected_with item allergies flags cc tol
          (String "034"%char
             (name c ++ String "034"%char
                (" contains intolerable allergen(s): "
                 ++ String.concat ", " (intolerablea_of allergies tol c))))).
Proof.
  intros item allergies flags cc tol c Hin. split.
  - intros H. rewrite <- flag_reason_text. now apply flag_rejects.
  - intros H. rewrite <- intolerable_reason_text. now apply intolerable_rejects.
Qed.

(** The avoided flag rejects the bun although its sesame is tolerated; and
    with pork allowed but sesame oil not tolerated, the sesame rejects
    it. *)
Lemma C6_witness :
  rejected_with pork_bun ["sesame"] ["pork"] false ["sesame_oil"]
    (String "034"%char
       ("filling" ++ String "034"%char " contains ingredient flag(s): pork"))
  /\ rejected_with pork_bun ["sesame"] [] false ["soy_sauce"]
       (String "034"%char
          ("filling" ++ String "034"%char
                          " contains intolerable allergen(s): sesame")).
Proof.
  split.
  - destruct (C6_flags_and_intolerable_allergens_reject
                pork_bun ["sesame"] ["pork"] false ["sesame_oil"]
                {| name := "filling"; contains_allergens := ["sesame"];
                   contains_ingredient_flags := ["pork"; "sesame_oil"];
                   notes := None |}) as [Hflag _].
    + simpl. now left.
    + apply Hflag. exists "pork". simpl. split; now left.
  - destruct (C6_flags_and_intolerable_allergens_reject
                pork_bun ["sesame"] [] false ["soy_sauce"]
                {| name := "filling"; contains_allergens := ["sesame"];
                   contains_ingredient_flags := ["pork"; "sesame_oil"];
                   notes := None |}) as [_ Hall].
    + simpl. now left.
    + apply Hall. exists "sesame". simpl.
      split; [now left|]. split; [now left | reflexivity].
Defined.

(** A component whose avoided allergens are all tolerable, and which
    carries no avoided flag, adds the tolerated-form note and raises no
    issue. *)
Lemma tolerable_component_step allergies flags tol h st c :
  (exists a, In a (contains_allergens c) /\ In a allergies) ->
  (forall a, In a (contains_allergens c) -> In a allergies ->
             isAllergenTolerable c a tol = true) ->
  forbiddenFlags_of flags c = [] ->
  checkCompliance_component allergies flags tol (h, st) c =
  (h, push_reason st (tolerated_reason c (forbiddenAllergens_of allergies c))).
Proof.
  intros (a & Ha & Hav) Hall Hff.
  assert (Ei : intolerablea_of allergies tol c = []).
  { rewrite intolerablea_of_spec. apply filter_none. intros x Hx.
    apply In_forbiddenAllergens in Hx as [Hx1 Hx2].
    now rewrite (Hall x Hx1 Hx2). }
  assert (Et : tolerableAllergens_of allergies tol c
               = forbiddenAllergens_of allergies c).
  { unfold tolerableAllergens_of.
    rewrite (filter_ext_in _ (fun _ => true)).
    - clear. induction (forbiddenAllergens_of allergies c); simpl; congruence.
    - intros x Hx. apply In_forbiddenAllergens in Hx as [Hx1 Hx2].
      now apply Hall. }
  assert (Hne : nonEmpty (forbiddenAllergens_of allergies c) = true).
  { apply nonEmpty_true. intros E.
    assert (Hx : In a (forbiddenAllergens_of allergies c))
      by now apply In_forbiddenAllergens.
    rewrite E in Hx. destruct Hx. }
  rewrite checkCompliance_component_eq.
  unfold component_issue, component_reasons. rewrite Ei, Et, Hff, Hne. simpl.
  now rewrite orb_false_r.
Qed.

(** C5 (first-pass per-component tolerability).
    (1) [isRelatedToAllergen] is the fixed relation table: sesame has the
    forms sesame_seed and sesame_oil, gluten soy_sauce, shellfish
    oyster_sauce, peanut peanut_oil.
    (2) An allergen is tolerable in a component exactly when some tolerated
    flag is declared on the component and is a related form of the
    allergen.
    (3) A component whose avoided allergens are all tolerable (and which has
    no avoided flag) adds the note
    ["<name>" contains tolerated form: <its avoided allergens>] and leaves
    the issue bit as it was.
    (4) A component with an avoided allergen that is not tolerable makes
    [checkCompliance] return false, with the reason
    ["<name>" contains intolerable allergen(s): <those allergens>], that
    allergen among them.
    (5) A one-component item with allergen sesame and only flag sesame_oil,
    sesame avoided: with no tolerated flags it is filtered, citing
    intolerable sesame; with sesame_oil tolerated it is safe, with the
    tolerated-form note. *)
Theorem C5_per_component_tolerability :
  (forall f a, isRelatedToAllergen f a = true <-> related_form f a)
  /\ (forall (c : Component) (a : string) (tol : list string),
        isAllergenTolerable c a tol = true <->
        exists f, In f tol /\ In f (contains_ingredient_flags c)
                  /\ related_form f a)
  /\ (forall allergies flags tol h st c,
        (exists a, In a (contains_allergens c) /\ In a allergies) ->
        (forall a, In a (contains_allergens c) -> In a allergies ->
                   isAllergenTolerable c a tol = true) ->
        forbiddenFlags_of flags c = [] ->
        checkCompliance_component allergies flags tol (h, st) c =
        (h,
         {| id := id st; status_name := status_name st;
            category := category st;
            reasons :=
              reasons st
              ++ [ String "034"%char
                     (name c ++ String "034"%char
                        (" contains tolerated form: "
                         ++ String.concat ", "
                              (forbiddenAllergens_of allergies c))) ];
            status_modifications := status_modifications st;
            tolerance_notes := tolerance_notes st;
            toleranceAllowed := toleranceAllowed st |}))
  /\ (forall item allergies flags cc tol c a,
        In c (components item) ->
        In a (contains_allergens c) -> In a allergies ->
        isAllergenTolerable c a tol = false ->
        In a (intolerablea_of allergies tol c)
        /\ rejected_with item allergies flags cc tol
             (String "034"%char
                (name c ++ String "034"%char
                   (" contains intolerable allergen(s): "
                    ++ String.concat ", "
                         (intolerablea_of allergies tol c)))))
  /\ (forall iid nm cat cname cnotes ts cc,
        let c := {| name := cname; contains_allergens := ["sesame"];
                    contains_ingredient_flags := ["sesame_oil"];
                    notes := cnotes |} in
        let item := {| item_id := iid; item_name := nm; item_category := cat;
                       components := [c]; modifications := []; tags := ts;
                       cross_contact_risk := [] |} in
        let entry r :=
          {| id := iid; status_name := nm; category := cat;
             reasons := [r];
             status_modifications := None; tolerance_notes := None;
             toleranceAllowed := false |} in
        filterByDietaryAndAllergies [item] [] ["sesame"] [] cc [] =
          {| safe := [];
             filtered :=
               [ entry
                   (String "034"%char
                      (cname ++ String "034"%char
                         " contains intolerable allergen(s): sesame")) ];
             canBeModified := [] |}
        /\ filterByDietaryAndAllergies [item] [] ["sesame"] [] cc ["sesame_oil"] =
           {| safe :=
                [ entry
                    (String "034"%char
                       (cname ++ String "034"%char
                          " contains tolerated form: sesame")) ];
              filtered := [];
              canBeModified := [] |}).
Proof.
  split; [apply isRelatedToAllergen_spec|].
  split.
  { intros c a tol. rewrite isAllergenTolerable_spec.
    split; intros (f & H1 & H2 & H3); exists f; repeat split; trivial;
      now apply isRelatedToAllergen_spec. }
  split.
  { intros allergies flags tol h st c Hex Hall Hff.
    rewrite (tolerable_component_step allergies flags tol h st c Hex Hall Hff).
    reflexivity. }
  split.
  { intros item allergies flags cc tol c a Hin Ha Hav Htol. split.
    - now apply In_intolerablea.
    - rewrite <- intolerable_reason_text.
      apply intolerable_rejects; [assumption | now exists a]. }
  intros iid nm cat cname cnotes ts cc c item entry.
  split; destruct cc; reflexivity.
Qed.

(** The salad's dressing has its sesame as sesame oil.  With nothing
    tolerated the salad is filtered, citing the sesame; with sesame oil
    tolerated it is safe and carries the tolerated-form note; and a
    tolerance for soy sauce does not help. *)
Lemma C5_witness :
  let entry r :=
    {| id := "m8"; status_name := "Sesame salad"; category := "starters";
       reasons := [r];
       status_modifications := None; tolerance_notes := None;
       toleranceAllowed := false |} in
  let intolerable :=
    String "034"%char
      ("dressing" ++ String "034"%char
                       " contains intolerable allergen(s): sesame") in
  let tolerated :=
    String "034"%char
      ("dressing" ++ String "034"%char " contains tolerated form: sesame") in
  filterByDietaryAndAllergies [sesame_salad] [] ["sesame"] [] false [] =
    {| safe := []; filtered := [entry intolerable]; canBeModified := [] |}
  /\ filterByDietaryAndAllergies [sesame_salad] [] ["sesame"] [] false
       ["sesame_oil"] =
     {| safe := [entry tolerated]; filtered := []; canBeModified := [] |}
  /\ In "sesame" (intolerablea_of ["sesame"] ["soy_sauce"]
                    {| name := "dressing"; contains_allergens := ["sesame"];
                       contains_ingredient_flags := ["sesame_oil"];
                       notes := None |})
  /\ rejected_with sesame_salad ["sesame"] [] false ["soy_sauce"] intolerable.
Proof.
  intros entry intolerable tolerated.
  destruct C5_per_component_tolerability as (_ & _ & _ & Hrej & Hrun).
  destruct (Hrun "m8" "Sesame salad" "starters" "dressing" None ["vegan"] false)
    as [Hno Hyes].
  split; [exact Hno|]. split; [exact Hyes|].
  apply (Hrej sesame_salad ["sesame"] [] false ["soy_sauce"]
              {| name := "dressing"; contains_allergens := ["sesame"];
                 contains_ingredient_flags := ["sesame_oil"];
                 notes := None |} "sesame").
  - simpl. now left.
  - simpl. now left.
  - simpl. now left.
  - reflexivity.
Defined.

(** * Further properties of the engine *)

(** ** Buckets in closed form *)

Lemma checkCompliance_verdict_any_status item allergies flags cc tol st :
  fst (checkCompliance item allergies flags cc tol st) =
  compliant allergies flags cc tol item.
Proof. unfold compliant. now rewrite !checkCompliance_eq. Qed.

Lemma filterItem_verdicts prefs allergies flags cc tol r item :
  filterItem prefs allergies flags cc tol r item =
  if is_safe prefs allergies flags cc tol item then
    push_safe r (item_status prefs allergies flags cc tol item)
  else if is_modifiable prefs allergies flags cc tol item then
    push_canBeModified r (modifiable_status prefs allergies flags cc tol item)
  else push_filtered r (item_status prefs allergies flags cc tol item).
Proof.
  rewrite filterItem_eq. unfold is_safe, is_modifiable, dietary_ok.
  now rewrite checkCompliance_verdict_any_status.
Qed.

Lemma fold_filterItem_closed prefs allergies flags cc tol catalog r :
  fold_left (filterItem prefs allergies flags cc tol) catalog r =
  {| safe :=
       safe r ++ List.map (item_status prefs allergies flags cc tol)
                   (List.filter (is_safe prefs allergies flags cc tol) catalog);
     filtered :=
       filtered r
       ++ List.map (item_status prefs allergies flags cc tol)
            (List.filter (is_filtered prefs allergies flags cc tol) catalog);
     canBeModified :=
       canBeModified r
       ++ List.map (modifiable_status prefs allergies flags cc tol)
            (List.filter (is_modifiable prefs allergies flags cc tol) catalog) |}.
Proof.
  revert r. induction catalog as [|it catalog IH]; intros r; simpl.
  - rewrite !app_nil_r. now destruct r.
  - rewrite IH, filterItem_verdicts.
    unfold is_filtered, is_safe, is_modifiable.
    destruct (dietary_ok prefs it),
             (compliant allergies flags cc tol it),
             (canModificationsMakeItemSafe it allergies flags cc tol);
      simpl; now rewrite <- ?app_assoc.
Qed.

Lemma filterByDietaryAndAllergies_closed catalog prefs allergies flags cc tol :
  filterByDietaryAndAllergies catalog prefs allergies flags cc tol =
  {| safe :=
       List.map (item_status prefs allergies flags cc tol)
         (List.filter (is_safe prefs allergies flags cc tol) catalog);
     filtered :=
       List.map (item_status prefs allergies flags cc tol)
         (List.filter (is_filtered prefs allergies flags cc tol) catalog);
     canBeModified :=
       List.map (modifiable_status prefs allergies flags cc tol)
         (List.filter (is_modifiable prefs allergies flags cc tol) catalog) |}.
Proof. unfold filterByDietaryAndAllergies. now rewrite fold_filterItem_closed. Qed.

(** X1.  The run over two catalogs laid end to end is the run over the
    first followed, bucket by bucket, by the run over the second: an item's
    category and entry do not depend on the other items of the catalog. *)
Theorem X1_run_of_concatenated_catalogs :
  forall (c1 c2 : list MenuItem) (prefs allergies flags : list string)
         (cc : bool) (tol : list string),
    filterByDietaryAndAllergies (c1 ++ c2) prefs allergies flags cc tol =
    append_results
      (filterByDietaryAndAllergies c1 prefs allergies flags cc tol)
      (filterByDietaryAndAllergies c2 prefs allergies flags cc tol).
Proof.
  intros c1 c2 prefs allergies flags cc tol.
  rewrite !filterByDietaryAndAllergies_closed. unfold append_results. simpl.
  now rewrite !List.filter_app, !List.map_app.
Qed.

Lemma ident_item_status prefs allergies flags cc tol item :
  ident_of_status (item_status prefs allergies flags cc tol item)
  = ident_of_item item.
Proof. apply ident_checked. Qed.

Lemma ident_modifiable_status prefs allergies flags cc tol item :
  ident_of_status (modifiable_status prefs allergies flags cc tol item)
  = ident_of_item item.
Proof. unfold modifiable_status. apply ident_checked. Qed.

Lemma map_ident_item_status prefs allergies flags cc tol l :
  List.map ident_of_status
    (List.map (item_status prefs allergies flags cc tol) l)
  = List.map ident_of_item l.
Proof.
  induction l as [|x l IH]; simpl; [reflexivity|].
  now rewrite IH, ident_item_status.
Qed.

Lemma map_ident_modifiable_status prefs allergies flags cc tol l :
  List.map ident_of_status
    (List.map (modifiable_status prefs allergies flags cc tol) l)
  = List.map ident_of_item l.
Proof.
  induction l as [|x l IH]; simpl; [reflexivity|].
  now rewrite IH, ident_modifiable_status.
Qed.

Lemma map_filter_sublist {A B} (g : A -> B) (p : A -> bool) (l : list A) :
  sublist (List.map g (List.filter p l)) (List.map g l).
Proof.
  induction l as [|x l IH]; simpl; [constructor|].
  destruct (p x); simpl; now constructor.
Qed.

(** X2.  Every bucket lists its items in catalog order: the identities
    (id, name, category) of a bucket's entries form a subsequence of the
    identities of the catalog. *)
Theorem X2_buckets_keep_catalog_order :
  forall (catalog : list MenuItem) (prefs allergies flags : list string)
         (cc : bool) (tol : list string),
    let r := filterByDietaryAndAllergies catalog prefs allergies flags cc tol in
    sublist (List.map ident_of_status (safe r))
            (List.map ident_of_item catalog)
    /\ sublist (List.map ident_of_status (canBeModified r))
               (List.map ident_of_item catalog)
    /\ sublist (List.map ident_of_status (filtered r))
               (List.map ident_of_item catalog).
Proof.
  intros catalog prefs allergies flags cc tol r. unfold r.
  rewrite filterByDietaryAndAllergies_closed. simpl.
  rewrite !map_ident_item_status, !map_ident_modifiable_status.
  repeat split; apply map_filter_sublist.
Qed.

(** ** When the checks pass *)

Lemma nonEmpty_exists {A} (l : list A) :
  nonEmpty l = true <-> exists x, In x l.
Proof.
  destruct l as [|x l]; simpl; split.
  - discriminate.
  - intros (x & []).
  - intros _. exists x. now left.
  - reflexivity.
Qed.

Lemma existsb_all_in_false {A} (f : A -> bool) (l : list A) :
  (forall x, In x l -> f x = false) -> existsb f l = false.
Proof.
  induction l as [|x l IH]; simpl; intros H; [reflexivity|].
  rewrite (H x) by now left. apply IH. intros y Hy. apply H. now right.
Qed.

Lemma component_issue_true_iff allergies flags tol c :
  component_issue allergies flags tol c = true <->
  has_intolerable_allergen allergies tol c \/ has_avoided_flag flags c.
Proof.
  unfold component_issue, has_intolerable_allergen, has_avoided_flag.
  rewrite orb_true_iff, !nonEmpty_exists.
  split; intros [(x & H)|(x & H)].
  - left. exists x. now apply In_intolerablea.
  - right. exists x. now apply In_forbiddenFlags.
  - left. exists x. now apply In_intolerablea.
  - right. exists x. now apply In_forbiddenFlags.
Qed.

Lemma cross_issue_true_iff risk allergies cc :
  cross_issue risk allergies cc = true <->
  cc = false /\ cross_contact_match risk allergies.
Proof.
  unfold cross_issue, cross_contact_match, forbiddenRisks_of.
  rewrite andb_true_iff, negb_true_iff, nonEmpty_exists.
  split; intros [Hc (a & H)]; (split; [exact Hc|]); exists a.
  - apply filter_In in H as [H1 H2]. apply includes_In in H2. now split.
  - apply filter_In. split; [tauto | apply includes_In; tauto].
Qed.

Lemma issue_bits_false_iff comps risk allergies flags cc tol :
  existsb (component_issue allergies flags tol) comps
  || cross_issue risk allergies cc = false <->
  no_issue comps risk allergies flags cc tol.
Proof.
  unfold no_issue. rewrite orb_false_iff. split.
  - intros [Hc Hx]. split.
    + intros c Hin.
      assert (Hf : component_issue allergies flags tol c = false).
      { destruct (component_issue allergies flags tol c) eqn:E; [|reflexivity].
        rewrite (existsb_In_true _ _ c Hin E) in Hc. discriminate. }
      split; intros H;
        assert (component_issue allergies flags tol c = true)
          by (apply component_issue_true_iff; tauto); congruence.
    + intros Hcc Hm.
      assert (cross_issue risk allergies cc = true)
        by now apply cross_issue_true_iff.
      congruence.
  - intros [Hc Hx]. split.
    + apply existsb_all_in_false. intros c Hin.
      destruct (component_issue allergies flags tol c) eqn:E; [|reflexivity].
      apply component_issue_true_iff in E. destruct (Hc c Hin). tauto.
    + destruct (cross_issue risk allergies cc) eqn:E; [|reflexivity].
      apply cross_issue_true_iff in E as [Hcc Hm]. now destruct (Hx Hcc).
Qed.

(** X3.  [checkCompliance] and [checkComplianceOnComponents] return true
    exactly when no component has an avoided allergen that is intolerable in
    it, no component carries an avoided flag, and, unless cross-contact is
    accepted, no declared cross-contact risk is an avoided allergen: an
    item is never rejected for any other cause. *)
Theorem X3_compliance_verdict_characterised :
  forall (item : MenuItem) (comps : list Component)
         (risk allergies flags : list string) (cc : bool)
         (tol : list string) (st : ItemStatus),
    (fst (checkCompliance item allergies flags cc tol st) = true <->
     no_issue (components item) (cross_contact_risk item)
              allergies flags cc tol)
    /\ (fst (checkComplianceOnComponents comps risk allergies flags cc tol st)
          = true <->
        no_issue comps risk allergies flags cc tol).
Proof.
  intros item comps risk allergies flags cc tol st.
  rewrite checkCompliance_eq, checkComplianceOnComponents_eq. simpl.
  rewrite !negb_true_iff. split; apply issue_bits_false_iff.
Qed.

(** ** The dietary check, characterised *)

Lemma checkDietaryCompliance_loop_true_iff veg vgn prefs st :
  fst (checkDietaryCompliance_loop veg vgn prefs st) = true <->
  (In "vegetarian" prefs -> veg = true) /\ (In "vegan" prefs -> vgn = true).
Proof.
  induction prefs as [|p prefs IH]; simpl.
  - split; [intros _; split; intros [] | reflexivity].
  - destruct (String.eqb_spec p "vegetarian") as [->|Hv]; simpl.
    + destruct veg; simpl.
      * destruct (String.eqb_spec "vegetarian" "vegan") as [E|_];
          [discriminate E|]. simpl. rewrite IH.
        split; intros [H1 H2]; split; auto.
        intros [E|H]; [discriminate E | auto].
      * split; [discriminate|]. intros [H _]. apply H. now left.
    + destruct (String.eqb_spec p "vegan") as [->|Hg]; simpl.
      * destruct vgn; simpl.
        -- rewrite IH. split; intros [H1 H2]; split; auto.
           intros [E|H]; [discriminate E | auto].
        -- split; [discriminate|]. intros [_ H]. apply H. now left.
      * rewrite IH. split; intros [H1 H2]; split.
        -- intros [E|H]; [congruence | auto].
        -- intros [E|H]; [congruence | auto].
        -- auto.
        -- auto.
Qed.

Lemma dietary_ok_iff prefs item :
  dietary_ok prefs item = true <-> meets_preferences prefs item.
Proof.
  unfold dietary_ok, meets_preferences, checkDietaryCompliance.
  destruct prefs as [|p prefs].
  - simpl. split; [intros _; split; intros [] | reflexivity].
  - change (Nat.eqb (length (p :: prefs)) 0) with false. cbv iota.
    rewrite checkDietaryCompliance_loop_true_iff, !includes_In. reflexivity.
Qed.

Lemma checkDietaryCompliance_verdict_any_status item prefs st :
  fst (checkDietaryCompliance item prefs st) = dietary_ok prefs item.
Proof.
  unfold dietary_ok, checkDietaryCompliance.
  destruct (Nat.eqb (length prefs) 0); [reflexivity|].
  generalize (includes (tags item) "vegetarian") (includes (tags item) "vegan").
  intros veg vgn. induction prefs as [|p prefs IH]; simpl; [reflexivity|].
  destruct ((p =? "vegetarian") && negb veg); [reflexivity|].
  destruct ((p =? "vegan") && negb vgn); [reflexivity | exact IH].
Qed.

Lemma checkDietaryCompliance_loop_fail veg vgn prefs st :
  fst (checkDietaryCompliance_loop veg vgn prefs st) = false ->
  snd (checkDietaryCompliance_loop veg vgn prefs st)
    = push_reason st not_vegetarian_reason
  \/ snd (checkDietaryCompliance_loop veg vgn prefs st)
     = push_reason st not_vegan_reason.
Proof.
  induction prefs as [|p prefs IH]; simpl; [discriminate|].
  destruct ((p =? "vegetarian") && negb veg); [now left|].
  destruct ((p =? "vegan") && negb vgn); [now right | exact IH].
Qed.

Lemma checkDietaryCompliance_fail item prefs st :
  fst (checkDietaryCompliance item prefs st) = false ->
  snd (checkDietaryCompliance item prefs st)
    = push_reason st not_vegetarian_reason
  \/ snd (checkDietaryCompliance item prefs st)
     = push_reason st not_vegan_reason.
Proof.
  unfold checkDietaryCompliance. destruct (Nat.eqb (length prefs) 0);
    [discriminate | apply checkDietaryCompliance_loop_fail].
Qed.

(** X4.  The dietary check passes exactly when the item carries the
    vegetarian tag if "vegetarian" is among the preferences and the vegan
    tag if "vegan" is; a pass leaves the status untouched, and a failure
    records exactly one reason, the vegetarian or the vegan one, even when
    both tags are missing. *)
Theorem X4_dietary_check_characterised :
  forall (item : MenuItem) (prefs : list string) (st : ItemStatus),
    (fst (checkDietaryCompliance item prefs st) = true <->
     meets_preferences prefs item)
    /\ (fst (checkDietaryCompliance item prefs st) = true ->
        snd (checkDietaryCompliance item prefs st) = st)
    /\ (fst (checkDietaryCompliance item prefs st) = false ->
        snd (checkDietaryCompliance item prefs st)
          = push_reason st not_vegetarian_reason
        \/ snd (checkDietaryCompliance item prefs st)
           = push_reason st not_vegan_reason).
Proof.
  intros item prefs st. split; [|split].
  - rewrite checkDietaryCompliance_verdict_any_status. apply dietary_ok_iff.
  - apply checkDietaryCompliance_pass.
  - apply checkDietaryCompliance_fail.
Qed.

(** A vegetarian (not vegan) dish for a diner asking for both. *)
Lemma X4_witness :
  snd (checkDietaryCompliance egg_rice ["vegan"; "vegetarian"]
         (newItemStatus egg_rice))
    = push_reason (newItemStatus egg_rice) not_vegetarian_reason
  \/ snd (checkDietaryCompliance egg_rice ["vegan"; "vegetarian"]
            (newItemStatus egg_rice))
     = push_reason (newItemStatus egg_rice) not_vegan_reason.
Proof.
  destruct (X4_dietary_check_characterised egg_rice ["vegan"; "vegetarian"]
              (newItemStatus egg_rice)) as (_ & _ & Hfail).
  apply Hfail. reflexivity.
Defined.

(** ** A laxer profile keeps every safe item safe *)

Lemma isAllergenTolerable_mono c a tol1 tol2 :
  incl tol1 tol2 ->
  isAllergenTolerable c a tol1 = true -> isAllergenTolerable c a tol2 = true.
Proof.
  intros Hi. rewrite !isAllergenTolerable_spec.
  intros (f & H1 & H2 & H3). exists f. split; [now apply Hi | now split].
Qed.

Lemma no_issue_mono comps risk allergies1 flags1 cc1 tol1
    allergies2 flags2 cc2 tol2 :
  incl allergies2 allergies1 -> incl flags2 flags1 -> incl tol1 tol2 ->
  (cc1 = true -> cc2 = true) ->
  no_issue comps risk allergies1 flags1 cc1 tol1 ->
  no_issue comps risk allergies2 flags2 cc2 tol2.
Proof.
  intros Ha Hf Ht Hc [Hcomp Hx]. split.
  - intros c Hin. destruct (Hcomp c Hin) as [Hi Hfl]. split.
    + intros (a & H1 & H2 & H3). apply Hi. exists a.
      split; [assumption|]. split; [now apply Ha|].
      destruct (isAllergenTolerable c a tol1) eqn:E; [|reflexivity].
      rewrite (isAllergenTolerable_mono _ _ _ _ Ht E) in H3. discriminate.
    + intros (f & H1 & H2). apply Hfl. exists f. split; [assumption | now apply Hf].
  - intros Hcc2 (a & H1 & H2).
    assert (Hcc1 : cc1 = false)
      by (destruct cc1; [rewrite Hc in Hcc2 by reflexivity; discriminate
                        | reflexivity]).
    apply (Hx Hcc1). exists a. split; [assumption | now apply Ha].
Qed.

Lemma compliant_iff allergies flags cc tol item :
  compliant allergies flags cc tol item = true <->
  no_issue (components item) (cross_contact_risk item) allergies flags cc tol.
Proof.
  unfold compliant. rewrite checkCompliance_eq. simpl.
  rewrite negb_true_iff. apply issue_bits_false_iff.
Qed.

Lemma is_safe_mono prefs1 allergies1 flags1 cc1 tol1
    prefs2 allergies2 flags2 cc2 tol2 item :
  laxer prefs1 allergies1 flags1 cc1 tol1 prefs2 allergies2 flags2 cc2 tol2 ->
  is_safe prefs1 allergies1 flags1 cc1 tol1 item = true ->
  is_safe prefs2 allergies2 flags2 cc2 tol2 item = true.
Proof.
  intros (Hp & Ha & Hf & Ht & Hc). unfold is_safe.
  rewrite !andb_true_iff, !dietary_ok_iff, !compliant_iff.
  intros [[Hv Hg] Hn]. split.
  - split; intros H; [apply Hv | apply Hg]; now apply Hp.
  - now apply (no_issue_mono _ _ allergies1 flags1 cc1 tol1).
Qed.

Lemma In_safe_bucket catalog prefs allergies flags cc tol s :
  In s (safe (filterByDietaryAndAllergies catalog prefs allergies flags cc tol))
  <-> exists item,
        In item catalog
        /\ is_safe prefs allergies flags cc tol item = true
        /\ s = item_status prefs allergies flags cc tol item.
Proof.
  rewrite filterByDietaryAndAllergies_closed. simpl. rewrite in_map_iff.
  split; intros (item & H1 & H2); exists item.
  - apply filter_In in H2 as [H2 H3]. now repeat split.
  - destruct H2 as [H2 H3]. split; [now symmetry | now apply filter_In].
Qed.

(** X5.  Relaxing a profile never takes an item out of the safe bucket:
    with fewer dietary preferences, fewer avoided allergens and flags, more
    tolerated flags, and cross-contact accepted wherever it was, every item
    that was safe is still safe (its entry may carry other notes). *)
Theorem X5_laxer_profile_keeps_safe_items :
  forall (catalog : list MenuItem)
         (prefs1 allergies1 flags1 : list string) (cc1 : bool)
         (tol1 : list string)
         (prefs2 allergies2 flags2 : list string) (cc2 : bool)
         (tol2 : list string),
    laxer prefs1 allergies1 flags1 cc1 tol1
          prefs2 allergies2 flags2 cc2 tol2 ->
    forall s,
      In s (safe (filterByDietaryAndAllergies
                    catalog prefs1 allergies1 flags1 cc1 tol1)) ->
      exists s',
        In s' (safe (filterByDietaryAndAllergies
                       catalog prefs2 allergies2 flags2 cc2 tol2))
        /\ ident_of_status s' = ident_of_status s.
Proof.
  intros catalog prefs1 allergies1 flags1 cc1 tol1
    prefs2 allergies2 flags2 cc2 tol2 Hlax s Hs.
  apply In_safe_bucket in Hs as (item & Hin & Hsafe & ->).
  exists (item_status prefs2 allergies2 flags2 cc2 tol2 item). split.
  - apply In_safe_bucket. exists item. split; [assumption|].
    split; [|reflexivity]. now apply (is_safe_mono _ _ _ _ _ _ _ _ _ _ _ Hlax).
  - now rewrite !ident_item_status.
Qed.

(** The salad is safe for a diner who tolerates sesame oil and avoids
    sesame and pork; it stays safe when pork is no longer avoided and
    cross-contact is accepted. *)
Lemma X5_witness :
  exists s',
    In s' (safe (filterByDietaryAndAllergies [sesame_salad; pork_bun]
                   [] ["sesame"] [] true ["sesame_oil"; "soy_sauce"]))
    /\ ident_of_status s' = ("m8", "Sesame salad", "starters").
Proof.
  apply (X5_laxer_profile_keeps_safe_items [sesame_salad; pork_bun]
           ["vegan"] ["sesame"; "gluten"] ["pork"] false ["sesame_oil"]
           [] ["sesame"] [] true ["sesame_oil"; "soy_sauce"]
           ltac:(unfold laxer, incl; simpl; repeat split; intros; tauto)
           (item_status ["vegan"] ["sesame"; "gluten"] ["pork"] false
              ["sesame_oil"] sesame_salad)).
  simpl. left. reflexivity.
Defined.

(** ** The report against the combined run *)

Lemma report_parts catalog tableProfile :
  safeForAll (runMultiAllergyReport catalog tableProfile)
    = safe (combinedResults catalog tableProfile)
  /\ forall a,
       safeByAllergy (runMultiAllergyReport catalog tableProfile) !! a =
       if includes (default [] (avoidAllergens tableProfile)) a
       then Some (safe (singleAllergyResults catalog tableProfile a))
       else None.
Proof.
  unfold runMultiAllergyReport.
  match goal with
  | |- context [fold_left ?f ?l ?rep] =>
      pose proof (fold_left_safeByAllergy
                    (fun a => safe (singleAllergyResults catalog tableProfile a))
                    l rep) as [Hs Hl]
  end.
  split; [exact Hs|].
  intros a. etransitivity; [exact (Hl a)|].
  simpl. rewrite lookup_empty. reflexivity.
Qed.

(** X6.  In the report, whatever is safe for all avoided allergens together
    is also listed as safe under each single avoided allergen: the combined
    list never shows an item that one of the per-allergen lists lacks. *)
Theorem X6_safe_for_all_is_safe_for_each :
  forall (catalog : list MenuItem) (tableProfile : TableProfile) (a : string),
    In a (default [] (avoidAllergens tableProfile)) ->
    exists l,
      safeByAllergy (runMultiAllergyReport catalog tableProfile) !! a = Some l
      /\ forall s,
           In s (safeForAll (runMultiAllergyReport catalog tableProfile)) ->
           exists s', In s' l /\ ident_of_status s' = ident_of_status s.
Proof.
  intros catalog tableProfile a Ha.
  destruct (report_parts catalog tableProfile) as [Hs Hl].
  exists (safe (singleAllergyResults catalog tableProfile a)). split.
  - rewrite Hl. now rewrite (proj2 (includes_In _ _) Ha).
  - intros s Hin. rewrite Hs in Hin. unfold combinedResults in Hin.
    apply In_safe_bucket in Hin as (item & Hin & Hsafe & ->).
    eexists. split.
    + unfold singleAllergyResults. apply In_safe_bucket.
      exists item. split; [assumption|]. split; [|reflexivity].
      revert Hsafe. apply is_safe_mono.
      unfold laxer. repeat split; try apply incl_refl; try tauto.
      intros x [<-|[]]. exact Ha.
    + now rewrite !ident_item_status.
Qed.

Lemma X6_witness :
  exists l,
    safeByAllergy (runMultiAllergyReport [sesame_noodles; fried_rice]
                     sesame_profile) !! "sesame" = Some l
    /\ forall s,
         In s (safeForAll (runMultiAllergyReport [sesame_noodles; fried_rice]
                             sesame_profile)) ->
         exists s', In s' l /\ ident_of_status s' = ident_of_status s.
Proof.
  apply (X6_safe_for_all_is_safe_for_each [sesame_noodles; fried_rice]
           sesame_profile "sesame").
  simpl. now left.
Defined.

(** ** What the entries of a run look like *)

Lemma In_filtered_bucket catalog prefs allergies flags cc tol s :
  In s (filtered (filterByDietaryAndAllergies
                    catalog prefs allergies flags cc tol))
  <-> exists item,
        In item catalog
        /\ is_filtered prefs allergies flags cc tol item = true
        /\ s = item_status prefs allergies flags cc tol item.
Proof.
  rewrite filterByDietaryAndAllergies_closed. simpl. rewrite in_map_iff.
  split; intros (item & H1 & H2); exists item.
  - apply filter_In in H2 as [H2 H3]. now repeat split.
  - destruct H2 as [H2 H3]. split; [now symmetry | now apply filter_In].
Qed.

Lemma In_canBeModified_bucket catalog prefs allergies flags cc tol s :
  In s (canBeModified (filterByDietaryAndAllergies
                         catalog prefs allergies flags cc tol))
  <-> exists item,
        In item catalog
        /\ is_modifiable prefs allergies flags cc tol item = true
        /\ s = modifiable_status prefs allergies flags cc tol item.
Proof.
  rewrite filterByDietaryAndAllergies_closed. simpl. rewrite in_map_iff.
  split; intros (item & H1 & H2); exists item.
  - apply filter_In in H2 as [H2 H3]. now repeat split.
  - destruct H2 as [H2 H3]. split; [now symmetry | now apply filter_In].
Qed.

(** X7.  Modifications cannot clear a cross-contact risk: when cross-contact
    is not accepted and a declared cross-contact risk of the item is an
    avoided allergen, the item is filtered whatever its components,
    modifications and dietary tags are. *)
Theorem X7_cross_contact_match_is_always_filtered :
  forall (prefs allergies flags tol : list string) (item : MenuItem),
    cross_contact_match (cross_contact_risk item) allergies ->
    canModificationsMakeItemSafe item allergies flags false tol = false
    /\ (forall r,
          filterItem prefs allergies flags false tol r item =
          push_filtered r (item_status prefs allergies flags false tol item))
    /\ (forall catalog,
          In item catalog ->
          In (item_status prefs allergies flags false tol item)
             (filtered (filterByDietaryAndAllergies
                          catalog prefs allergies flags false tol))).
Proof.
  intros prefs allergies flags tol item Hm.
  assert (Hx : cross_issue (cross_contact_risk item) allergies false = true)
    by now apply cross_issue_true_iff.
  assert (Hmod : canModificationsMakeItemSafe item allergies flags false tol
                 = false).
  { rewrite canModificationsMakeItemSafe_eq. unfold recheck.
    rewrite checkComplianceOnComponents_eq. simpl.
    now rewrite Hx, orb_true_r, andb_false_r. }
  assert (Hc : compliant allergies flags false tol item = false).
  { unfold compliant. rewrite checkCompliance_eq. simpl.
    now rewrite Hx, orb_true_r. }
  assert (Hs : is_safe prefs allergies flags false tol item = false)
    by (unfold is_safe; now rewrite Hc, andb_false_r).
  assert (Hi : is_modifiable prefs allergies flags false tol item = false)
    by (unfold is_modifiable; now rewrite Hmod, andb_false_r).
  split; [exact Hmod|]. split.
  - intros r. now rewrite filterItem_verdicts, Hs, Hi.
  - intros catalog Hin. apply In_filtered_bucket. exists item.
    split; [assumption|]. split; [|reflexivity].
    unfold is_filtered. now rewrite Hs, Hi.
Qed.

(** A dish whose only gluten is removable, prepared next to peanuts. *)
Lemma X7_witness :
  canModificationsMakeItemSafe peanut_side_pork ["gluten"; "peanut"] []
    false [] = false.
Proof.
  apply (X7_cross_contact_match_is_always_filtered
           [] ["gluten"; "peanut"] [] [] peanut_side_pork).
  exists "peanut". simpl. split; [now left | right; now left].
Defined.

Lemma component_issue_has_reason allergies flags tol c :
  component_issue allergies flags tol c = true ->
  component_reasons allergies flags tol c <> [].
Proof.
  unfold component_issue, component_reasons.
  destruct (nonEmpty (intolerablea_of allergies tol c)); simpl;
    [discriminate|].
  destruct (nonEmpty (forbiddenFlags_of flags c)); [|discriminate].
  intros _ H. apply app_eq_nil in H as [_ H]. discriminate H.
Qed.

Lemma item_status_eq prefs allergies flags cc tol item :
  item_status prefs allergies flags cc tol item =
  add_reasons (snd (checkDietaryCompliance item prefs (newItemStatus item)))
    (flat_map (component_reasons allergies flags tol) (components item)
     ++ cross_reasons (cross_contact_risk item) allergies cc).
Proof. unfold item_status. now rewrite checkCompliance_eq. Qed.

Lemma unsafe_item_has_reason prefs allergies flags cc tol item :
  is_safe prefs allergies flags cc tol item = false ->
  reasons (item_status prefs allergies flags cc tol item) <> [].
Proof.
  unfold is_safe. rewrite item_status_eq. simpl. intros Hs H.
  apply app_eq_nil in H as [Hd H]. apply app_eq_nil in H as [Hc Hx].
  destruct (dietary_ok prefs item) eqn:Ed.
  - simpl in Hs. unfold compliant in Hs. rewrite checkCompliance_eq in Hs.
    simpl in Hs. apply negb_false_iff, orb_true_iff in Hs as [Hs|Hs].
    + apply existsb_exists in Hs as (c & Hin & Hi).
      apply (component_issue_has_reason _ _ _ _ Hi).
      destruct (component_reasons allergies flags tol c) as [|x l] eqn:E;
        [reflexivity|].
      assert (Hx' : In x (flat_map (component_reasons allergies flags tol)
                            (components item))).
      { apply in_flat_map. exists c. split; [assumption|].
        rewrite E. now left. }
      rewrite Hc in Hx'. destruct Hx'.
    + unfold cross_reasons in Hx. rewrite Hs in Hx. discriminate Hx.
  - unfold dietary_ok in Ed.
    destruct (checkDietaryCompliance_fail item prefs (newItemStatus item) Ed)
      as [E|E]; rewrite E in Hd; simpl in Hd; discriminate Hd.
Qed.

(** X8.  No item is turned away without a reason: every entry of the
    filtered and of the canBeModified bucket carries at least one reason
    string. *)
Theorem X8_rejected_entries_carry_a_reason :
  forall (catalog : list MenuItem) (prefs allergies flags : list string)
         (cc : bool) (tol : list string) (s : ItemStatus),
    let r := filterByDietaryAndAllergies catalog prefs allergies flags cc tol in
    In s (filtered r) \/ In s (canBeModified r) ->
    reasons s <> [].
Proof.
  intros catalog prefs allergies flags cc tol s r [Hs|Hs]; unfold r in Hs.
  - apply In_filtered_bucket in Hs as (item & _ & Hf & ->).
    apply unsafe_item_has_reason. unfold is_filtered in Hf.
    apply andb_true_iff in Hf as [Hf _]. now apply negb_true_iff.
  - apply In_canBeModified_bucket in Hs as (item & _ & Hm & ->).
    unfold modifiable_status. simpl.
    apply unsafe_item_has_reason. unfold is_modifiable in Hm.
    apply andb_true_iff in Hm as [Hm _]. apply negb_true_iff in Hm.
    unfold is_safe. now rewrite Hm, andb_false_r.
Qed.

Lemma X8_witness :
  reasons (modifiable_status ["vegan"] ["gluten"] [] false [] glazed_pork)
  <> [].
Proof.
  apply (X8_rejected_entries_carry_a_reason [glazed_pork] ["vegan"]
           ["gluten"] [] false []).
  right. simpl. now left.
Defined.

Lemma quiet_component_reasons allergies flags tol c :
  component_issue allergies flags tol c = false ->
  component_reasons allergies flags tol c =
  if nonEmpty (tolerableAllergens_of allergies tol c)
  then [tolerated_reason c (tolerableAllergens_of allergies tol c)]
  else [].
Proof.
  unfold component_issue, component_reasons. intros H.
  apply orb_false_iff in H as [-> ->]. now rewrite app_nil_r.
Qed.

Lemma flat_map_all_in_nil {A B} (f : A -> list B) (l : list A) :
  (forall x, In x l -> f x = []) -> flat_map f l = [].
Proof.
  induction l as [|x l IH]; simpl; intros H; [reflexivity|].
  rewrite (H x) by now left. apply IH. intros y Hy. apply H. now right.
Qed.

Lemma tolerableAllergens_of_nil_tol allergies c :
  tolerableAllergens_of allergies [] c = [].
Proof. unfold tolerableAllergens_of. now apply filter_none. Qed.

(** X9.  A safe entry never carries a rejection reason: each of its
    reasons is the tolerated-form note of a component of its item, listing
    the avoided allergens tolerated there; and when the diner tolerates no
    flag at all, a safe entry has no reasons. *)
Theorem X9_safe_entries_carry_only_tolerated_notes :
  forall (catalog : list MenuItem) (prefs allergies flags : list string)
         (cc : bool) (tol : list string) (s : ItemStatus),
    In s (safe (filterByDietaryAndAllergies
                  catalog prefs allergies flags cc tol)) ->
    (forall x, In x (reasons s) ->
       exists item c,
         In item catalog /\ ident_of_item item = ident_of_status s
         /\ In c (components item)
         /\ tolerableAllergens_of allergies tol c <> []
         /\ x = tolerated_reason c (tolerableAllergens_of allergies tol c))
    /\ (tol = [] -> reasons s = []).
Proof.
  intros catalog prefs allergies flags cc tol s Hs.
  apply In_safe_bucket in Hs as (item & Hin & Hsafe & ->).
  unfold is_safe in Hsafe. apply andb_true_iff in Hsafe as [Hd Hc].
  unfold dietary_ok in Hd.
  pose proof (checkDietaryCompliance_pass _ _ _ Hd) as Hst.
  unfold compliant in Hc. rewrite checkCompliance_eq in Hc. simpl in Hc.
  apply negb_true_iff, orb_false_iff in Hc as [Hc Hx].
  assert (Hq : forall c, In c (components item) ->
                 component_issue allergies flags tol c = false).
  { intros c Hcin.
    destruct (component_issue allergies flags tol c) eqn:E; [|reflexivity].
    rewrite (existsb_In_true _ _ c Hcin E) in Hc. discriminate. }
  assert (Hr : reasons (item_status prefs allergies flags cc tol item) =
               flat_map (component_reasons allergies flags tol)
                 (components item)).
  { rewrite item_status_eq, Hst. unfold cross_reasons. rewrite Hx. simpl.
    now rewrite app_nil_r. }
  split.
  - intros x Hxin. rewrite Hr in Hxin.
    apply in_flat_map in Hxin as (c & Hcin & Hxc).
    rewrite (quiet_component_reasons _ _ _ _ (Hq c Hcin)) in Hxc.
    destruct (nonEmpty (tolerableAllergens_of allergies tol c)) eqn:E;
      [|destruct Hxc].
    destruct Hxc as [<-|[]]. exists item, c.
    split; [assumption|]. split; [now rewrite ident_item_status|].
    split; [assumption|]. split; [now apply nonEmpty_true | reflexivity].
  - intros ->. rewrite Hr. apply flat_map_all_in_nil. intros c Hcin.
    rewrite (quiet_component_reasons _ _ _ _ (Hq c Hcin)).
    now rewrite tolerableAllergens_of_nil_tol.
Qed.

Lemma X9_witness :
  reasons (item_status [] ["sesame"] [] false [] fried_rice) = [].
Proof.
  apply (X9_safe_entries_carry_only_tolerated_notes
           [sesame_noodles; fried_rice] [] ["sesame"] [] false []
           (item_status [] ["sesame"] [] false [] fried_rice)).
  - simpl. now left.
  - reflexivity.
Defined.

Lemma item_status_first_pass_fields prefs allergies flags cc tol item :
  status_modifications (item_status prefs allergies flags cc tol item) = None
  /\ tolerance_notes (item_status prefs allergies flags cc tol item) = None
  /\ toleranceAllowed (item_status prefs allergies flags cc tol item) = false.
Proof.
  rewrite item_status_eq.
  destruct (checkDietaryCompliance_add item prefs (newItemStatus item))
    as [rs ->].
  now repeat split.
Qed.

(** X10.  The modifications field marks the canBeModified bucket: safe and
    filtered entries have none, and every canBeModified entry lists the
    applicable modifications of its item, a non-empty list of declared
    modifications each triggered by the avoid-sets. *)
Theorem X10_modifications_listed_only_where_modifiable :
  forall (catalog : list MenuItem) (prefs allergies flags : list string)
         (cc : bool) (tol : list string) (s : ItemStatus),
    let r := filterByDietaryAndAllergies catalog prefs allergies flags cc tol in
    (In s (safe r) \/ In s (filtered r) -> status_modifications s = None)
    /\ (In s (canBeModified r) ->
        exists item mods,
          In item catalog /\ ident_of_item item = ident_of_status s
          /\ status_modifications s = Some mods
          /\ mods <> []
          /\ forall m, In m mods <->
                       In m (modifications item) /\ triggered allergies flags m).
Proof.
  intros catalog prefs allergies flags cc tol s r. unfold r. split.
  - intros [Hs|Hs].
    + apply In_safe_bucket in Hs as (item & _ & _ & ->).
      apply item_status_first_pass_fields.
    + apply In_filtered_bucket in Hs as (item & _ & _ & ->).
      apply item_status_first_pass_fields.
  - intros Hs. apply In_canBeModified_bucket in Hs as (item & Hin & Hm & ->).
    exists item, (getApplicableModifications item allergies flags).
    split; [assumption|]. split; [now rewrite ident_modifiable_status|].
    split; [reflexivity|]. split.
    + unfold is_modifiable in Hm. apply andb_true_iff in Hm as [_ Hm].
      rewrite canModificationsMakeItemSafe_eq in Hm.
      apply andb_true_iff in Hm as [Hm _]. now apply nonEmpty_true.
    + intros m. apply In_getApplicableModifications.
Qed.

Lemma X10_witness :
  status_modifications
    (item_status [] ["gluten"] [] false [] sesame_noodles) = None.
Proof.
  apply (X10_modifications_listed_only_where_modifiable
           [sesame_noodles; glazed_duck] [] ["gluten"] [] false []).
  right. simpl. now left.
Defined.

(** ** Modifications *)

Lemma existsb_filter {A} (p g : A -> bool) (l : list A) :
  existsb g (List.filter p l) = existsb (fun x => p x && g x) l.
Proof.
  induction l as [|x l IH]; simpl; [reflexivity|].
  destruct (p x); simpl; now rewrite IH.
Qed.

Lemma existsb_ext_pointwise {A} (f g : A -> bool) (l : list A) :
  (forall x, f x = g x) -> existsb f l = existsb g l.
Proof. intros H. induction l; simpl; [reflexivity | now rewrite H, IHl]. Qed.

Lemma applyModification_cases cs m :
  applyModification cs m =
  if action m =? "remove" then
    List.filter (fun c => negb (name c =? target_component m)) cs
  else if action m =? "substitute" then
    List.map (fun c => if name c =? target_component m
                       then substitute_component m else c) cs
  else cs.
Proof. reflexivity. Qed.

Lemma existsb_applyModification (g : Component -> bool) cs m :
  g (substitute_component m) = false ->
  existsb g (applyModification cs m) =
  existsb (fun c => negb (targets m c) && g c) cs.
Proof.
  intros Hg. rewrite applyModification_cases. unfold targets.
  destruct (action m =? "remove"); simpl.
  - apply existsb_filter.
  - destruct (action m =? "substitute"); simpl.
    + induction cs as [|c cs IH]; simpl; [reflexivity|].
      rewrite IH. destruct (name c =? target_component m); simpl;
        [now rewrite Hg | reflexivity].
    + reflexivity.
Qed.

Lemma existsb_fold_applyModification (issue : Component -> bool) mods cs :
  (forall m, issue (substitute_component m) = false) ->
  existsb issue (fold_left applyModification mods cs) =
  existsb (fun c => untargeted mods c && issue c) cs.
Proof.
  intros Hblank. revert cs.
  induction mods as [|m mods IH]; intros cs; simpl.
  - apply existsb_ext_pointwise. reflexivity.
  - rewrite IH, existsb_applyModification.
    + apply existsb_ext_pointwise. intros c. unfold untargeted. simpl.
      rewrite negb_orb. now rewrite andb_assoc.
    + now rewrite Hblank, andb_false_r.
Qed.

Lemma component_issue_substitute allergies flags tol m :
  component_issue allergies flags tol (substitute_component m) = false.
Proof. reflexivity. Qed.

Lemma untargeted_same_members mods mods' c :
  (forall m, In m mods <-> In m mods') ->
  untargeted mods c = untargeted mods' c.
Proof.
  intros H. unfold untargeted. f_equal.
  destruct (existsb (fun m => targets m c) mods) eqn:E.
  - apply existsb_exists in E as (m & Hin & Ht). symmetry.
    apply existsb_exists. exists m. split; [now apply H | assumption].
  - destruct (existsb (fun m => targets m c) mods') eqn:E'; [|reflexivity].
    apply existsb_exists in E' as (m & Hin & Ht).
    assert (existsb (fun m => targets m c) mods = true)
      by (apply existsb_exists; exists m; split; [now apply H | assumption]).
    congruence.
Qed.

(** X11.  Applying a list of modifications in turn and re-checking gives
    the verdict of the check on the components that none of them removes or
    replaces: removed components are gone and replaced ones are taken as
    clean.  So the verdict does not depend on the order of the
    modifications, nor on one being listed twice. *)
Theorem X11_recheck_sees_the_untargeted_components :
  forall (mods : list Modification) (comps : list Component)
         (risk allergies flags : list string) (cc : bool)
         (tol : list string) (st : ItemStatus),
    fst (checkComplianceOnComponents
           (fold_left applyModification mods comps)
           risk allergies flags cc tol st)
    = fst (checkComplianceOnComponents
             (List.filter (untargeted mods) comps)
             risk allergies flags cc tol st)
    /\ forall mods',
         (forall m, In m mods <-> In m mods') ->
         fst (checkComplianceOnComponents
                (fold_left applyModification mods' comps)
                risk allergies flags cc tol st)
         = fst (checkComplianceOnComponents
                  (fold_left applyModification mods comps)
                  risk allergies flags cc tol st).
Proof.
  intros mods comps risk allergies flags cc tol st.
  assert (H : forall ms,
             fst (checkComplianceOnComponents
                    (fold_left applyModification ms comps)
                    risk allergies flags cc tol st)
             = fst (checkComplianceOnComponents
                      (List.filter (untargeted ms) comps)
                      risk allergies flags cc tol st)).
  { intros ms. rewrite !checkComplianceOnComponents_eq. simpl.
    rewrite existsb_fold_applyModification
      by apply component_issue_substitute.
    now rewrite existsb_filter. }
  split; [apply H|].
  intros mods' Hsame. rewrite !H. do 2 f_equal.
  apply filter_ext. intros c. symmetry. now apply untargeted_same_members.
Qed.

Lemma X11_witness :
  fst (checkComplianceOnComponents
         (fold_left applyModification (rev (modifications glazed_duck))
            (components glazed_duck))
         [] ["gluten"] [] false [] testStatus)
  = fst (checkComplianceOnComponents
           (fold_left applyModification (modifications glazed_duck)
              (components glazed_duck))
           [] ["gluten"] [] false [] testStatus).
Proof.
  apply (X11_recheck_sees_the_untargeted_components
           (modifications glazed_duck) (components glazed_duck)).
  intros m. apply in_rev.
Defined.

Lemma filter_filter_same {A} (p : A -> bool) (l : list A) :
  List.filter p (List.filter p l) = List.filter p l.
Proof.
  induction l as [|x l IH]; simpl; [reflexivity|].
  destruct (p x) eqn:E; simpl; now rewrite ?E, IH.
Qed.

(** X12.  A modification never brings anything new into a dish: every
    component of the result is a component of the input or the clean
    substitute, the result is no longer than the input, and applying the
    same modification a second time changes nothing. *)
Theorem X12_applyModification_only_takes_away :
  forall (comps : list Component) (m : Modification),
    (forall c, In c (applyModification comps m) ->
               In c comps \/ c = substitute_component m)
    /\ length (applyModification comps m) <= length comps
    /\ applyModification (applyModification comps m) m
       = applyModification comps m.
Proof.
  intros comps m. rewrite !applyModification_cases.
  destruct (action m =? "remove") eqn:Er.
  - split; [|split].
    + intros c Hc. left. now apply filter_In in Hc.
    + apply List.filter_length_le.
    + apply filter_filter_same.
  - destruct (action m =? "substitute") eqn:Es.
    + split; [|split].
      * intros c Hc. apply in_map_iff in Hc as (c0 & <- & Hin).
        destruct (name c0 =? target_component m); [now right | now left].
      * now rewrite length_map.
      * rewrite List.map_map. apply List.map_ext. intros c.
        destruct (name c =? target_component m) eqn:E; simpl.
        -- now rewrite String.eqb_refl.
        -- now rewrite E.
    + split; [|split]; [tauto | lia | reflexivity].
Qed.

(** ** The tolerance refiner *)

Lemma promotion_depends_on_id catalog allergies tolerances s s' :
  id s = id s' ->
  (promotion catalog allergies tolerances s = None <->
   promotion catalog allergies tolerances s' = None).
Proof.
  intros E. unfold promotion. rewrite E.
  destruct (List.find _ catalog); [|tauto].
  destruct (_ && _); split; intros; congruence.
Qed.

Lemma promoted_of_kept_of catalog allergies tolerances l :
  promoted_of catalog allergies tolerances
    (kept_of catalog allergies tolerances l) = [].
Proof.
  unfold promoted_of, kept_of. apply flat_map_all_in_nil. intros s Hs.
  apply filter_In in Hs as [_ Hs].
  now destruct (promotion catalog allergies tolerances s).
Qed.

Lemma kept_of_kept_of catalog allergies tolerances l :
  kept_of catalog allergies tolerances
    (kept_of catalog allergies tolerances l)
  = kept_of catalog allergies tolerances l.
Proof. apply filter_filter_same. Qed.

(** X13.  Refining twice is refining once: a second run of
    [filterByTolerance] with the same avoided allergens and declaration
    promotes nothing more and changes no bucket. *)
Theorem X13_filterByTolerance_idempotent :
  forall (catalog : list MenuItem) (layer1Results : Results)
         (allergies : list string)
         (tolerances : gmap string (gmap string bool)),
    filterByTolerance catalog
      (filterByTolerance catalog layer1Results allergies tolerances)
      allergies tolerances
    = filterByTolerance catalog layer1Results allergies tolerances.
Proof.
  intros catalog l1 allergies tolerances.
  rewrite (filterByTolerance_eq catalog l1).
  destruct (Nat.eqb (size tolerances) 0) eqn:E.
  - rewrite filterByTolerance_eq. now rewrite E.
  - rewrite filterByTolerance_eq, E. simpl.
    now rewrite promoted_of_kept_of, kept_of_kept_of, app_nil_r.
Qed.

Lemma notes_of_nil tolerances allergies :
  (forall a, In a allergies -> affirmedForm tolerances a = None) ->
  notes_of tolerances allergies = [].
Proof.
  intros H. unfold notes_of. apply flat_map_all_in_nil. intros a Ha.
  now rewrite (H a Ha).
Qed.

Lemma promotion_None_without_notes catalog allergies tolerances s :
  notes_of tolerances allergies = [] ->
  promotion catalog allergies tolerances s = None.
Proof.
  intros H. unfold promotion. destruct (List.find _ catalog); [|reflexivity].
  rewrite H. simpl. now rewrite andb_false_r.
Qed.

(** X14.  Without an affirmed tolerated form for some avoided allergen the
    refiner changes nothing: when no avoided allergen has both a mapping and
    an affirmative answer in the declaration (no allergen avoided, only
    allergens without a mapping, or only negative answers), the result is
    the input. *)
Theorem X14_nothing_affirmed_nothing_promoted :
  forall (catalog : list MenuItem) (layer1Results : Results)
         (allergies : list string)
         (tolerances : gmap string (gmap string bool)),
    (forall a m, In a allergies -> ~ affirmed tolerances a m) ->
    filterByTolerance catalog layer1Results allergies tolerances
    = layer1Results.
Proof.
  intros catalog l1 allergies tolerances Hnone.
  assert (Hn : notes_of tolerances allergies = []).
  { apply notes_of_nil. intros a Ha.
    destruct (affirmedForm tolerances a) as [m|] eqn:E; [|reflexivity].
    apply affirmedForm_spec in E. now destruct (Hnone a m Ha). }
  rewrite filterByTolerance_eq. destruct (Nat.eqb _ 0); [reflexivity|].
  assert (Hp : promoted_of catalog allergies tolerances (filtered l1) = []).
  { unfold promoted_of. apply flat_map_all_in_nil. intros s _.
    now rewrite (promotion_None_without_notes _ _ _ s Hn). }
  assert (Hk : kept_of catalog allergies tolerances (filtered l1)
               = filtered l1).
  { unfold kept_of. generalize (filtered l1). intros l.
    induction l as [|s l IH]; simpl; [reflexivity|].
    rewrite (promotion_None_without_notes _ _ _ s Hn). now rewrite IH. }
  rewrite Hp, Hk, app_nil_r. now destruct l1.
Qed.

(** A diner avoiding egg, for which no tolerated form is defined. *)
Lemma X14_witness :
  filterByTolerance [egg_rice]
    (filterByDietaryAndAllergies [egg_rice] [] ["egg"] [] false [])
    ["egg"] sesame_oil_ok
  = filterByDietaryAndAllergies [egg_rice] [] ["egg"] [] false [].
Proof.
  apply X14_nothing_affirmed_nothing_promoted.
  intros a m [<-|[]] [Hm _]. vm_compute in Hm. discriminate Hm.
Defined.

Lemma promotion_Some_fields catalog allergies tolerances s s' :
  promotion catalog allergies tolerances s = Some s' ->
  toleranceAllowed s' = true
  /\ tolerance_notes s' = Some (notes_of tolerances allergies)
  /\ notes_of tolerances allergies <> []
  /\ reasons s' = reasons s
  /\ status_modifications s' = status_modifications s
  /\ ident_of_status s' = ident_of_status s.
Proof.
  unfold promotion. destruct (List.find _ catalog); [|discriminate].
  destruct (forallb _ allergies && nonEmpty _) eqn:E; [|discriminate].
  apply andb_true_iff in E as [_ E]. apply nonEmpty_true in E.
  intros [= <-]. now repeat split.
Qed.

(** X15.  After a first pass and its refinement, the tolerance mark tells
    the two kinds of safe entry apart: an entry that was safe on the first
    pass has the mark unset and no tolerance notes; a promoted entry has the
    mark set, carries a non-empty list of tolerance notes, and keeps the
    identity and the (non-empty) rejection reasons of the filtered entry it
    comes from. *)
Theorem X15_promoted_entries_are_marked :
  forall (catalog : list MenuItem) (prefs allergies flags : list string)
         (cc : bool) (tol : list string)
         (tolerances : gmap string (gmap string bool)) (s : ItemStatus),
    let r1 := filterByDietaryAndAllergies catalog prefs allergies flags cc tol in
    let r2 := filterByTolerance catalog r1 allergies tolerances in
    In s (safe r2) ->
    (In s (safe r1) /\ toleranceAllowed s = false /\ tolerance_notes s = None)
    \/ (toleranceAllowed s = true
        /\ (exists notes, tolerance_notes s = Some notes /\ notes <> [])
        /\ exists s0, In s0 (filtered r1)
                      /\ ident_of_status s = ident_of_status s0
                      /\ reasons s = reasons s0
                      /\ reasons s <> []).
Proof.
  intros catalog prefs allergies flags cc tol tolerances s r1 r2 Hs.
  unfold r2 in Hs. rewrite filterByTolerance_eq in Hs.
  assert (Hfirst : In s (safe r1) ->
            In s (safe r1) /\ toleranceAllowed s = false
            /\ tolerance_notes s = None).
  { intros H. split; [exact H|]. unfold r1 in H.
    apply In_safe_bucket in H as (item & _ & _ & ->).
    split; apply item_status_first_pass_fields. }
  destruct (Nat.eqb _ 0); [left; now apply Hfirst|].
  simpl in Hs. apply in_app_or in Hs as [Hs|Hs]; [left; now apply Hfirst|].
  right. apply In_promoted_of in Hs as (s0 & Hs0 & Hp).
  destruct (promotion_Some_fields _ _ _ _ _ Hp)
    as (Ha & Hn & Hne & Hr & _ & Hi).
  split; [exact Ha|]. split; [now exists (notes_of tolerances allergies)|].
  exists s0. split; [exact Hs0|]. split; [exact Hi|]. split; [exact Hr|].
  rewrite Hr. unfold r1 in Hs0.
  apply In_filtered_bucket in Hs0 as (item & _ & Hf & ->).
  apply unsafe_item_has_reason. unfold is_filtered in Hf.
  apply andb_true_iff in Hf as [Hf _]. now apply negb_true_iff.
Qed.

Lemma X15_witness :
  toleranceAllowed
    (tolerantItem
       (item_status [] ["gluten"; "sesame"] [] false [] sesame_noodles)
       ["Can tolerate sesame in form: sesame_oil"]) = true
  /\ exists s0,
       In s0 (filtered (filterByDietaryAndAllergies [sesame_noodles] []
                          ["gluten"; "sesame"] [] false []))
       /\ reasons s0 <> [].
Proof.
  destruct (X15_promoted_entries_are_marked [sesame_noodles] []
              ["gluten"; "sesame"] [] false [] sesame_oil_ok
              (tolerantItem
                 (item_status [] ["gluten"; "sesame"] [] false []
                    sesame_noodles)
                 ["Can tolerate sesame in form: sesame_oil"]))
    as [(H & _)|(Hm & _ & s0 & Hin & _ & Hr & Hne)].
  - vm_compute. left. reflexivity.
  - vm_compute in H. destruct H.
  - split; [exact Hm|]. exists s0. split; [exact Hin|]. now rewrite <- Hr.
Defined.

Lemma toleranceMapping_lookup (a : string) :
  toleranceMapping !! a =
    if String.eqb a "gluten" then
      Some {| flag := "soy_sauce"; key := "canUseSoySauce" |}
    else if String.eqb a "shellfish" then
      Some {| flag := "oyster_sauce"; key := "canUseOysterSauce" |}
    else if String.eqb a "peanut" then
      Some {| flag := "peanut_oil"; key := "canUsePeanutOil" |}
    else if String.eqb a "sesame" then
      Some {| flag := "sesame_oil"; key := "canUseSesameOil" |}
    else None.
Proof.
  unfold toleranceMapping.
  repeat (case_key;
          [vm_compute; reflexivity
          | first [rewrite lookup_insert_ne by congruence
                  | rewrite lookup_singleton_ne by congruence]]).
  reflexivity.
Qed.

(** X16.  The two tolerance tables agree and so do the two layers.  An
    allergen has a tolerated-form mapping exactly when the relation table
    knows a form of it, and the mapped flag is one of its related forms.
    Hence, whenever the refiner's test [checkIfOnlyTolerablyPresent]
    accepts an item for an allergen and its mapped flag, the first-pass test
    [isAllergenTolerable] accepts that allergen in every component declaring
    it, for a diner who tolerates the flag. *)
Theorem X16_tolerance_tables_and_layers_agree :
  (forall a, is_Some (toleranceMapping !! a) <-> exists f, related_form f a)
  /\ (forall a m, toleranceMapping !! a = Some m -> related_form (flag m) a)
  /\ (forall item a m tol,
        toleranceMapping !! a = Some m ->
        In (flag m) tol ->
        checkIfOnlyTolerablyPresent item a (flag m) = true ->
        forall c, In c (components item) -> In a (contains_allergens c) ->
                  isAllergenTolerable c a tol = true).
Proof.
  assert (Hflag : forall a m, toleranceMapping !! a = Some m ->
                              related_form (flag m) a).
  { intros a m. rewrite toleranceMapping_lookup. unfold related_form.
    repeat case_key; intros [= <-]; simpl; tauto. }
  split; [|split; [exact Hflag|]].
  - intros a. rewrite toleranceMapping_lookup. unfold related_form. split.
    + intros [m Hm]. revert Hm. repeat case_key; intros [= <-]; eexists;
        simpl; eauto 10.
    + intros (f & H). repeat case_key; try (eexists; reflexivity).
      exfalso. intuition congruence.
  - intros item a m tol Hm Htol Hchk c Hin Ha.
    apply checkIfOnlyTolerablyPresent_spec in Hchk.
    destruct (Hchk c Hin Ha) as [Hf _].
    apply isAllergenTolerable_spec. exists (flag m).
    split; [assumption|]. split; [assumption|].
    apply isRelatedToAllergen_spec. now apply Hflag.
Qed.

Lemma X16_witness :
  isAllergenTolerable
    {| name := "dressing"; contains_allergens := ["sesame"];
       contains_ingredient_flags := ["sesame_oil"]; notes := None |}
    "sesame" ["soy_sauce"; "sesame_oil"] = true.
Proof.
  destruct X16_tolerance_tables_and_layers_agree as (_ & _ & H).
  apply (H sesame_noodles "sesame"
           {| flag := "sesame_oil"; key := "canUseSesameOil" |}).
  - reflexivity.
  - simpl. right. now left.
  - reflexivity.
  - simpl. right. now left.
  - simpl. now left.
Defined.

(** * The server's report *)

(** ** When the engine throws *)

Lemma existsb_const {A} (b : bool) (l : list A) :
  existsb (fun _ => b) l = nonEmpty l && b.
Proof.
  induction l as [|x l IH]; [reflexivity|]. simpl. rewrite IH.
  destruct b; [reflexivity | now rewrite andb_false_r].
Qed.

Lemma isAllergenTolerable_throws_eq a tol :
  isAllergenTolerable_throws a tol =
  nonEmpty tol && includes objectPrototypeNames a.
Proof.
  unfold isAllergenTolerable_throws, isRelatedToAllergen_throws.
  rewrite existsb_const. now destruct tol.
Qed.

Lemma component_throws_spec allergies tol c :
  component_throws allergies tol c = true <->
  tol <> []
  /\ exists a, In a (contains_allergens c) /\ In a allergies
               /\ In a objectPrototypeNames.
Proof.
  unfold component_throws. rewrite existsb_exists. split.
  - intros (a & Ha & Ht). rewrite isAllergenTolerable_throws_eq in Ht.
    apply andb_true_iff in Ht as [Hne Hp].
    apply In_forbiddenAllergens in Ha as [Ha1 Ha2].
    split; [now apply nonEmpty_true|].
    exists a. repeat split; trivial. now apply includes_In.
  - intros (Hne & a & Ha1 & Ha2 & Hp). exists a. split.
    + now apply In_forbiddenAllergens.
    + rewrite isAllergenTolerable_throws_eq. apply andb_true_iff. split.
      * now apply nonEmpty_true.
      * now apply includes_In.
Qed.

Lemma checkComplianceOnComponents_throws_spec comps allergies flags tol :
  checkComplianceOnComponents_throws comps allergies flags tol = true <->
  exists c, In c comps /\ component_throws allergies tol c = true.
Proof.
  unfold checkComplianceOnComponents_throws.
  destruct (Nat.eqb (length allergies) 0 && Nat.eqb (length flags) 0) eqn:E.
  - apply andb_true_iff in E as [Ea _].
    destruct allergies; [|discriminate]. split; [discriminate|].
    intros (c & _ & Hc). apply component_throws_spec in Hc.
    destruct Hc as (_ & a & _ & [] & _).
  - now rewrite existsb_exists.
Qed.

Lemma checkCompliance_throws_spec item allergies flags tol :
  checkCompliance_throws item allergies flags tol = true <->
  exists c, In c (components item)
            /\ component_throws allergies tol c = true.
Proof. apply checkComplianceOnComponents_throws_spec. Qed.

(** A modification brings in no allergen: a component of the modified list
    that makes the check throw was in the list before. *)
Lemma applyModification_throwers allergies tol comps m c :
  In c (applyModification comps m) ->
  component_throws allergies tol c = true ->
  In c comps.
Proof.
  unfold applyModification, deepCopy. intros Hin Hc.
  destruct (action m =? "remove").
  - now apply filter_In in Hin.
  - destruct (action m =? "substitute"); [|assumption].
    apply in_map_iff in Hin as (c' & <- & Hc').
    destruct (name c' =? target_component m); [discriminate Hc | assumption].
Qed.

Lemma fold_applyModification_throwers allergies tol mods comps c :
  In c (fold_left applyModification mods comps) ->
  component_throws allergies tol c = true ->
  In c comps.
Proof.
  revert comps. induction mods as [|m mods IH]; intros comps Hin Hc;
    [assumption|].
  change (In c (fold_left applyModification mods (applyModification comps m)))
    in Hin.
  apply (applyModification_throwers allergies tol comps m c); [|exact Hc].
  now apply IH.
Qed.

Lemma canModificationsMakeItemSafe_throws_only_after item allergies flags tol :
  canModificationsMakeItemSafe_throws item allergies flags tol = true ->
  checkCompliance_throws item allergies flags tol = true.
Proof.
  unfold canModificationsMakeItemSafe_throws, deepCopy.
  destruct (Nat.eqb (length (modifications item)) 0); [discriminate|].
  destruct (Nat.eqb (length (List.filter _ (modifications item))) 0);
    [discriminate|].
  rewrite checkComplianceOnComponents_throws_spec, checkCompliance_throws_spec.
  intros (c & Hin & Hc). exists c. split; [|assumption].
  now apply (fold_applyModification_throwers allergies tol _ _ _ Hin).
Qed.

(** The re-check after the modifications never throws where the first check
    did not. *)
Lemma filterItem_throws_eq prefs allergies flags cc tol item :
  filterItem_throws prefs allergies flags cc tol item =
  checkCompliance_throws item allergies flags tol.
Proof.
  unfold filterItem_throws.
  destruct (checkCompliance_throws item allergies flags tol) eqn:E;
    [reflexivity|].
  destruct (checkDietaryCompliance item prefs (newItemStatus item)) as [d st].
  destruct (checkCompliance item allergies flags cc tol st) as [k st'].
  destruct (negb k && nonEmpty (modifications item)); [|reflexivity].
  destruct (canModificationsMakeItemSafe_throws item allergies flags tol)
    eqn:Em; [|reflexivity].
  apply canModificationsMakeItemSafe_throws_only_after in Em. congruence.
Qed.

Lemma filterByDietaryAndAllergies_throws_spec catalog prefs allergies flags
    cc tol :
  filterByDietaryAndAllergies_throws catalog prefs allergies flags cc tol
    = true <->
  tol <> []
  /\ exists item c a,
       In item catalog /\ In c (components item)
       /\ In a (contains_allergens c) /\ In a allergies
       /\ In a objectPrototypeNames.
Proof.
  unfold filterByDietaryAndAllergies_throws. rewrite existsb_exists. split.
  - intros (item & Hin & Ht). rewrite filterItem_throws_eq in Ht.
    apply checkCompliance_throws_spec in Ht as (c & Hc & Ht).
    apply component_throws_spec in Ht as (Hne & a & Ha).
    split; [assumption|]. exists item, c, a. tauto.
  - intros (Hne & item & c & a & Hin & Hc & Ha). exists item.
    split; [assumption|]. rewrite filterItem_throws_eq.
    apply checkCompliance_throws_spec. exists c. split; [assumption|].
    apply component_throws_spec. split; [assumption|]. now exists a.
Qed.

(** A per-allergen pass throws only if the combined pass has thrown
    already. *)
Lemma single_pass_throws_combined catalog prefs allergies flags cc tol :
  existsb
    (fun allergen =>
       filterByDietaryAndAllergies_throws catalog prefs [allergen] flags cc tol)
    allergies = true ->
  filterByDietaryAndAllergies_throws catalog prefs allergies flags cc tol
    = true.
Proof.
  rewrite existsb_exists. intros (x & Hx & Ht).
  apply filterByDietaryAndAllergies_throws_spec in Ht
    as (Hne & item & c & a & Hin & Hc & Ha & [<-|[]] & Hp).
  apply filterByDietaryAndAllergies_throws_spec. split; [assumption|].
  now exists item, c, x.
Qed.

Lemma server_throws_spec catalog tableProfile :
  let allergens := default [] (avoidAllergens tableProfile) in
  let pass allergies :=
    filterByDietaryAndAllergies_throws catalog
      (default [] (dietaryPreferences tableProfile)) allergies
      (default [] (avoidIngredientFlags tableProfile))
      (default false (crossContactOk tableProfile))
      (default [] (tolerateFlags tableProfile)) in
  pass allergens || existsb (fun allergen => pass [allergen]) allergens = true
  <-> hits_prototype_name catalog tableProfile.
Proof.
  intros allergens pass. unfold hits_prototype_name.
  rewrite <- filterByDietaryAndAllergies_throws_spec. fold allergens.
  split.
  - intros H. apply orb_true_iff in H as [H|H]; [exact H|].
    now apply single_pass_throws_combined in H.
  - intros H. apply orb_true_iff. left. exact H.
Qed.

(** ** What the report holds *)

Lemma server_fold (g : string -> list ItemStatus) (l : list string)
    (srep : Server.Report) :
  let srep' :=
    fold_left
      (fun report allergen =>
         if allergen =? "__proto__" then report
         else
           {| Server.safeForAll := Server.safeForAll report;
              Server.canBeModifiedForAll := Server.canBeModifiedForAll report;
              Server.filteredForAll := Server.filteredForAll report;
              Server.safeByAllergy :=
                <[allergen := g allergen]> (Server.safeByAllergy report) |})
      l srep in
  Server.safeForAll srep' = Server.safeForAll srep
  /\ Server.canBeModifiedForAll srep' = Server.canBeModifiedForAll srep
  /\ Server.filteredForAll srep' = Server.filteredForAll srep
  /\ forall a,
       Server.safeByAllergy srep' !! a =
       if includes l a && negb (a =? "__proto__") then Some (g a)
       else Server.safeByAllergy srep !! a.
Proof.
  revert srep. induction l as [|x l IH]; intros srep; simpl.
  - repeat split.
  - destruct (String.eqb_spec x "__proto__") as [->|Hx].
    + destruct (IH srep) as (H1 & H2 & H3 & H4).
      repeat (split; [assumption|]). intros a. rewrite H4.
      unfold includes. simpl. fold (includes l a).
      destruct (String.eqb_spec a "__proto__") as [->|Ha]; simpl.
      * now rewrite andb_false_r.
      * reflexivity.
    + destruct (IH {| Server.safeForAll := Server.safeForAll srep;
                      Server.canBeModifiedForAll :=
                        Server.canBeModifiedForAll srep;
                      Server.filteredForAll := Server.filteredForAll srep;
                      Server.safeByAllergy :=
                        <[x := g x]> (Server.safeByAllergy srep) |})
        as (H1 & H2 & H3 & H4).
      repeat (split; [assumption|]). intros a. rewrite H4. simpl.
      unfold includes. simpl. fold (includes l a).
      destruct (includes l a); simpl.
      * rewrite orb_true_r. simpl.
        destruct (negb (a =? "__proto__")) eqn:Ea; [reflexivity|].
        apply negb_false_iff, String.eqb_eq in Ea. subst a.
        apply lookup_insert_ne. congruence.
      * rewrite orb_false_r. destruct (String.eqb_spec a x) as [->|Hne]; simpl.
        -- destruct (String.eqb_spec x "__proto__"); [contradiction|]. simpl.
           apply lookup_insert_eq.
        -- apply lookup_insert_ne. congruence.
Qed.

Lemma server_run_returns catalog tableProfile :
  ~ hits_prototype_name catalog tableProfile ->
  exists report,
    Server.run catalog (Some tableProfile) = Server.json report
    /\ Server.safeForAll report = safe (combinedResults catalog tableProfile)
    /\ Server.canBeModifiedForAll report
       = canBeModified (combinedResults catalog tableProfile)
    /\ Server.filteredForAll report
       = filtered (combinedResults catalog tableProfile)
    /\ forall a,
         Server.safeByAllergy report !! a =
         if includes (default [] (avoidAllergens tableProfile)) a
            && negb (a =? "__proto__")
         then Some (safe (singleAllergyResults catalog tableProfile a))
         else None.
Proof.
  intros Hno. unfold Server.run.
  pose proof (server_throws_spec catalog tableProfile) as Ht. cbv zeta in Ht.
  match type of Ht with
  | ?b = true <-> _ => destruct b; [destruct Hno; now apply Ht|]
  end.
  eexists. split; [reflexivity|].
  match goal with
  | |- context [fold_left ?f ?l ?srep] =>
      destruct (server_fold
                  (fun a => safe (singleAllergyResults catalog tableProfile a))
                  l srep)
        as (H1 & H2 & H3 & H4)
  end.
  split; [exact H1|]. split; [exact H2|]. split; [exact H3|].
  intros a. etransitivity; [exact (H4 a)|].
  simpl. rewrite lookup_empty. now destruct (_ && _).
Qed.

(** X17.  The handler of [POST /api/run] answers a request without a
    profile with status 400.  It answers a profile with status 500 when the
    engine throws, which is when some tolerated flag is on file and some
    component of the catalog declares an avoided allergen named like a
    member of [Object.prototype].  Every other profile gets a report: its
    three lists are the buckets of the combined pass and together hold every
    catalog item exactly once, and its map sends each avoided allergen
    other than ["__proto__"], and nothing else, to the safe list of the pass
    for that allergen alone. *)
Theorem X17_server_report :
  forall (catalog : list MenuItem),
    Server.run catalog None
      = Server.error 400 "Missing tableProfile in request body"
    /\ forall tableProfile,
         (hits_prototype_name catalog tableProfile ->
          Server.run catalog (Some tableProfile)
            = Server.error 500 "Internal server error")
         /\ (~ hits_prototype_name catalog tableProfile ->
             exists report,
               Server.run catalog (Some tableProfile) = Server.json report
               /\ Server.safeForAll report
                  = safe (combinedResults catalog tableProfile)
               /\ Server.canBeModifiedForAll report
                  = canBeModified (combinedResults catalog tableProfile)
               /\ Server.filteredForAll report
                  = filtered (combinedResults catalog tableProfile)
               /\ (forall a,
                     Server.safeByAllergy report !! a =
                     if includes (default [] (avoidAllergens tableProfile)) a
                        && negb (a =? "__proto__")
                     then Some (safe (singleAllergyResults
                                        catalog tableProfile a))
                     else None)
               /\ Permutation
                    (List.map ident_of_status
                       (Server.safeForAll report
                        ++ Server.canBeModifiedForAll report
                        ++ Server.filteredForAll report))
                    (List.map ident_of_item catalog)).
Proof.
  intros catalog. split; [reflexivity|]. intros tableProfile. split.
  - intros Hyes. apply server_throws_spec in Hyes. cbv zeta in Hyes.
    unfold Server.run. now rewrite Hyes.
  - intros Hno.
    destruct (server_run_returns catalog tableProfile Hno)
      as (report & Hrun & H1 & H2 & H3 & H4).
    exists report. repeat (split; [assumption|]).
    rewrite H1, H2, H3.
    unfold combinedResults, filterByDietaryAndAllergies.
    exact (fold_filterItem_idents _ _ _ _ _ catalog emptyResults).
Qed.

(** A diner avoiding an allergen labelled "constructor", with a tolerated
    flag on file, is answered with status 500 when the catalog has the soup;
    without the tolerated flag the same request gets its report, the soup
    filtered. *)
Lemma X17_witness :
  let profile tol :=
    {| dietaryPreferences := None;
       avoidAllergens := Some ["constructor"];
       avoidIngredientFlags := None;
       tolerateFlags := tol;
       crossContactOk := None;
       tolerances := None |} in
  Server.run [mislabelled_soup; fried_rice] (Some (profile (Some ["sesame_oil"])))
    = Server.error 500 "Internal server error"
  /\ exists report,
       Server.run [mislabelled_soup; fried_rice] (Some (profile None))
         = Server.json report
       /\ Server.safeForAll report = [newItemStatus fried_rice]
       /\ Server.filteredForAll report =
            [ {| id := "m11"; status_name := "Soup of the day";
                 category := "starters";
                 reasons :=
                   [ String "034"%char
                       ("broth"
                        ++ String "034"%char
                             " contains intolerable allergen(s): constructor") ];
                 status_modifications := None;
                 tolerance_notes := None;
                 toleranceAllowed := false |} ]
       /\ Server.safeByAllergy report !! "constructor"
          = Some [newItemStatus fried_rice].
Proof.
  intros profile.
  destruct (X17_server_report [mislabelled_soup; fried_rice]) as [_ H].
  split.
  - apply (H (profile (Some ["sesame_oil"]))).
    split; [discriminate|].
    exists mislabelled_soup,
      {| name := "broth"; contains_allergens := ["constructor"];
         contains_ingredient_flags := []; notes := None |},
      "constructor".
    simpl. tauto.
  - destruct (H (profile None)) as [_ Hno].
    destruct Hno as (report & Hrun & H1 & _ & H3 & H4 & _).
    + intros [Hne _]. now apply Hne.
    + exists report. split; [exact Hrun|]. split; [exact H1|].
      split; [now rewrite H3 | exact (H4 "constructor")].
Defined.

(** * The profile wizard *)

(** ** [indexOf] and [splice] *)

Lemma indexOf_spec (l : list string) (x : string) :
  match Wizard.indexOf l x with
  | Some i =>
      exists l1 l2, l = (l1 ++ x :: l2)%list /\ ~ In x l1
                    /\ i = length l1 /\ delete i l = (l1 ++ l2)%list
  | None => ~ In x l
  end.
Proof.
  induction l as [|y l IH]; simpl; [tauto|].
  destruct (String.eqb_spec y x) as [->|Hne].
  - exists [], l. now repeat split.
  - destruct (Wizard.indexOf l x) as [i|]; simpl.
    + destruct IH as (l1 & l2 & -> & Hn & -> & Hd).
      exists (y :: l1), l2. repeat split.
      * intros [E|H]; [congruence | tauto].
      * simpl. now rewrite Hd.
    + intros [E|H]; [congruence | tauto].
Qed.

Lemma In_spliceOut l x z : In z (Wizard.spliceOut l x) -> In z l.
Proof.
  unfold Wizard.spliceOut. pose proof (indexOf_spec l x) as H.
  destruct (Wizard.indexOf l x); [|tauto].
  destruct H as (l1 & l2 & -> & _ & _ & ->).
  rewrite !in_app_iff. simpl. tauto.
Qed.

Lemma spliceOut_keeps l x z : In z l -> z <> x -> In z (Wizard.spliceOut l x).
Proof.
  unfold Wizard.spliceOut. pose proof (indexOf_spec l x) as H.
  destruct (Wizard.indexOf l x); [|tauto].
  destruct H as (l1 & l2 & -> & _ & _ & ->).
  rewrite !in_app_iff. simpl. intros [H|[H|H]] Hne; try tauto. congruence.
Qed.

Lemma NoDup_spliceOut l x :
  List.NoDup l -> List.NoDup (Wizard.spliceOut l x).
Proof.
  unfold Wizard.spliceOut. pose proof (indexOf_spec l x) as H.
  destruct (Wizard.indexOf l x); [|tauto].
  destruct H as (l1 & l2 & -> & _ & _ & ->).
  apply List.NoDup_remove_1.
Qed.

Lemma spliceOut_gone l x : List.NoDup l -> ~ In x (Wizard.spliceOut l x).
Proof.
  unfold Wizard.spliceOut. pose proof (indexOf_spec l x) as H.
  destruct (Wizard.indexOf l x); [|tauto].
  destruct H as (l1 & l2 & -> & _ & _ & ->).
  apply List.NoDup_remove_2.
Qed.

Lemma In_push_if_absent (l : list string) x z :
  In z (if negb (includes l x) then (l ++ [x])%list else l) <->
  In z l \/ z = x.
Proof.
  destruct (includes l x) eqn:E; simpl.
  - apply includes_In in E. split; [tauto | intros [H| ->]; assumption].
  - rewrite in_app_iff. simpl. split; [intros [H|[H|[]]]; auto | intros [H|H]; auto].
Qed.

Lemma NoDup_push_if_absent (l : list string) x :
  List.NoDup l ->
  List.NoDup (if negb (includes l x) then (l ++ [x])%list else l).
Proof.
  intros H. destruct (includes l x) eqn:E; simpl; [assumption|].
  apply includes_not_In in E.
  apply List.NoDup_app; [assumption | repeat constructor; intros [] | ].
  intros z Hz [<-|[]]. contradiction.
Qed.

(** ** Flags stay consistent *)

Lemma forgetTolerance_consistent st a :
  flags_consistent st -> flags_consistent (Wizard.forgetTolerance st a).
Proof.
  intros (Ht & Ha & Hd). unfold Wizard.forgetTolerance.
  destruct (Wizard.allergyToleranceMap !! a) as [config|];
    [|now repeat split].
  repeat split; simpl.
  - now apply NoDup_spliceOut.
  - now apply NoDup_spliceOut.
  - intros f Hf Hf'. apply In_spliceOut in Hf, Hf'. now apply (Hd f).
Qed.

Lemma fold_forgetTolerance_consistent l st :
  flags_consistent st ->
  flags_consistent (fold_left Wizard.forgetTolerance l st).
Proof.
  revert st. induction l as [|a l IH]; intros st H; simpl; [assumption|].
  now apply IH, forgetTolerance_consistent.
Qed.

Lemma handleMultiSelect_consistent lower option s st :
  flags_consistent st ->
  flags_consistent (Wizard.handleMultiSelect lower option s st).
Proof.
  intros H. unfold Wizard.handleMultiSelect.
  destruct s; simpl; try assumption.
  now apply fold_forgetTolerance_consistent.
Qed.

Lemma prefix_tolerance (a : string) :
  String.prefix "tolerance_" ("tolerance_" ++ a) = true.
Proof. simpl. now destruct a. Qed.

Lemma handleSingleSelect_tolerance option a config st :
  Wizard.handleSingleSelect option (Wizard.tolerance a config) st =
  if option =? "Yes" then
    Wizard.set_tolerance st
      (<[a := (option =? "Yes")]> (Wizard.tolerance_answers st))
      (if negb (includes (Wizard.tolerateFlags st) (Wizard.flag config))
       then (Wizard.tolerateFlags st ++ [Wizard.flag config])%list
       else Wizard.tolerateFlags st)
      (Wizard.spliceOut (Wizard.avoidIngredientFlags st) (Wizard.flag config))
  else
    Wizard.set_tolerance st
      (<[a := (option =? "Yes")]> (Wizard.tolerance_answers st))
      (Wizard.spliceOut (Wizard.tolerateFlags st) (Wizard.flag config))
      (if negb (includes (Wizard.avoidIngredientFlags st) (Wizard.flag config))
       then (Wizard.avoidIngredientFlags st ++ [Wizard.flag config])%list
       else Wizard.avoidIngredientFlags st).
Proof.
  unfold Wizard.handleSingleSelect. cbn [Wizard.step_id].
  rewrite prefix_tolerance.
  change ("tolerance_" ++ a =? "crossContact") with false. reflexivity.
Qed.

Lemma isStepValid_tolerance a config st :
  Wizard.isStepValid (Some (Wizard.tolerance a config)) st =
  match Wizard.tolerance_answers st !! a with
  | Some _ => true
  | None => false
  end.
Proof.
  unfold Wizard.isStepValid. cbn [Wizard.step_id].
  rewrite prefix_tolerance.
  change ("tolerance_" ++ a =? "dietary") with false.
  change ("tolerance_" ++ a =? "allergies") with false.
  change ("tolerance_" ++ a =? "crossContact") with false. reflexivity.
Qed.

Lemma handleSingleSelect_consistent option s st :
  flags_consistent st ->
  flags_consistent (Wizard.handleSingleSelect option s st).
Proof.
  intros (Ht & Ha & Hd).
  destruct s as [| | |a config]; try (now repeat split).
  rewrite handleSingleSelect_tolerance.
  destruct (option =? "Yes"); repeat split; simpl.
  - now apply NoDup_push_if_absent.
  - now apply NoDup_spliceOut.
  - intros f Hf Hf'. apply In_push_if_absent in Hf as [Hf| ->].
    + apply In_spliceOut in Hf'. now apply (Hd f).
    + exact (spliceOut_gone _ _ Ha Hf').
  - now apply NoDup_spliceOut.
  - now apply NoDup_push_if_absent.
  - intros f Hf Hf'. apply In_push_if_absent in Hf' as [Hf'| ->].
    + apply In_spliceOut in Hf. now apply (Hd f).
    + exact (spliceOut_gone _ _ Ht Hf).
Qed.

(** X18.  No click of the wizard makes the flag lists inconsistent: if no
    flag is listed twice and none is both tolerated and avoided, the same
    holds after [handleOptionClick], whatever option is clicked in whatever
    step; the initial state is consistent. *)
Theorem X18_clicks_keep_flags_consistent :
  forall (toLowerCase : string -> string) (option : string)
         (st : Wizard.State),
    flags_consistent st ->
    flags_consistent (Wizard.handleOptionClick toLowerCase option st)
    /\ flags_consistent Wizard.state.
Proof.
  intros lower option st H. split.
  - unfold Wizard.handleOptionClick.
    destruct (Wizard.getCurrentStep lower st) as [s|]; [|assumption].
    destruct (Wizard.step_mode s =? "multi").
    + now apply handleMultiSelect_consistent.
    + now apply handleSingleSelect_consistent.
  - repeat split; simpl; try constructor. intros f [].
Qed.

(** A state in the first tolerance step, gluten selected and soy sauce so
    far avoided. *)
Lemma X18_witness :
  flags_consistent
    (Wizard.handleOptionClick (fun s => s) "Yes" asking_about_soy_sauce).
Proof.
  apply (X18_clicks_keep_flags_consistent (fun s => s) "Yes"
           asking_about_soy_sauce).
  split; [|split]; simpl.
  - constructor; [intros [] | constructor].
  - constructor; [intros [] | constructor].
  - intros f [<-|[]] [E|[]]. discriminate E.
Defined.

(** X19.  Answering a tolerance question records the answer and files the
    flag on one side only: after "Yes" the flag is tolerated and not
    avoided, after any other answer it is avoided and not tolerated; the
    step then counts as valid, and the selections made in the earlier steps
    are untouched. *)
Theorem X19_tolerance_answer_files_the_flag :
  forall (option allergen : string) (config : Wizard.ToleranceQuestion)
         (st : Wizard.State),
    flags_consistent st ->
    let st' :=
      Wizard.handleSingleSelect option (Wizard.tolerance allergen config) st in
    Wizard.tolerance_answers st' !! allergen = Some (option =? "Yes")
    /\ (if option =? "Yes" then
          In (Wizard.flag config) (Wizard.tolerateFlags st')
          /\ ~ In (Wizard.flag config) (Wizard.avoidIngredientFlags st')
        else
          In (Wizard.flag config) (Wizard.avoidIngredientFlags st')
          /\ ~ In (Wizard.flag config) (Wizard.tolerateFlags st'))
    /\ Wizard.isStepValid (Some (Wizard.tolerance allergen config)) st' = true
    /\ Wizard.step st' = Wizard.step st
    /\ Wizard.dietaryPreferences st' = Wizard.dietaryPreferences st
    /\ Wizard.avoidAllergens st' = Wizard.avoidAllergens st
    /\ Wizard.crossContactOk st' = Wizard.crossContactOk st.
Proof.
  intros option allergen config st (Ht & Ha & Hd) st'. unfold st'.
  rewrite isStepValid_tolerance, handleSingleSelect_tolerance.
  destruct (option =? "Yes"); simpl; rewrite lookup_insert_eq;
    repeat split; try reflexivity.
  - apply In_push_if_absent. now right.
  - now apply spliceOut_gone.
  - apply In_push_if_absent. now right.
  - now apply spliceOut_gone.
Qed.

Lemma X19_witness :
  Wizard.tolerance_answers
    (Wizard.handleSingleSelect "No"
       (Wizard.tolerance "gluten"
          {| Wizard.question := "Gluten allergy: can they have soy sauce?";
             Wizard.flag := "soy_sauce" |})
       Wizard.state) !! "gluten" = Some false.
Proof.
  apply (X19_tolerance_answer_files_the_flag "No" "gluten"
           {| Wizard.question := "Gluten allergy: can they have soy sauce?";
              Wizard.flag := "soy_sauce" |} Wizard.state).
  repeat split; simpl; try constructor. intros f [].
Defined.

(** ** Selections *)

Lemma In_delete_list {A} (l : list A) i z : In z (delete i l) -> In z l.
Proof.
  revert i. induction l as [|y l IH]; intros [|i]; simpl; auto.
  intros [H|H]; [now left | right; now apply (IH i)].
Qed.

Lemma selectOption_none_exclusive l lo :
  none_exclusive (Wizard.selectOption l lo).
Proof.
  unfold none_exclusive, Wizard.selectOption.
  destruct (String.eqb_spec lo "none") as [->|Hne]; [reflexivity|].
  destruct (includes l "none") eqn:E.
  - intros [H|[]]. congruence.
  - apply includes_not_In in E.
    destruct (Wizard.indexOf l lo).
    + intros H. apply In_delete_list in H. contradiction.
    + intros H. apply in_app_or in H as [H|[H|[]]]; [contradiction | congruence].
Qed.

Lemma selectOption_toggle l lo :
  lo <> "none" -> ~ In "none" l -> List.NoDup l ->
  List.NoDup (Wizard.selectOption l lo)
  /\ forall x, In x (Wizard.selectOption l lo) <->
               (x = lo /\ ~ In lo l) \/ (x <> lo /\ In x l).
Proof.
  intros Hne Hnone Hnd. unfold Wizard.selectOption.
  destruct (String.eqb_spec lo "none") as [E|_]; [contradiction|].
  rewrite (proj2 (includes_not_In _ _) Hnone).
  pose proof (indexOf_spec l lo) as H.
  destruct (Wizard.indexOf l lo) as [i|].
  - destruct H as (l1 & l2 & E & Hn1 & _ & Hd). rewrite Hd. subst l.
    split; [now apply List.NoDup_remove_1 in Hnd|].
    pose proof (List.NoDup_remove_2 _ _ _ Hnd) as Hn2.
    intros x. rewrite !in_app_iff. simpl. rewrite in_app_iff in Hn2.
    split.
    + intros Hx. right. split; [intros ->; tauto | tauto].
    + intros [[-> Hx]|[Hx1 Hx2]].
      * exfalso. apply Hx. right. now left.
      * destruct Hx2 as [Hx2|[Hx2|Hx2]]; [tauto | congruence | tauto].
  - split.
    + apply List.NoDup_app; [assumption | repeat constructor; intros [] |].
      intros z Hz [<-|[]]. contradiction.
    + intros x. rewrite in_app_iff. simpl. split.
      * intros [Hx|[<-|[]]]; [right; split; [congruence | assumption] | now left].
      * intros [[-> _]|[_ Hx]]; [right; now left | now left].
Qed.

Lemma fold_forgetTolerance_keeps l st :
  Wizard.step (fold_left Wizard.forgetTolerance l st) = Wizard.step st
  /\ Wizard.dietaryPreferences (fold_left Wizard.forgetTolerance l st)
     = Wizard.dietaryPreferences st
  /\ Wizard.avoidAllergens (fold_left Wizard.forgetTolerance l st)
     = Wizard.avoidAllergens st
  /\ Wizard.crossContactOk (fold_left Wizard.forgetTolerance l st)
     = Wizard.crossContactOk st.
Proof.
  revert st. induction l as [|a l IH]; intros st; simpl; [now repeat split|].
  destruct (IH (Wizard.forgetTolerance st a)) as (-> & -> & -> & ->).
  unfold Wizard.forgetTolerance.
  now destruct (Wizard.allergyToleranceMap !! a).
Qed.

Lemma handleMultiSelect_dietary lower option st :
  Wizard.handleMultiSelect lower option Wizard.dietary st =
  Wizard.set_dietaryPreferences st
    (Wizard.selectOption (Wizard.dietaryPreferences st) (lower option)).
Proof. reflexivity. Qed.

Lemma handleMultiSelect_allergies lower option st :
  Wizard.avoidAllergens
    (Wizard.handleMultiSelect lower option Wizard.allergies st)
  = Wizard.selectOption (Wizard.avoidAllergens st) (lower option)
  /\ Wizard.dietaryPreferences
       (Wizard.handleMultiSelect lower option Wizard.allergies st)
     = Wizard.dietaryPreferences st.
Proof.
  unfold Wizard.handleMultiSelect. simpl.
  match goal with
  | |- context [fold_left Wizard.forgetTolerance ?l ?s] =>
      destruct (fold_forgetTolerance_keeps l s) as (_ & -> & -> & _)
  end.
  now split.
Qed.

(** X20.  "none" never sits next to another choice: if in both
    multi-select lists "none" is either absent or the only entry, this is
    still so after any click, in any step. *)
Theorem X20_none_stays_exclusive :
  forall (toLowerCase : string -> string) (option : string)
         (st : Wizard.State),
    none_exclusive (Wizard.dietaryPreferences st) ->
    none_exclusive (Wizard.avoidAllergens st) ->
    let st' := Wizard.handleOptionClick toLowerCase option st in
    none_exclusive (Wizard.dietaryPreferences st')
    /\ none_exclusive (Wizard.avoidAllergens st').
Proof.
  intros lower option st Hd Ha st'. unfold st', Wizard.handleOptionClick.
  destruct (Wizard.getCurrentStep lower st) as [s|]; [|now split].
  destruct s as [| | |a config].
  - simpl. split; [apply selectOption_none_exclusive | assumption].
  - change (Wizard.step_mode Wizard.allergies =? "multi") with true.
    cbv iota.
    destruct (handleMultiSelect_allergies lower option st) as [-> ->].
    split; [assumption | apply selectOption_none_exclusive].
  - simpl. now split.
  - change (Wizard.step_mode (Wizard.tolerance a config) =? "multi")
      with false.
    cbv iota. rewrite handleSingleSelect_tolerance.
    destruct (option =? "Yes"); now split.
Qed.

Lemma X20_witness :
  none_exclusive
    (Wizard.dietaryPreferences
       (Wizard.handleOptionClick (fun s => s) "vegan"
          (Wizard.handleOptionClick (fun s => s) "none" Wizard.state))).
Proof.
  apply (X20_none_stays_exclusive (fun s => s) "vegan"
           (Wizard.handleOptionClick (fun s => s) "none" Wizard.state)).
  - simpl. intros _. reflexivity.
  - simpl. intros [].
Defined.

(** X21.  In a multi-select step a click toggles the clicked option and
    nothing else: for an option other than "none", on a duplicate-free list
    without "none", the list afterwards is duplicate-free and holds the
    option exactly if it did not before, and any other entry exactly if it
    did before.  This holds for the dietary list in the dietary step and for
    the allergen list in the allergies step. *)
Theorem X21_multi_select_toggles :
  forall (toLowerCase : string -> string) (option : string)
         (st : Wizard.State),
    let lo := toLowerCase option in
    lo <> "none" ->
    (~ In "none" (Wizard.dietaryPreferences st) ->
     List.NoDup (Wizard.dietaryPreferences st) ->
     let l' := Wizard.dietaryPreferences
                 (Wizard.handleMultiSelect toLowerCase option
                    Wizard.dietary st) in
     List.NoDup l'
     /\ forall x, In x l' <->
                  (x = lo /\ ~ In lo (Wizard.dietaryPreferences st))
                  \/ (x <> lo /\ In x (Wizard.dietaryPreferences st)))
    /\ (~ In "none" (Wizard.avoidAllergens st) ->
        List.NoDup (Wizard.avoidAllergens st) ->
        let l' := Wizard.avoidAllergens
                    (Wizard.handleMultiSelect toLowerCase option
                       Wizard.allergies st) in
        List.NoDup l'
        /\ forall x, In x l' <->
                     (x = lo /\ ~ In lo (Wizard.avoidAllergens st))
                     \/ (x <> lo /\ In x (Wizard.avoidAllergens st))).
Proof.
  intros lower option st lo Hne. split; intros Hnone Hnd l'; unfold l'.
  - rewrite handleMultiSelect_dietary. simpl.
    now apply selectOption_toggle.
  - destruct (handleMultiSelect_allergies lower option st) as [-> _].
    now apply selectOption_toggle.
Qed.

Lemma X21_witness :
  List.NoDup
    (Wizard.avoidAllergens
       (Wizard.handleMultiSelect (fun s => s) "gluten" Wizard.allergies
          asking_about_soy_sauce)).
Proof.
  destruct (X21_multi_select_toggles (fun s => s) "gluten"
              asking_about_soy_sauce) as [_ H].
  - discriminate.
  - apply H.
    + simpl. intros [E|[E|[]]]; discriminate E.
    + simpl. constructor; [intros [E|[]]; discriminate E|].
      constructor; [intros [] | constructor].
Defined.

(** ** Forgetting a deselected allergen *)

Lemma forgetTolerance_forgets a config st :
  flags_consistent st ->
  Wizard.allergyToleranceMap !! a = Some config ->
  forgotten a config (Wizard.forgetTolerance st a).
Proof.
  intros (Ht & Ha & _) Hm. unfold Wizard.forgetTolerance. rewrite Hm.
  repeat split; simpl.
  - apply lookup_delete_eq.
  - now apply spliceOut_gone.
  - now apply spliceOut_gone.
Qed.

Lemma forgetTolerance_stays_forgotten a config st b :
  forgotten a config st -> forgotten a config (Wizard.forgetTolerance st b).
Proof.
  intros (Hl & Ht & Ha). unfold Wizard.forgetTolerance.
  destruct (Wizard.allergyToleranceMap !! b) as [cb|]; [|now repeat split].
  repeat split; simpl.
  - apply lookup_delete_None. now right.
  - intros H. apply In_spliceOut in H. contradiction.
  - intros H. apply In_spliceOut in H. contradiction.
Qed.

Lemma fold_forgetTolerance_stays_forgotten a config l st :
  forgotten a config st ->
  forgotten a config (fold_left Wizard.forgetTolerance l st).
Proof.
  revert st. induction l as [|b l IH]; intros st H; simpl; [assumption|].
  now apply IH, forgetTolerance_stays_forgotten.
Qed.

Lemma fold_forgetTolerance_forgets a config l st :
  flags_consistent st ->
  Wizard.allergyToleranceMap !! a = Some config ->
  In a l ->
  forgotten a config (fold_left Wizard.forgetTolerance l st).
Proof.
  intros Hc Hm Hin. apply in_split in Hin as (l1 & l2 & ->).
  rewrite fold_left_app. simpl.
  apply fold_forgetTolerance_stays_forgotten, forgetTolerance_forgets;
    [|assumption].
  now apply fold_forgetTolerance_consistent.
Qed.

(** X22.  Deselecting an allergen wipes what was answered about it: when a
    click in the allergies step takes a selected allergen that has a
    tolerance question out of the selection (by toggling it off, or by
    choosing "None"), then afterwards there is no tolerance answer for it
    and its flag is neither tolerated nor avoided. *)
Theorem X22_deselected_allergen_is_forgotten :
  forall (toLowerCase : string -> string) (option : string)
         (st : Wizard.State) (a : string)
         (config : Wizard.ToleranceQuestion),
    flags_consistent st ->
    Wizard.allergyToleranceMap !! a = Some config ->
    In a (Wizard.avoidAllergens st) ->
    let st' :=
      Wizard.handleMultiSelect toLowerCase option Wizard.allergies st in
    ~ In a (Wizard.avoidAllergens st') ->
    forgotten a config st'.
Proof.
  intros lower option st a config Hc Hm Hin st' Hout.
  unfold st' in Hout.
  destruct (handleMultiSelect_allergies lower option st) as [Hsel _].
  rewrite Hsel in Hout.
  unfold st', Wizard.handleMultiSelect. simpl.
  apply fold_forgetTolerance_forgets; [exact Hc | exact Hm |].
  apply filter_In. split; [exact Hin|].
  apply andb_true_iff. split.
  - apply negb_true_iff. apply String.eqb_neq. intros ->.
    vm_compute in Hm. discriminate Hm.
  - apply negb_true_iff. now apply includes_not_In.
Qed.

(** Back in the allergies step, the diner clicks "None". *)
Lemma X22_witness :
  forgotten "gluten"
    {| Wizard.question := "Gluten allergy: can they have soy sauce?";
       Wizard.flag := "soy_sauce" |}
    (Wizard.handleMultiSelect (fun s => s) "none" Wizard.allergies
       asking_about_soy_sauce).
Proof.
  apply (X22_deselected_allergen_is_forgotten (fun s => s) "none"
           asking_about_soy_sauce "gluten").
  - split; [|split]; simpl.
    + constructor; [intros [] | constructor].
    + constructor; [intros [] | constructor].
    + intros f [<-|[]] [E|[]]. discriminate E.
  - reflexivity.
  - simpl. now left.
  - simpl. intros [E|[]]. discriminate E.
Defined.

(** ** Steps *)

Lemma length_filter_map {A B} (p : B -> bool) (f : A -> B) (l : list A) :
  length (List.filter p (List.map f l))
  = length (List.filter (fun x => p (f x)) l).
Proof.
  induction l as [|x l IH]; simpl; [reflexivity|].
  destruct (p (f x)); simpl; now rewrite IH.
Qed.

Lemma hasConfig_true a :
  Wizard.hasConfig a = true ->
  exists config, Wizard.allergyToleranceMap !! a = Some config.
Proof.
  unfold Wizard.hasConfig.
  destruct (Wizard.allergyToleranceMap !! a) as [c|]; [|discriminate].
  intros _. now exists c.
Qed.

(** X23.  [getCurrentStep] and [getTotalSteps] agree on where the wizard
    ends: there is a current step exactly as long as the step counter is
    below the total.  A tolerance step, when it is the current one, asks
    about a selected allergen other than "none" (in lower case) and carries
    the question and flag the tolerance map holds for it. *)
Theorem X23_current_step_exists_below_total :
  forall (toLowerCase : string -> string) (st : Wizard.State),
    (Wizard.getCurrentStep toLowerCase st = None <->
     Wizard.getTotalSteps toLowerCase st <= Wizard.step st)
    /\ forall a config,
         Wizard.getCurrentStep toLowerCase st
           = Some (Wizard.tolerance a config) ->
         Wizard.allergyToleranceMap !! a = Some config
         /\ exists a0, In a0 (Wizard.avoidAllergens st) /\ a0 <> "none"
                       /\ a = toLowerCase a0.
Proof.
  intros lower st. unfold Wizard.getCurrentStep, Wizard.getTotalSteps.
  change (length Wizard.baseSteps) with 3.
  rewrite <- (length_filter_map Wizard.hasConfig lower).
  set (relevant :=
         List.filter Wizard.hasConfig
           (List.map lower
              (List.filter (fun a => negb (a =? "none"))
                 (Wizard.avoidAllergens st)))).
  destruct (Nat.ltb_spec (Wizard.step st) 3) as [Hlt|Hge].
  - revert Hlt. generalize (Wizard.step st).
    intros [|[|[|n]]] Hlt; [| | |exfalso; lia]; simpl;
      (split; [split; [discriminate | lia] | discriminate]).
  - destruct (Nat.ltb_spec (Wizard.step st - 3) (length relevant))
      as [Hlt|Hge'].
    + destruct (lookup_lt_is_Some_2 relevant _ Hlt) as [a Ha]. rewrite Ha.
      assert (Hin : In a relevant)
        by (apply list_elem_of_In; eapply list_elem_of_lookup_2; exact Ha).
      unfold relevant in Hin. apply filter_In in Hin as [Hin Hcfg].
      destruct (hasConfig_true a Hcfg) as [c Hc]. rewrite Hc. split.
      * split; [discriminate | lia].
      * intros a' config [= <- <-]. split; [exact Hc|].
        apply in_map_iff in Hin as (a0 & <- & Hin0).
        apply filter_In in Hin0 as [Hin0 Hn]. exists a0.
        split; [exact Hin0|]. split; [|reflexivity].
        apply negb_true_iff in Hn. now apply String.eqb_neq.
    + split; [split; [lia | reflexivity] | discriminate].
Qed.

Lemma X23_witness :
  Wizard.allergyToleranceMap !! "gluten"
  = Some {| Wizard.question := "Gluten allergy: can they have soy sauce?";
            Wizard.flag := "soy_sauce" |}.
Proof.
  destruct (X23_current_step_exists_below_total (fun s => s)
              asking_about_soy_sauce) as [_ H].
  apply (H "gluten"). reflexivity.
Defined.

(** ** From the wizard to the server *)

Lemma filterItem_nothing_avoided cc tol r item :
  filterItem [] [] [] cc tol r item = push_safe r (newItemStatus item).
Proof. reflexivity. Qed.

Lemma filter_only_none (l : list string) :
  (forall x, In x l -> x = "none") ->
  List.filter (fun x => negb (x =? "none")) l = [].
Proof.
  intros H. apply filter_none. intros x Hx. now rewrite (H x Hx).
Qed.

(** X24.  A diner who chooses "None" in both multi-select steps and has no
    avoided flag on file gets the whole menu: the profile the wizard submits
    carries no "none" entry, and the server answers it with every catalog
    item in [safeForAll], in catalog order and without reasons, and nothing
    in the other lists, whatever was answered about cross-contact. *)
Theorem X24_no_restrictions_end_to_end :
  forall (catalog : list MenuItem) (st : Wizard.State),
    (forall d, In d (Wizard.dietaryPreferences st) -> d = "none") ->
    (forall a, In a (Wizard.avoidAllergens st) -> a = "none") ->
    Wizard.avoidIngredientFlags st = [] ->
    Server.run catalog (Some (submitProfile_profile st)) =
    Server.json
      {| Server.safeForAll := List.map newItemStatus catalog;
         Server.canBeModifiedForAll := [];
         Server.filteredForAll := [];
         Server.safeByAllergy := ∅ |}.
Proof.
  intros catalog st Hd Ha Hf.
  unfold Server.run, submitProfile_profile. simpl.
  rewrite (filter_only_none _ Hd), (filter_only_none _ Ha), Hf. simpl.
  rewrite orb_false_r.
  unfold filterByDietaryAndAllergies_throws.
  rewrite existsb_all_false by (intros item; reflexivity).
  unfold filterByDietaryAndAllergies.
  rewrite (fold_left_push_safe _ newItemStatus
             (filterItem_nothing_avoided _ _)).
  reflexivity.
Qed.

Lemma X24_witness :
  Server.run [egg_rice; fried_rice]
    (Some (submitProfile_profile
             (Wizard.handleOptionClick (fun s => s) "none" Wizard.state)))
  = Server.json
      {| Server.safeForAll := [newItemStatus egg_rice; newItemStatus fried_rice];
         Server.canBeModifiedForAll := [];
         Server.filteredForAll := [];
         Server.safeByAllergy := ∅ |}.
Proof.
  apply (X24_no_restrictions_end_to_end [egg_rice; fried_rice]
           (Wizard.handleOptionClick (fun s => s) "none" Wizard.state)).
  - simpl. intros d [<-|[]]. reflexivity.
  - simpl. intros a [].
  - reflexivity.
Defined.
